(** * Geotab MCP adapter: the discover/execute dispatchers of both server
    variants, embedded from the Python sources.

    - [Py]            : the fragment of Python the sources rely on (values,
                        exceptions, [try]/[except], keyword binding,
                        [float], [datetime], [timedelta], [isoformat]).
    - [Pydantic]      : field validation of the request models (pydantic v1:
                        the models use [Field(..., const=True)] and [.dict()]).
    - [McpServer]     : geotab-mcp-server (mcp_server/models.py,
                        mcp_server/operations.py, mcp_server/server.py).
    - [McpDocker]     : geotab-mcp-docker (mcp/models.py, mcp/operations.py,
                        mcp/server.py).
    - [Stub]          : small worlds to run the dispatchers in.

    Handlers run in a world [W] that holds the clock and the Geotab client;
    an outcome is a value or a raised exception.  Logging changes neither
    and is left out.  Messages of built-in exceptions are CPython 3.11's. *)

From Stdlib Require Import ZArith String Ascii List Lia.
From Stdlib Require Import SpecFloat.
From stdpp Require Import base option strings list gmap pretty.

Set Warnings "-register-all".
Local Open Scope string_scope.
Local Open Scope Z_scope.

(* ===================================================================== *)
(** ** Python values, exceptions and control flow                          *)
(* ===================================================================== *)

Module Py.

(** Python objects that travel through the dispatchers: what [json.loads]
    produces and what the handlers build.  A [dict] keeps insertion order,
    so it is an association list; [float] is an IEEE binary64 value. *)
Inductive pyval : Type :=
| VNone
| VBool (b : bool)
| VInt (z : Z)
| VFloat (f : spec_float)
| VStr (s : string)
| VList (l : list pyval)
| VDict (d : list (string * pyval)).

Abbreviation dict := (list (string * pyval)).

(** Lookup in an insertion-ordered mapping with [str] keys, then
    [d.get(k)] / [d.get(k, dflt)] and [k in d]. *)
Fixpoint dict_lookup {A} (d : list (string * A)) (k : string) : option A :=
  match d with
  | [] => None
  | (k', v) :: d' => if String.eqb k' k then Some v else dict_lookup d' k
  end.

Definition dict_get_default (d : dict) (k : string) (dflt : pyval) : pyval :=
  default dflt (dict_lookup d k).

Definition dict_get (d : dict) (k : string) : pyval :=
  dict_get_default d k VNone.

Definition dict_keys {A} (d : list (string * A)) : list string := d.*1.

Definition dict_contains {A} (d : list (string * A)) (k : string) : bool :=
  bool_decide (k ∈ dict_keys d).

(** Truth value of an object ([not x], [if x]). *)
Definition float_is_zero (f : spec_float) : bool :=
  match f with S754_zero _ => true | _ => false end.

Definition truthy (v : pyval) : bool :=
  match v with
  | VNone => false
  | VBool b => b
  | VInt z => negb (z =? 0)
  | VFloat f => negb (float_is_zero f)
  | VStr s => negb (String.eqb s "")
  | VList l => match l with [] => false | _ => true end
  | VDict d => match d with [] => false | _ => true end
  end.

(** [x == "literal"]: a [str] is equal to a [str] only. *)
Definition eq_str (v : pyval) (s : string) : bool :=
  match v with VStr s' => String.eqb s' s | _ => false end.

(** Exceptions.  Every value of [exn] is an instance of [Exception]:
    [exn_bases] names its class and the ancestors of that class below
    [Exception]; [exn_str] is [str(e)]; [exn_errors] is what [e.errors()]
    returns for pydantic's [ValidationError] ([VNone] otherwise). *)
Record exn : Type := Exn {
  exn_bases : list string;
  exn_str : string;
  exn_errors : pyval
}.

Definition isinstance (e : exn) (cls : string) : bool :=
  String.eqb cls "Exception" || bool_decide (cls ∈ exn_bases e).

Definition TypeError (msg : string) : exn := Exn ["TypeError"] msg VNone.
Definition ValueError (msg : string) : exn := Exn ["ValueError"] msg VNone.
Definition OverflowError (msg : string) : exn :=
  Exn ["OverflowError"; "ArithmeticError"] msg VNone.
Definition AttributeError (msg : string) : exn :=
  Exn ["AttributeError"] msg VNone.

(** Class name shown in messages ([type(x).__name__]). *)
Definition type_name (v : pyval) : string :=
  match v with
  | VNone => "NoneType"
  | VBool _ => "bool"
  | VInt _ => "int"
  | VFloat _ => "float"
  | VStr _ => "str"
  | VList _ => "list"
  | VDict _ => "dict"
  end.

(** *** Computations: a world [W] (clock, data source) threaded through,
    and an outcome that is either a raised exception or a value. *)
Section Monad.
Context {W : Type}.

Definition M (A : Type) : Type := W → (exn + A) * W.

Definition ret {A} (a : A) : M A := λ w, (inr a, w).
Definition raise {A} (e : exn) : M A := λ w, (inl e, w).
Definition bind {A B} (c : M A) (k : A → M B) : M B :=
  λ w, match c w with
       | (inl e, w') => (inl e, w')
       | (inr a, w') => k a w'
       end.

(** Lift a step that needs no world. *)
Definition lift {A} (r : exn + A) : M A := λ w, (r, w).

(** [try: body / except C1 as e: h1 / except C2 as e: h2 ...]: the first
    clause whose class the exception is an instance of handles it; with
    no such clause the exception propagates. *)
Fixpoint select_clause {A} (e : exn) (clauses : list (string * (exn → M A)))
  : option (exn → M A) :=
  match clauses with
  | [] => None
  | (cls, h) :: rest => if isinstance e cls then Some h else select_clause e rest
  end.

Definition try_except {A} (body : M A) (clauses : list (string * (exn → M A)))
  : M A :=
  λ w, match body w with
       | (inl e, w') =>
           match select_clause e clauses with
           | Some h => h e w'
           | None => (inl e, w')
           end
       | (inr a, w') => (inr a, w')
       end.
End Monad.

Arguments M : clear implicits.

(** *** Numbers and time: [float()], [timedelta(...)], [datetime] *)

Definition float_of_Z (n : Z) : spec_float := binary_normalize 53 1024 n 0 false.

Definition float_is_inf (f : spec_float) : bool :=
  match f with S754_infinity _ => true | _ => false end.

(** The integer a float denotes, when it denotes one. *)
Definition float_integral (f : spec_float) : option Z :=
  match f with
  | S754_zero _ => Some 0
  | S754_finite s m e =>
      let z := cond_Zopp s (Z.pos m) in
      if 0 <=? e then Some (z * 2 ^ e)
      else if Z.pos m mod 2 ^ (- e) =? 0 then Some (z / 2 ^ (- e))
      else None
  | _ => None
  end.

Definition repr_str (s : string) : string := "'" ++ s ++ "'".

(** [repr(s)] of a string whose characters are code points below 256: the
    single quote unless the string holds one and no double quote, a
    backslash before the quote in use and before a backslash, the short
    escapes of tab, newline and carriage return, and the two-digit hex
    escape for every other character that Python does not print. *)
Definition single_quote : ascii := ascii_of_N 39.
Definition double_quote : ascii := ascii_of_N 34.
Definition backslash : ascii := ascii_of_N 92.

Definition hex_digit (n : N) : ascii :=
  ascii_of_N (if (n <? 10)%N then 48 + n else 87 + n).

Definition printable (c : ascii) : bool :=
  let n := N_of_ascii c in
  ((32 <=? n)%N && (n <? 127)%N) || ((161 <=? n)%N && negb (n =? 173)%N).

Definition escape_char (quote c : ascii) : string :=
  let n := N_of_ascii c in
  if Ascii.eqb c quote || Ascii.eqb c backslash then String backslash (String c "")
  else if (n =? 9)%N then String backslash "t"
  else if (n =? 10)%N then String backslash "n"
  else if (n =? 13)%N then String backslash "r"
  else if printable c then String c ""
  else String backslash
         (String "x" (String (hex_digit (n / 16)) (String (hex_digit (n mod 16)) ""))).

Definition str_repr (s : string) : string :=
  let chars := list_ascii_of_string s in
  let quote :=
    if existsb (Ascii.eqb single_quote) chars
       && negb (existsb (Ascii.eqb double_quote) chars)
    then double_quote else single_quote in
  String quote
    (String.concat "" (escape_char quote <$> chars) ++ String quote "").

(** Library behaviour the sources never pin down, kept abstract: how
    [float()] reads a string, the microseconds [timedelta] rounds a
    fractional float to (the float counts units of [unit_us] microseconds),
    [str()] of a float and of a list or dict, which non-[dict] objects
    [dict(v)] accepts, and the text of the [TypeError] a pydantic model's
    [__init__(__pydantic_self__, ...)] raises when its own first parameter
    comes again as a keyword. *)
Record runtime : Type := Runtime {
  parse_float : string → option spec_float;
  timedelta_frac : Z → spec_float → Z;
  float_str : spec_float → string;
  container_str : pyval → string;
  dict_coerce : pyval → option dict;
  init_collision : string
}.

Section Builtins.
Variable rt : runtime.

(** [str(v)], as an f-string formats it. *)
Definition py_str (v : pyval) : string :=
  match v with
  | VNone => "None"
  | VBool b => if b then "True" else "False"
  | VInt z => pretty z
  | VFloat f => float_str rt f
  | VStr s => s
  | _ => container_str rt v
  end.

(** [float(v)] *)
Definition py_float (v : pyval) : exn + spec_float :=
  match v with
  | VFloat f => inr f
  | VInt n =>
      let f := float_of_Z n in
      if float_is_inf f then inl (OverflowError "int too large to convert to float")
      else inr f
  | VBool b => inr (float_of_Z (if b then 1 else 0))
  | VStr s =>
      match parse_float rt s with
      | Some f => inr f
      | None => inl (ValueError ("could not convert string to float: " ++ str_repr s))
      end
  | _ => inl (TypeError ("float() argument must be a string or a real number, not "
                           ++ repr_str (type_name v)))
  end.

(** A [timedelta] is its total number of microseconds; Python keeps it
    normalised as (days, seconds, microseconds) with |days| bounded. *)
Definition timedelta : Type := Z.
Definition us_per_day : Z := 86400000000.
Definition us_per_hour : Z := 3600000000.
Definition max_delta_days : Z := 999999999.

Definition timedelta_check (us : Z) : exn + timedelta :=
  let d := us / us_per_day in
  if (- max_delta_days <=? d) && (d <=? max_delta_days) then inr us
  else if (- 2147483648 <=? d) && (d <=? 2147483647) then
    inl (OverflowError ("days=" ++ pretty d ++ "; must have magnitude <= 999999999"))
  else inl (OverflowError "Python int too large to convert to C int").

(** [timedelta(days=v)] with [unit_us = us_per_day], [timedelta(hours=v)]
    with [unit_us = us_per_hour]. *)
Definition timedelta_of (unit_us : Z) (what : string) (v : pyval) : exn + timedelta :=
  match v with
  | VInt n => timedelta_check (n * unit_us)
  | VBool b => timedelta_check ((if b then 1 else 0) * unit_us)
  | VFloat f =>
      match f with
      | S754_nan => inl (ValueError "cannot convert float NaN to integer")
      | S754_infinity _ => inl (OverflowError "cannot convert float infinity to integer")
      | _ =>
          match float_integral f with
          | Some n => timedelta_check (n * unit_us)
          | None => timedelta_check (timedelta_frac rt unit_us f)
          end
      end
  | _ => inl (TypeError ("unsupported type for timedelta " ++ what ++ " component: "
                           ++ type_name v))
  end.

(** A naive [datetime] is the number of microseconds since
    0001-01-01T00:00:00 (proleptic Gregorian ordinal 1); the last
    representable day has ordinal [max_ordinal]. *)
Definition datetime : Type := Z.
Definition max_ordinal : Z := 3652059.

Definition datetime_valid (t : datetime) : Prop :=
  0 <= t < max_ordinal * us_per_day.

(** [t - delta] *)
Definition datetime_sub (t : datetime) (delta : timedelta) : exn + datetime :=
  let r := t - delta in
  if (0 <=? r) && (r <? max_ordinal * us_per_day) then inr r
  else inl (OverflowError "date value out of range").

(** [_ord2ymd]: ordinal to (year, month, day). *)
Definition days_before_month (month : Z) : Z :=
  nth (Z.to_nat month) [-1; 0; 31; 59; 90; 120; 151; 181; 212; 243; 273; 304; 334] 0.
Definition days_in_month (month : Z) : Z :=
  nth (Z.to_nat month) [-1; 31; 28; 31; 30; 31; 30; 31; 31; 30; 31; 30; 31] 0.
Definition Z_of_bool (b : bool) : Z := if b then 1 else 0.

Definition ord2ymd (ordinal : Z) : Z * Z * Z :=
  let n := ordinal - 1 in
  let n400 := n / 146097 in let n := n mod 146097 in
  let year := n400 * 400 + 1 in
  let n100 := n / 36524 in let n := n mod 36524 in
  let n4 := n / 1461 in let n := n mod 1461 in
  let n1 := n / 365 in let n := n mod 365 in
  let year := year + n100 * 100 + n4 * 4 + n1 in
  if (n1 =? 4) || (n100 =? 4) then (year - 1, 12, 31)
  else
    let leapyear := (n1 =? 3) && (negb (n4 =? 24) || (n100 =? 3)) in
    let month := Z.shiftr (n + 50) 5 in
    let preceding := days_before_month month + Z_of_bool ((2 <? month) && leapyear) in
    if n <? preceding then
      let month := month - 1 in
      let preceding :=
        preceding - (days_in_month month + Z_of_bool ((month =? 2) && leapyear)) in
      (year, month, n - preceding + 1)
    else (year, month, n - preceding + 1).

(** ["%0<width>d"] for a non-negative number: [width] digits, or all the
    digits when there are more. *)
Definition digit_char (d : Z) : ascii := ascii_of_N (Z.to_N (48 + d)).

Fixpoint fixed_digits (width : nat) (n : Z) : string :=
  match width with
  | O => ""
  | S w => fixed_digits w (n / 10) ++ String (digit_char (n mod 10)) ""
  end.

Definition zero_pad (width : nat) (n : Z) : string :=
  if n <? 10 ^ Z.of_nat width then fixed_digits width n else pretty n.

(** [t.isoformat()] *)
Definition isoformat (t : datetime) : string :=
  let '(y, m, d) := ord2ymd (t / us_per_day + 1) in
  let r := t mod us_per_day in
  let us := r mod 1000000 in
  let s := r / 1000000 in
  zero_pad 4 y ++ "-" ++ zero_pad 2 m ++ "-" ++ zero_pad 2 d ++ "T"
    ++ zero_pad 2 (s / 3600) ++ ":" ++ zero_pad 2 (s / 60 mod 60) ++ ":"
    ++ zero_pad 2 (s mod 60)
    ++ (if us =? 0 then "" else "." ++ zero_pad 6 us).
End Builtins.

(** *** Reading an ISO string back

    [parse_isoformat] is the instant a string of the form
    [YYYY-MM-DDTHH:MM:SS] or [YYYY-MM-DDTHH:MM:SS.ffffff] denotes; it is how
    a client of the protocol reads [from_date] and [to_date]. *)
Definition digit_value (c : ascii) : option Z :=
  let code := Z.of_N (N_of_ascii c) in
  if (48 <=? code) && (code <=? 57) then Some (code - 48) else None.

(** Read exactly [width] digits. *)
Fixpoint take_digits (width : nat) (acc : Z) (s : string) : option (Z * string) :=
  match width with
  | O => Some (acc, s)
  | S w =>
      match s with
      | String c rest =>
          match digit_value c with
          | Some d => take_digits w (10 * acc + d) rest
          | None => None
          end
      | EmptyString => None
      end
  end.

Definition expect_char (c : ascii) (s : string) : option string :=
  match s with
  | String c' rest => if Ascii.eqb c c' then Some rest else None
  | EmptyString => None
  end.

(** [_ymd2ord]: (year, month, day) to ordinal. *)
Definition is_leap (year : Z) : bool :=
  (year mod 4 =? 0) && (negb (year mod 100 =? 0) || (year mod 400 =? 0)).

Definition days_before_year (year : Z) : Z :=
  let y := year - 1 in y * 365 + y / 4 - y / 100 + y / 400.

Definition ymd2ord (year month day : Z) : Z :=
  days_before_year year
  + (days_before_month month + Z_of_bool ((2 <? month) && is_leap year))
  + day.

(** What one 400-year cycle of the calendar has to satisfy, for the day at
    offset [r] from its start: the date is in range and [ymd2ord] maps it
    back; up to offset 145730 the year is not the last of the cycle. *)
Definition cycle_day_ok (r : Z) : bool :=
  let '(y, m, d) := ord2ymd (r + 1) in
  (1 <=? y) && (y <=? 400) && ((145730 <? r) || (y <=? 399))
  && (1 <=? m) && (m <=? 12) && (1 <=? d) && (d <=? 31)
  && (ymd2ord y m d =? r + 1).

(** The check run over consecutive days, from a first offset on. *)
Definition cycle_step (st : Z * bool) : Z * bool :=
  (st.1 + 1, st.2 && cycle_day_ok st.1).

Definition parse_isoformat (s : string) : option datetime :=
  '(year, s) ← take_digits 4 0 s;
  s ← expect_char "-" s;
  '(month, s) ← take_digits 2 0 s;
  s ← expect_char "-" s;
  '(day, s) ← take_digits 2 0 s;
  s ← expect_char "T" s;
  '(hour, s) ← take_digits 2 0 s;
  s ← expect_char ":" s;
  '(minute, s) ← take_digits 2 0 s;
  s ← expect_char ":" s;
  '(second, s) ← take_digits 2 0 s;
  '(us, s) ← match s with
             | EmptyString => Some (0, s)
             | _ => s ← expect_char "." s; take_digits 6 0 s
             end;
  match s with
  | EmptyString =>
      Some ((ymd2ord year month day - 1) * us_per_day
            + ((hour * 3600 + minute * 60 + second) * 1000000 + us))
  | _ => None
  end.

(** *** Calling a method with keyword arguments

    A signature lists the parameters after [self] with their defaults.
    Keywords are bound in order: one that names [self] (already bound
    positionally) or no parameter at all is a [TypeError]; afterwards every
    parameter left without value and without default is a [TypeError]. *)
Definition signature : Type := list (string * option pyval).

Fixpoint check_keywords (fname : string) (sig : signature) (kwargs : dict)
  : option exn :=
  match kwargs with
  | [] => None
  | (k, _) :: rest =>
      if String.eqb k "self" then
        Some (TypeError (fname ++ "() got multiple values for argument 'self'"))
      else if dict_contains sig k then check_keywords fname sig rest
      else Some (TypeError (fname ++ "() got an unexpected keyword argument "
                              ++ repr_str k))
  end.

Definition missing_args (sig : signature) (kwargs : dict) : list string :=
  omap (λ p : string * option pyval,
          match p.2, dict_lookup kwargs p.1 with
          | None, None => Some p.1
          | _, _ => None
          end) sig.

Fixpoint english_list (names : list string) : string :=
  match names with
  | [] => ""
  | [a] => repr_str a
  | [a; b] => repr_str a ++ " and " ++ repr_str b
  | a :: rest =>
      repr_str a ++ ", " ++
      match rest with
      | [b; c] => repr_str b ++ ", and " ++ repr_str c
      | _ => english_list rest
      end
  end.

Definition missing_message (fname : string) (names : list string) : string :=
  fname ++ "() missing " ++ pretty (Z.of_nat (length names))
    ++ " required positional argument"
    ++ (if Nat.eqb (length names) 1 then "" else "s") ++ ": " ++ english_list names.

(** The bound arguments, one per parameter, in signature order. *)
Definition bind_kwargs (fname : string) (sig : signature) (kwargs : dict)
  : exn + dict :=
  match check_keywords fname sig kwargs with
  | Some e => inl e
  | None =>
      match missing_args sig kwargs with
      | [] => inr (map (λ p : string * option pyval,
                          (p.1, default (default VNone p.2) (dict_lookup kwargs p.1)))
                       sig)
      | names => inl (TypeError (missing_message fname names))
      end
  end.

(** [x.get(k, dflt)] on an object that should be a [dict]. *)
Definition method_get (x : pyval) (k : string) (dflt : pyval) : exn + pyval :=
  match x with
  | VDict d => inr (dict_get_default d k dflt)
  | _ => inl (AttributeError (repr_str (type_name x)
                                ++ " object has no attribute 'get'"))
  end.

(** [[x for x in xs if x.get(k, dflt)]] *)
Fixpoint filter_by_flag (k : string) (dflt : pyval) (xs : list pyval)
  : exn + list pyval :=
  match xs with
  | [] => inr []
  | x :: rest =>
      match method_get x k dflt with
      | inl e => inl e
      | inr flag =>
          match filter_by_flag k dflt rest with
          | inl e => inl e
          | inr kept => inr (if truthy flag then x :: kept else kept)
          end
      end
  end.

(** [x[k]] with a string [k]; [str(KeyError(k))] is [repr(k)]. *)
Definition getitem (x : pyval) (k : string) : exn + pyval :=
  match x with
  | VDict d =>
      match dict_lookup d k with
      | Some v => inr v
      | None => inl (Exn ["KeyError"; "LookupError"] (str_repr k) VNone)
      end
  | VStr _ => inl (TypeError "string indices must be integers, not 'str'")
  | VList _ => inl (TypeError "list indices must be integers or slices, not str")
  | _ => inl (TypeError (repr_str (type_name x) ++ " object is not subscriptable"))
  end.

Declare Scope py_scope.
Delimit Scope py_scope with py.
Notation "x <- c ;; k" := (bind c (λ x, k))
  (at level 100, c at next level, right associativity) : py_scope.
Notation "c ;;; k" := (bind c (λ _, k))
  (at level 100, right associativity) : py_scope.

End Py.

Import Py.
Local Open Scope py_scope.

(* ===================================================================== *)
(** ** pydantic (v1) field validation, as the request models use it        *)
(* ===================================================================== *)

Module Pydantic.

Record field_error : Type := FieldError {
  fe_loc : string;
  fe_msg : string;
  fe_type : string
}.

Definition missing (field : string) : field_error :=
  FieldError field "field required" "value_error.missing".
Definition none_not_allowed (field : string) : field_error :=
  FieldError field "none is not an allowed value" "type_error.none.not_allowed".

Definition newline : string := String (ascii_of_nat 10) EmptyString.

Definition display_error (fe : field_error) : string :=
  fe_loc fe ++ newline ++ "  " ++ fe_msg fe ++ " (type=" ++ fe_type fe ++ ")".

Definition error_dict (fe : field_error) : pyval :=
  VDict [("loc", VList [VStr (fe_loc fe)]);
         ("msg", VStr (fe_msg fe));
         ("type", VStr (fe_type fe))].

(** [ValidationError] derives from [ValueError]. *)
Definition ValidationError (model : string) (errors : list field_error) : exn :=
  Exn ["ValidationError"; "ValueError"]
      (pretty (Z.of_nat (length errors)) ++ " validation error"
         ++ (if Nat.eqb (length errors) 1 then "" else "s") ++ " for " ++ model
         ++ newline ++ String.concat newline (display_error <$> errors))
      (VList (error_dict <$> errors)).

Section Validators.
Variable rt : runtime.

(** A [str] field: numbers are converted with [str()], other objects are
    refused. *)
Definition str_validator (field : string) (v : pyval) : field_error + string :=
  match v with
  | VStr _ | VInt _ | VBool _ | VFloat _ => inr (py_str rt v)
  | VNone => inl (none_not_allowed field)
  | _ => inl (FieldError field "str type expected" "type_error.str")
  end.

(** A [Dict[str, Any]] field. *)
Definition dict_validator (field : string) (v : pyval) : field_error + dict :=
  match v with
  | VDict d => inr d
  | VNone => inl (none_not_allowed field)
  | _ =>
      match dict_coerce rt v with
      | Some d => inr d
      | None => inl (FieldError field "value is not a valid dict" "type_error.dict")
      end
  end.

(** A required field of the keyword arguments [data]. *)
Definition required {A} (validate : string → pyval → field_error + A)
    (data : dict) (field : string) : field_error + A :=
  match dict_lookup data field with
  | None => inl (missing field)
  | Some v => validate field v
  end.

(** A field with a default. *)
Definition optional {A} (validate : string → pyval → field_error + A)
    (data : dict) (field : string) (dflt : A) : field_error + A :=
  match dict_lookup data field with
  | None => inr dflt
  | Some v => validate field v
  end.

(** [Field(value, const=True)]: absent, or equal to the default. *)
Definition const_str (data : dict) (field : string) (value : string)
  : field_error + string :=
  match optional str_validator data field value with
  | inl fe => inl fe
  | inr s =>
      if String.eqb s value then inr s
      else inl (FieldError field ("unexpected value; permitted: " ++ repr_str value)
                           "value_error.const")
  end.
End Validators.

Definition errors_of {A} (r : field_error + A) : list field_error :=
  match r with inl fe => [fe] | inr _ => [] end.

(** [Model(...)] is [BaseModel.__init__(__pydantic_self__, ...)] with the
    body's fields as keywords: a field named like that first parameter
    does not bind, and the call raises [TypeError] before any field is
    validated. *)
Definition self_parameter : string := "__pydantic_self__".

Definition init {A} (rt : runtime) (data : dict) (validate : exn + A) : exn + A :=
  match dict_lookup data self_parameter with
  | Some _ => inl (TypeError (init_collision rt))
  | None => validate
  end.

End Pydantic.

(* ===================================================================== *)
(** ** geotab-mcp-server                                                   *)
(* ===================================================================== *)

Module McpServer.

(** *** mcp_server/models.py *)

Record MCPParameter : Type := mkParameter {
  param_name : string;
  param_type : string;
  param_description : string;
  param_required : bool;
  param_default : pyval
}.

Record MCPOperation : Type := mkOperation {
  op_name : string;
  op_description : string;
  op_parameters : list MCPParameter;
  op_returns : string
}.

Record MCPDiscoverRequest : Type := mkDiscoverRequest {
  dreq_type : string;
  dreq_version : string
}.

Record MCPExecuteRequest : Type := mkExecuteRequest {
  ereq_type : string;
  ereq_version : string;
  ereq_operation : string;
  ereq_parameters : dict
}.

(** [.dict()] of the models. *)
Definition MCPParameter_dict (p : MCPParameter) : pyval :=
  VDict [("name", VStr (param_name p));
         ("type", VStr (param_type p));
         ("description", VStr (param_description p));
         ("required", VBool (param_required p));
         ("default", param_default p)].

Definition MCPOperation_dict (o : MCPOperation) : pyval :=
  VDict [("name", VStr (op_name o));
         ("description", VStr (op_description o));
         ("parameters", VList (MCPParameter_dict <$> op_parameters o));
         ("returns", VStr (op_returns o))].

Definition MCPDiscoverResponse_dict (version : string) (operations : list MCPOperation)
  : pyval :=
  VDict [("type", VStr "discover");
         ("version", VStr version);
         ("operations", VList (MCPOperation_dict <$> operations))].

Definition MCPExecuteResponse_dict (version operation : string) (result : dict)
  : pyval :=
  VDict [("type", VStr "execute");
         ("version", VStr version);
         ("operation", VStr operation);
         ("result", VDict result)].

Definition MCPErrorResponse_dict (version error : string) (details : dict) : pyval :=
  VDict [("type", VStr "error");
         ("version", VStr version);
         ("error", VStr error);
         ("details", VDict details)].

Section Requests.
Variable rt : runtime.

(** [MCPDiscoverRequest] built from the keywords [data]. *)
Definition MCPDiscoverRequest_init (data : dict) : exn + MCPDiscoverRequest :=
  Pydantic.init rt data
    (let type_ := Pydantic.const_str rt data "type" "discover" in
     let version := Pydantic.required (Pydantic.str_validator rt) data "version" in
     match type_, version with
     | inr t, inr v => inr (mkDiscoverRequest t v)
     | _, _ => inl (Pydantic.ValidationError "MCPDiscoverRequest"
                      (Pydantic.errors_of type_ ++ Pydantic.errors_of version))
     end).

(** [MCPExecuteRequest] built from the keywords [data]. *)
Definition MCPExecuteRequest_init (data : dict) : exn + MCPExecuteRequest :=
  Pydantic.init rt data
    (let type_ := Pydantic.const_str rt data "type" "execute" in
     let version := Pydantic.required (Pydantic.str_validator rt) data "version" in
     let operation := Pydantic.required (Pydantic.str_validator rt) data "operation" in
     let parameters :=
       Pydantic.optional (Pydantic.dict_validator rt) data "parameters" [] in
     match type_, version, operation, parameters with
     | inr t, inr v, inr o, inr ps => inr (mkExecuteRequest t v o ps)
     | _, _, _, _ =>
         inl (Pydantic.ValidationError "MCPExecuteRequest"
                (Pydantic.errors_of type_ ++ Pydantic.errors_of version
                   ++ Pydantic.errors_of operation ++ Pydantic.errors_of parameters))
     end).

(** [MCPExecuteResponse(version=, operation=, result=).dict()]: the
    [result] field is a [Dict[str, Any]]. *)
Definition MCPExecuteResponse_init (version operation : string) (result : pyval)
  : exn + pyval :=
  match Pydantic.dict_validator rt "result" result with
  | inr d => inr (MCPExecuteResponse_dict version operation d)
  | inl fe => inl (Pydantic.ValidationError "MCPExecuteResponse" [fe])
  end.
End Requests.

(** *** geotab_api/client.py, class [GeotabClient], as the operations see
    it: each method runs in the world and returns records or raises. *)
Module GeotabClient.
Record t (W : Type) : Type := mk {
  get_devices : M W (list pyval);
  get_device_location : pyval → M W pyval;
  get_trip_data : pyval → datetime → datetime → M W (list pyval);
  get_fault_data : pyval → datetime → datetime → M W (list pyval)
}.
Arguments get_devices {W}.
Arguments get_device_location {W}.
Arguments get_trip_data {W}.
Arguments get_fault_data {W}.
End GeotabClient.

(** *** mcp_server/operations.py: class [GeotabOperations] *)
Module GeotabOperations.

Section Operations.
Context {W : Type}.
Variable rt : runtime.
(** [datetime.now()] *)
Variable now : W → datetime * W.
(** [self.client] *)
Variable client : GeotabClient.t W.

Definition datetime_now : M W datetime := λ w, let '(t, w') := now w in (inr t, w').

Definition get_device_info (include_inactive : pyval) : M W pyval :=
  devices <- GeotabClient.get_devices client ;;
  devices <- (if negb (truthy include_inactive)
              then lift (filter_by_flag "active" (VBool true) devices)
              else ret devices) ;;
  timestamp <- datetime_now ;;
  ret (VDict [("operation", VStr "get_device_info");
              ("result", VDict [("devices", VList devices);
                                ("count", VInt (Z.of_nat (length devices)));
                                ("timestamp", VStr (isoformat timestamp))])]).

Definition get_device_location (device_id : pyval) : M W pyval :=
  location <- GeotabClient.get_device_location client device_id ;;
  if negb (truthy location) then
    timestamp <- datetime_now ;;
    ret (VDict [("operation", VStr "get_device_location");
                ("result", VDict [("error", VStr "Device location not found");
                                  ("device_id", device_id);
                                  ("timestamp", VStr (isoformat timestamp))])])
  else
    timestamp <- datetime_now ;;
    ret (VDict [("operation", VStr "get_device_location");
                ("result", VDict [("location", location);
                                  ("timestamp", VStr (isoformat timestamp))])]).

Definition get_trip_data (device_id days : pyval) : M W pyval :=
  t0 <- datetime_now ;;
  delta <- lift (timedelta_of rt us_per_day "days" days) ;;
  from_date <- lift (datetime_sub t0 delta) ;;
  to_date <- datetime_now ;;
  trips <- GeotabClient.get_trip_data client device_id from_date to_date ;;
  timestamp <- datetime_now ;;
  ret (VDict [("operation", VStr "get_trip_data");
              ("result", VDict [("device_id", device_id);
                                ("from_date", VStr (isoformat from_date));
                                ("to_date", VStr (isoformat to_date));
                                ("trips", VList trips);
                                ("count", VInt (Z.of_nat (length trips)));
                                ("timestamp", VStr (isoformat timestamp))])]).

Definition get_fault_data (device_id days active_only : pyval) : M W pyval :=
  t0 <- datetime_now ;;
  delta <- lift (timedelta_of rt us_per_day "days" days) ;;
  from_date <- lift (datetime_sub t0 delta) ;;
  to_date <- datetime_now ;;
  faults <- GeotabClient.get_fault_data client device_id from_date to_date ;;
  faults <- (if truthy active_only
             then lift (filter_by_flag "active" (VBool false) faults)
             else ret faults) ;;
  timestamp <- datetime_now ;;
  ret (VDict [("operation", VStr "get_fault_data");
              ("result", VDict [("device_id", device_id);
                                ("from_date", VStr (isoformat from_date));
                                ("to_date", VStr (isoformat to_date));
                                ("faults", VList faults);
                                ("count", VInt (Z.of_nat (length faults)));
                                ("active_only", active_only);
                                ("timestamp", VStr (isoformat timestamp))])]).

(** The methods as [operation_map] holds them: called with
    [geotab_ops] and the parameters as keywords, which are bound against
    the signature first. *)
Definition sig_get_device_info : signature :=
  [("include_inactive", Some (VBool false))].
Definition sig_get_device_location : signature :=
  [("device_id", None)].
Definition sig_get_trip_data : signature :=
  [("device_id", None); ("days", Some (VInt 1))].
Definition sig_get_fault_data : signature :=
  [("device_id", None); ("days", Some (VInt 7)); ("active_only", Some (VBool false))].

Definition method (qualname : string) (sig : signature) (body : dict → M W pyval)
    (kwargs : dict) : M W pyval :=
  args <- lift (bind_kwargs qualname sig kwargs) ;;
  body args.

Definition operation_map : list (string * (dict → M W pyval)) :=
  [("get_device_info",
     method "GeotabOperations.get_device_info" sig_get_device_info
       (λ a, get_device_info (dict_get a "include_inactive")));
   ("get_device_location",
     method "GeotabOperations.get_device_location" sig_get_device_location
       (λ a, get_device_location (dict_get a "device_id")));
   ("get_trip_data",
     method "GeotabOperations.get_trip_data" sig_get_trip_data
       (λ a, get_trip_data (dict_get a "device_id") (dict_get a "days")));
   ("get_fault_data",
     method "GeotabOperations.get_fault_data" sig_get_fault_data
       (λ a, get_fault_data (dict_get a "device_id") (dict_get a "days")
               (dict_get a "active_only")))].
End Operations.

End GeotabOperations.

(** *** mcp_server/server.py *)

Definition MCP_VERSION : string := "0.1.0".

Definition OPERATIONS : list MCPOperation :=
  [mkOperation "get_device_info"
     "Get information about all devices in the Geotab account"
     [mkParameter "include_inactive" "boolean"
        "Whether to include inactive devices in the results" false (VBool false)]
     "A list of devices with their properties and status information";
   mkOperation "get_device_location"
     "Get the current location of a specific device"
     [mkParameter "device_id" "string"
        "ID of the device to get location for" true VNone]
     "Current location information including coordinates, speed, and address";
   mkOperation "get_trip_data"
     "Get trip data for a specific device within a time range"
     [mkParameter "device_id" "string"
        "ID of the device to get trip data for" true VNone;
      mkParameter "days" "integer"
        "Number of days to look back from current time" false (VInt 1)]
     "List of trips with start/end locations, distance, duration, and other metrics";
   mkOperation "get_fault_data"
     "Get fault codes and diagnostic data for a device"
     [mkParameter "device_id" "string"
        "ID of the device to get fault data for" true VNone;
      mkParameter "days" "integer"
        "Number of days to look back from current time" false (VInt 7);
      mkParameter "active_only" "boolean"
        "Whether to include only active faults" false (VBool false)]
     "List of fault codes with diagnostic information, timestamps, and status"].

Section Server.
Context {W : Type}.
Variable rt : runtime.
Variable now : W → datetime * W.
Variable client : GeotabClient.t W.

Definition handle_discover (request : MCPDiscoverRequest) : M W pyval :=
  ret (MCPDiscoverResponse_dict MCP_VERSION OPERATIONS).

Definition handle_execute (request : MCPExecuteRequest) : M W pyval :=
  let operation_map := GeotabOperations.operation_map rt now client in
  if negb (dict_contains operation_map (ereq_operation request)) then
    ret (MCPErrorResponse_dict MCP_VERSION "Unknown operation"
           [("requested_operation", VStr (ereq_operation request));
            ("available_operations", VList (VStr <$> dict_keys operation_map))])
  else
    try_except
      (operation_method <-
         match dict_lookup operation_map (ereq_operation request) with
         | Some f => ret f
         | None => raise (Exn ["KeyError"; "LookupError"]
                            (str_repr (ereq_operation request)) VNone)
         end ;;
       result <- operation_method (ereq_parameters request) ;;
       inner <- lift (getitem result "result") ;;
       lift (MCPExecuteResponse_init rt MCP_VERSION (ereq_operation request) inner))
      [("TypeError", λ e,
          ret (MCPErrorResponse_dict MCP_VERSION "Invalid parameters"
                 [("message", VStr (exn_str e))]));
       ("Exception", λ e,
          ret (MCPErrorResponse_dict MCP_VERSION "Operation execution failed"
                 [("message", VStr (exn_str e))]))].

(** The endpoint; [request_json] is [await request.json()], which raises
    when the body is not JSON. *)
Definition mcp_endpoint (request_json : M W pyval) : M W pyval :=
  try_except
    (data <- request_json ;;
     request_type <- lift (method_get data "type" VNone) ;;
     let kwargs := match data with VDict d => d | _ => [] end in
     if eq_str request_type "discover" then
       request <- lift (MCPDiscoverRequest_init rt kwargs) ;;
       handle_discover request
     else if eq_str request_type "execute" then
       request <- lift (MCPExecuteRequest_init rt kwargs) ;;
       handle_execute request
     else
       ret (MCPErrorResponse_dict MCP_VERSION "Invalid request type"
              [("supported_types", VList [VStr "discover"; VStr "execute"])]))
    [("ValidationError", λ e,
        ret (MCPErrorResponse_dict MCP_VERSION "Invalid request format"
               [("validation_errors", exn_errors e)]));
     ("Exception", λ e,
        ret (MCPErrorResponse_dict MCP_VERSION "Server error"
               [("message", VStr (exn_str e))]))].
End Server.

End McpServer.

(* ===================================================================== *)
(** ** geotab-mcp-docker                                                   *)
(* ===================================================================== *)

Module McpDocker.

(** *** mcp/models.py *)

Definition MCP_VERSION : string := "0.1.0".

Record MCPParameter : Type := mkParameter {
  param_name : string;
  param_type : string;
  param_description : string;
  param_required : bool;
  param_default : pyval
}.

Record MCPOperation : Type := mkOperation {
  op_name : string;
  op_description : string;
  op_parameters : list MCPParameter;
  op_returns : string
}.

Record MCPDiscoverRequest : Type := mkDiscoverRequest {
  dreq_type : string;
  dreq_version : string
}.

Record MCPExecuteRequest : Type := mkExecuteRequest {
  ereq_type : string;
  ereq_version : string;
  ereq_operation : string;
  ereq_parameters : dict
}.

Definition MCPParameter_dict (p : MCPParameter) : pyval :=
  VDict [("name", VStr (param_name p));
         ("type", VStr (param_type p));
         ("description", VStr (param_description p));
         ("required", VBool (param_required p));
         ("default", param_default p)].

Definition MCPOperation_dict (o : MCPOperation) : pyval :=
  VDict [("name", VStr (op_name o));
         ("description", VStr (op_description o));
         ("parameters", VList (MCPParameter_dict <$> op_parameters o));
         ("returns", VStr (op_returns o))].

Definition MCPDiscoverResponse_dict (version : string) (operations : list MCPOperation)
  : pyval :=
  VDict [("type", VStr "discover");
         ("version", VStr version);
         ("operations", VList (MCPOperation_dict <$> operations))].

Definition MCPExecuteResponse_dict (version operation : string) (result : dict)
  : pyval :=
  VDict [("type", VStr "execute");
         ("version", VStr version);
         ("operation", VStr operation);
         ("result", VDict result)].

Definition MCPErrorResponse_dict (version error : string) (details : dict) : pyval :=
  VDict [("type", VStr "error");
         ("version", VStr version);
         ("error", VStr error);
         ("details", VDict details)].

Section Requests.
Variable rt : runtime.

Definition MCPDiscoverRequest_init (data : dict) : exn + MCPDiscoverRequest :=
  Pydantic.init rt data
    (let type_ := Pydantic.required (Pydantic.str_validator rt) data "type" in
     let version := Pydantic.required (Pydantic.str_validator rt) data "version" in
     match type_, version with
     | inr t, inr v => inr (mkDiscoverRequest t v)
     | _, _ => inl (Pydantic.ValidationError "MCPDiscoverRequest"
                      (Pydantic.errors_of type_ ++ Pydantic.errors_of version))
     end).

Definition discover_validate_type (request : MCPDiscoverRequest) : exn + unit :=
  if String.eqb (dreq_type request) "discover" then inr tt
  else inl (ValueError "Type must be 'discover'").

Definition MCPExecuteRequest_init (data : dict) : exn + MCPExecuteRequest :=
  Pydantic.init rt data
    (let type_ := Pydantic.required (Pydantic.str_validator rt) data "type" in
     let version := Pydantic.required (Pydantic.str_validator rt) data "version" in
     let operation := Pydantic.required (Pydantic.str_validator rt) data "operation" in
     let parameters :=
       Pydantic.optional (Pydantic.dict_validator rt) data "parameters" [] in
     match type_, version, operation, parameters with
     | inr t, inr v, inr o, inr ps => inr (mkExecuteRequest t v o ps)
     | _, _, _, _ =>
         inl (Pydantic.ValidationError "MCPExecuteRequest"
                (Pydantic.errors_of type_ ++ Pydantic.errors_of version
                   ++ Pydantic.errors_of operation ++ Pydantic.errors_of parameters))
     end).

Definition execute_validate_type (request : MCPExecuteRequest) : exn + unit :=
  if String.eqb (ereq_type request) "execute" then inr tt
  else inl (ValueError "Type must be 'execute'").

Definition MCPExecuteResponse_init (version operation : string) (result : pyval)
  : exn + pyval :=
  match Pydantic.dict_validator rt "result" result with
  | inr d => inr (MCPExecuteResponse_dict version operation d)
  | inl fe => inl (Pydantic.ValidationError "MCPExecuteResponse" [fe])
  end.
End Requests.

(** *** geotab/client.py, class [GeotabClient], as the handlers see it. *)
Module GeotabClient.
Record t (W : Type) : Type := mk {
  (** [get_devices(include_inactive=)] *)
  get_devices : pyval → M W (list pyval);
  (** [get_device_location(device_id=)] *)
  get_device_location : pyval → M W pyval;
  (** [get_trips(device_id=, from_date=, to_date=, include_non_trip_data=)] *)
  get_trips : pyval → datetime → datetime → pyval → M W (list pyval);
  (** [get_fault_data(device_id=, from_date=, to_date=, include_inactive=)] *)
  get_fault_data : pyval → datetime → datetime → pyval → M W (list pyval);
  (** [get_status_data(device_id=, diagnostic_id=, from_date=, to_date=)] *)
  get_status_data : pyval → pyval → datetime → datetime → M W (list pyval)
}.
Arguments get_devices {W}.
Arguments get_device_location {W}.
Arguments get_trips {W}.
Arguments get_fault_data {W}.
Arguments get_status_data {W}.
End GeotabClient.

(** *** mcp/operations.py *)

Definition OPERATIONS : list MCPOperation :=
  [mkOperation "get_devices"
     "Get a list of all devices in the Geotab account"
     [mkParameter "include_inactive" "boolean"
        "Whether to include inactive devices" false (VBool false)]
     "List of devices with their properties and status";
   mkOperation "get_device_location"
     "Get the current location of a specific device"
     [mkParameter "device_id" "string"
        "ID of the device to get location for" true VNone]
     "Current location information including coordinates, speed, and address";
   mkOperation "get_trips"
     "Get trip data for a specific device within a time range"
     [mkParameter "device_id" "string"
        "ID of the device to get trips for" true VNone;
      mkParameter "days" "number"
        "Number of days to look back from current time" false (VInt 1);
      mkParameter "include_stops" "boolean"
        "Whether to include stop information" false (VBool false)]
     "List of trips with start/end locations, distance, and other metrics";
   mkOperation "get_fault_data"
     "Get fault codes and diagnostic data for a device"
     [mkParameter "device_id" "string"
        "ID of the device to get fault data for" true VNone;
      mkParameter "days" "number"
        "Number of days to look back from current time" false (VInt 7);
      mkParameter "active_only" "boolean"
        "Whether to include only active faults" false (VBool false)]
     "List of fault codes with diagnostic information";
   mkOperation "get_status_data"
     "Get status data for a device"
     [mkParameter "device_id" "string"
        "ID of the device to get status data for" true VNone;
      mkParameter "diagnostic_id" "string"
        "ID of the diagnostic to filter by" false VNone;
      mkParameter "hours" "number"
        "Number of hours to look back from current time" false (VInt 1)]
     "List of status data points with timestamp and values"].

Section Operations.
Context {W : Type}.
Variable rt : runtime.
(** [datetime.now()] *)
Variable now : W → datetime * W.
(** [geotab_client] *)
Variable geotab_client : GeotabClient.t W.

Definition datetime_now : M W datetime := λ w, let '(t, w') := now w in (inr t, w').

Definition handle_get_devices (parameters : dict) : M W pyval :=
  let include_inactive := dict_get_default parameters "include_inactive" (VBool false) in
  devices <- GeotabClient.get_devices geotab_client include_inactive ;;
  timestamp <- datetime_now ;;
  ret (VDict [("devices", VList devices);
              ("count", VInt (Z.of_nat (length devices)));
              ("timestamp", VStr (isoformat timestamp))]).

Definition handle_get_device_location (parameters : dict) : M W pyval :=
  let device_id := dict_get parameters "device_id" in
  if negb (truthy device_id) then raise (ValueError "device_id is required")
  else
    location <- GeotabClient.get_device_location geotab_client device_id ;;
    if negb (truthy location) then
      timestamp <- datetime_now ;;
      ret (VDict [("error", VStr "Location not available for device");
                  ("device_id", device_id);
                  ("timestamp", VStr (isoformat timestamp))])
    else
      timestamp <- datetime_now ;;
      ret (VDict [("location", location);
                  ("timestamp", VStr (isoformat timestamp))]).

Definition handle_get_trips (parameters : dict) : M W pyval :=
  let device_id := dict_get parameters "device_id" in
  if negb (truthy device_id) then raise (ValueError "device_id is required")
  else
    days <- lift (py_float rt (dict_get_default parameters "days" (VInt 1))) ;;
    let include_stops := dict_get_default parameters "include_stops" (VBool false) in
    to_date <- datetime_now ;;
    delta <- lift (timedelta_of rt us_per_day "days" (VFloat days)) ;;
    from_date <- lift (datetime_sub to_date delta) ;;
    trips <- GeotabClient.get_trips geotab_client device_id from_date to_date include_stops ;;
    timestamp <- datetime_now ;;
    ret (VDict [("device_id", device_id);
                ("from_date", VStr (isoformat from_date));
                ("to_date", VStr (isoformat to_date));
                ("trips", VList trips);
                ("count", VInt (Z.of_nat (length trips)));
                ("timestamp", VStr (isoformat timestamp))]).

Definition handle_get_fault_data (parameters : dict) : M W pyval :=
  let device_id := dict_get parameters "device_id" in
  if negb (truthy device_id) then raise (ValueError "device_id is required")
  else
    days <- lift (py_float rt (dict_get_default parameters "days" (VInt 7))) ;;
    let active_only := dict_get_default parameters "active_only" (VBool false) in
    to_date <- datetime_now ;;
    delta <- lift (timedelta_of rt us_per_day "days" (VFloat days)) ;;
    from_date <- lift (datetime_sub to_date delta) ;;
    faults <- GeotabClient.get_fault_data geotab_client device_id from_date to_date
                (VBool (negb (truthy active_only))) ;;
    timestamp <- datetime_now ;;
    ret (VDict [("device_id", device_id);
                ("from_date", VStr (isoformat from_date));
                ("to_date", VStr (isoformat to_date));
                ("faults", VList faults);
                ("count", VInt (Z.of_nat (length faults)));
                ("timestamp", VStr (isoformat timestamp))]).

Definition handle_get_status_data (parameters : dict) : M W pyval :=
  let device_id := dict_get parameters "device_id" in
  if negb (truthy device_id) then raise (ValueError "device_id is required")
  else
    let diagnostic_id := dict_get parameters "diagnostic_id" in
    hours <- lift (py_float rt (dict_get_default parameters "hours" (VInt 1))) ;;
    to_date <- datetime_now ;;
    delta <- lift (timedelta_of rt us_per_hour "hours" (VFloat hours)) ;;
    from_date <- lift (datetime_sub to_date delta) ;;
    status_data <- GeotabClient.get_status_data geotab_client device_id diagnostic_id
                     from_date to_date ;;
    timestamp <- datetime_now ;;
    ret (VDict [("device_id", device_id);
                ("diagnostic_id", diagnostic_id);
                ("from_date", VStr (isoformat from_date));
                ("to_date", VStr (isoformat to_date));
                ("status_data", VList status_data);
                ("count", VInt (Z.of_nat (length status_data)));
                ("timestamp", VStr (isoformat timestamp))]).

Definition OPERATION_HANDLERS : list (string * (dict → M W pyval)) :=
  [("get_devices", handle_get_devices);
   ("get_device_location", handle_get_device_location);
   ("get_trips", handle_get_trips);
   ("get_fault_data", handle_get_fault_data);
   ("get_status_data", handle_get_status_data)].

Definition execute_operation (operation : string) (parameters : dict) : M W pyval :=
  if negb (dict_contains OPERATION_HANDLERS operation) then
    raise (ValueError ("Unknown operation: " ++ operation))
  else
    try_except
      (handler <-
         match dict_lookup OPERATION_HANDLERS operation with
         | Some f => ret f
         | None => raise (Exn ["KeyError"; "LookupError"] (str_repr operation) VNone)
         end ;;
       handler parameters)
      [("Exception", λ e, raise e)].

(** *** mcp/server.py *)

Definition handle_discover (body : dict) : M W pyval :=
  try_except
    (request <- lift (MCPDiscoverRequest_init rt body) ;;
     lift (discover_validate_type request) ;;;
     ret (MCPDiscoverResponse_dict MCP_VERSION OPERATIONS))
    [("Exception", λ e,
        ret (MCPErrorResponse_dict MCP_VERSION "Invalid discover request"
               [("message", VStr (exn_str e))]))].

Definition handle_execute (body : dict) : M W pyval :=
  try_except
    (request <- lift (MCPExecuteRequest_init rt body) ;;
     lift (execute_validate_type request) ;;;
     let operation := ereq_operation request in
     let parameters := ereq_parameters request in
     try_except
       (result <- execute_operation operation parameters ;;
        lift (MCPExecuteResponse_init rt MCP_VERSION operation result))
       [("ValueError", λ e,
           ret (MCPErrorResponse_dict MCP_VERSION "Operation error"
                  [("message", VStr (exn_str e))]));
        ("Exception", λ e,
           ret (MCPErrorResponse_dict MCP_VERSION "Operation execution failed"
                  [("message", VStr (exn_str e))]))])
    [("Exception", λ e,
        ret (MCPErrorResponse_dict MCP_VERSION "Invalid execute request"
               [("message", VStr (exn_str e))]))].

(** The endpoint; [request_json] is [await request.json()]. *)
Definition mcp_endpoint (request_json : M W pyval) : M W pyval :=
  try_except
    (body <- request_json ;;
     request_type <- lift (method_get body "type" VNone) ;;
     let kwargs := match body with VDict d => d | _ => [] end in
     if eq_str request_type "discover" then handle_discover kwargs
     else if eq_str request_type "execute" then handle_execute kwargs
     else
       ret (MCPErrorResponse_dict MCP_VERSION "Invalid request type"
              [("message", VStr ("Unsupported request type: " ++ py_str rt request_type))]))
    [("JSONDecodeError", λ e,
        ret (MCPErrorResponse_dict MCP_VERSION "Invalid JSON"
               [("message", VStr "Request body is not valid JSON")]));
     ("Exception", λ e,
        ret (MCPErrorResponse_dict MCP_VERSION "Server error"
               [("message", VStr (exn_str e))]))].
End Operations.

End McpDocker.

(* ===================================================================== *)
(** ** Reading a reply                                                     *)
(* ===================================================================== *)

(** A field of a reply (or of any object the endpoint returns). *)
Definition reply_field (reply : pyval) (k : string) : option pyval :=
  match reply with VDict d => dict_lookup d k | _ => None end.

(** The three reply shapes, by their [type] tag. *)
Definition is_error_reply (reply : pyval) : Prop :=
  reply_field reply "type" = Some (VStr "error").
Definition is_execute_reply (reply : pyval) : Prop :=
  reply_field reply "type" = Some (VStr "execute").
Definition is_discover_reply (reply : pyval) : Prop :=
  reply_field reply "type" = Some (VStr "discover").

(** Request bodies as [json.loads] delivers them. *)
Definition discover_body (version : string) (extra : dict) : pyval :=
  VDict (("type", VStr "discover") :: ("version", VStr version) :: extra).

Definition execute_body (version operation : string) (parameters : dict) : dict :=
  [("type", VStr "execute"); ("version", VStr version);
   ("operation", VStr operation); ("parameters", VDict parameters)].

(** The reply the protocol describes for an operation outside the catalog:
    an error reply whose [error] is "Unknown operation" and whose details
    list every catalog name under [available_operations]. *)
Definition unknown_operation_reply (catalog_names : list string) (reply : pyval)
  : Prop :=
  is_error_reply reply ∧
  reply_field reply "error" = Some (VStr "Unknown operation") ∧
  ∃ details listed,
    reply_field reply "details" = Some (VDict details) ∧
    dict_lookup details "available_operations" = Some (VList listed) ∧
    ∀ name, name ∈ catalog_names → VStr name ∈ listed.

(** A body that does not decode to a request: no [type] field (a body that
    is not an object has none), a [type] other than the two request types,
    or an [execute] without [operation]. *)
Inductive malformed_envelope (data : pyval) : Prop :=
| type_missing :
    reply_field data "type" = None → malformed_envelope data
| type_unsupported v :
    reply_field data "type" = Some v →
    v ≠ VStr "discover" → v ≠ VStr "execute" → malformed_envelope data
| operation_missing :
    reply_field data "type" = Some (VStr "execute") →
    reply_field data "operation" = None → malformed_envelope data.

(** The signature a catalog entry advertises: one parameter per
    [MCPParameter], without default exactly when it is required. *)
Definition advertised_signature (o : McpServer.MCPOperation) : signature :=
  (λ p, (McpServer.param_name p,
         if McpServer.param_required p then None
         else Some (McpServer.param_default p))) <$> McpServer.op_parameters o.

(* ===================================================================== *)
(** ** Stub worlds used to run the dispatchers on concrete calls           *)
(* ===================================================================== *)

Module Stub.

(** The world is the number of clock readings so far; the clock starts at
    2024-03-01T12:00:00 and advances one second per reading. *)
Definition clock_start : datetime := 63844891200000000.
Definition now (n : nat) : datetime * nat :=
  (clock_start + Z.of_nat n * 1000000, S n).

Definition rt : runtime :=
  Runtime (λ _, None) (λ _ _, 0) (λ _, "") (λ _, "") (λ _, None)
    "__init__() got multiple values for argument '__pydantic_self__'".

Definition trip (id : string) : pyval :=
  VDict [("trip_id", VStr id); ("device_id", VStr "b1")].
Definition three_trips : list pyval := [trip "t1"; trip "t2"; trip "t3"].

(** A data source with no devices and no locations, and three trips. *)
Definition server_client : McpServer.GeotabClient.t nat :=
  McpServer.GeotabClient.mk nat (ret []) (λ _, ret VNone)
    (λ _ _ _, ret three_trips) (λ _ _ _, ret []).

Definition docker_client : McpDocker.GeotabClient.t nat :=
  McpDocker.GeotabClient.mk nat (λ _, ret []) (λ _, ret VNone)
    (λ _ _ _ _, ret three_trips) (λ _ _ _ _, ret []) (λ _ _ _ _, ret []).

(** A data source whose every call fails. *)
Definition down : exn := Exn ["ConnectionError"; "OSError"] "connection refused" VNone.

Definition failing_server_client : McpServer.GeotabClient.t nat :=
  McpServer.GeotabClient.mk nat (raise down) (λ _, raise down)
    (λ _ _ _, raise down) (λ _ _ _, raise down).

Definition failing_docker_client : McpDocker.GeotabClient.t nat :=
  McpDocker.GeotabClient.mk nat (λ _, raise down) (λ _, raise down)
    (λ _ _ _ _, raise down) (λ _ _ _ _, raise down) (λ _ _ _ _, raise down).

End Stub.

(* ===================================================================== *)
(** ** Vocabulary for the properties beyond the protocol contract          *)
(* ===================================================================== *)

(** One of the three reply shapes, tagged with the protocol version. *)
Definition protocol_reply (reply : pyval) : Prop :=
  reply_field reply "version" = Some (VStr "0.1.0") ∧
  (is_discover_reply reply ∨ is_execute_reply reply ∨ is_error_reply reply).

(** A record as the data source returns it. *)
Definition is_record (x : pyval) : Prop := ∃ d, x = VDict d.

(** The truth of [x.get(k, dflt)] on a record [x]. *)
Definition has_flag (k : string) (dflt : pyval) (x : pyval) : bool :=
  match x with
  | VDict d => truthy (dict_get_default d k dflt)
  | _ => false
  end.

(** A number, as [timedelta] takes it. *)
Definition is_number (v : pyval) : bool :=
  match v with VInt _ | VBool _ | VFloat _ => true | _ => false end.

(* ===================================================================== *)
(** ** mygeotab, the vendor SDK, as the two clients call it                *)
(* ===================================================================== *)

Module MyGeotab.

(** What goes into a call besides plain objects: [datetime]s and nested
    search criteria. *)
Inductive sval : Type :=
| SVal (v : pyval)
| SDate (t : datetime)
| SDict (d : list (string * sval)).

(** An [API] object; every call runs in the world and returns or raises. *)
Record API (W : Type) : Type := mkAPI {
  (** [mygeotab.API(username=, password=, database=, server=)] *)
  new : M W unit;
  (** [api.authenticate()]: the [session_id] of the credentials returned *)
  authenticate : M W pyval;
  (** [api.get(type_name, ...)] with its keyword arguments *)
  get : string → list (string * sval) → M W (list pyval);
  (** [api.call(method, params)], the dict passed as written *)
  call : string → dict → M W pyval
}.
Arguments new {W}.
Arguments authenticate {W}.
Arguments get {W}.
Arguments call {W}.

(** [{'deviceSearch': {'id': device_id}}] *)
Definition device_search (device_id : pyval) : list (string * sval) :=
  [("deviceSearch", SDict [("id", SVal device_id)])].

(** [{'deviceSearch': {'id': device_id}, 'fromDate': ..., 'toDate': ...}] *)
Definition window_search (device_id : pyval) (from_date to_date : datetime)
  : list (string * sval) :=
  [("deviceSearch", SDict [("id", SVal device_id)]);
   ("fromDate", SDate from_date);
   ("toDate", SDate to_date)].

End MyGeotab.

(** *** Records built field by field from an SDK entity

    [{'out': entity.get('key', dflt), ...}]: the fields are evaluated in
    order, so the first [.get] on something that is not a dict raises. *)
Inductive field : Type :=
| Get (key : string) (dflt : pyval)       (* entity.get(key, dflt) *)
| Const (v : pyval)                       (* a value at hand *)
| Nested (key inner : string)             (* entity.get(key, {}).get(inner) *)
| Of (sub : pyval) (inner : string)       (* sub.get(inner), sub fetched before *)
| Each (key inner : string).              (* [g.get(inner) for g in entity.get(key, [])] *)

(** [for g in x]: what iterating an object yields. *)
Definition iterate (x : pyval) : exn + list pyval :=
  match x with
  | VList l => inr l
  | VDict d => inr (VStr <$> dict_keys d)
  | VStr s => inr ((λ c, VStr (String c EmptyString)) <$> list_ascii_of_string s)
  | _ => inl (TypeError (repr_str (type_name x) ++ " object is not iterable"))
  end.

(** [[f(x) for x in xs]] *)
Fixpoint collect {A B : Type} (f : A → exn + B) (xs : list A) : exn + list B :=
  match xs with
  | [] => inr []
  | x :: rest =>
      match f x with
      | inl e => inl e
      | inr y =>
          match collect f rest with
          | inl e => inl e
          | inr ys => inr (y :: ys)
          end
      end
  end.

Definition eval_field (entity : pyval) (f : field) : exn + pyval :=
  match f with
  | Get key dflt => method_get entity key dflt
  | Const v => inr v
  | Nested key inner =>
      match method_get entity key (VDict []) with
      | inl e => inl e
      | inr sub => method_get sub inner VNone
      end
  | Of sub inner => method_get sub inner VNone
  | Each key inner =>
      match method_get entity key (VList []) with
      | inl e => inl e
      | inr members =>
          match iterate members with
          | inl e => inl e
          | inr gs =>
              match collect (λ g, method_get g inner VNone) gs with
              | inl e => inl e
              | inr ids => inr (VList ids)
              end
          end
      end
  end.

Fixpoint eval_fields (entity : pyval) (fields : list (string * field))
  : exn + dict :=
  match fields with
  | [] => inr []
  | (out, f) :: rest =>
      match eval_field entity f with
      | inl e => inl e
      | inr v =>
          match eval_fields entity rest with
          | inl e => inl e
          | inr d => inr ((out, v) :: d)
          end
      end
  end.

(** One record per entity, [[{...} for entity in entities]]. *)
Definition format_all (fields : pyval → list (string * field)) (entities : list pyval)
  : exn + list pyval :=
  collect (λ entity,
             match eval_fields entity (fields entity) with
             | inl e => inl e
             | inr d => inr (VDict d)
             end) entities.

(** [a.get(k1) and a.get(k2)] *)
Definition and_get (entity : pyval) (k1 k2 : string) : exn + pyval :=
  match method_get entity k1 VNone with
  | inl e => inl e
  | inr v => if truthy v then method_get entity k2 VNone else inr v
  end.

(** [d[k] = v] *)
Fixpoint dict_set (d : dict) (k : string) (v : pyval) : dict :=
  match d with
  | [] => [(k, v)]
  | (k', v') :: rest =>
      if String.eqb k' k then (k, v) :: rest else (k', v') :: dict_set rest k v
  end.

(** *** Objects with a state of their own, and local variables

    A computation of the SDK world, run by an object that keeps a state
    (or inside a block that mutates a local). *)
Definition with_state {S W A : Type} (c : M W A) : M (S * W) A :=
  λ sw, let '(r, w') := c sw.2 in (r, (sw.1, w')).

Definition get_state {S W : Type} : M (S * W) S := λ sw, (inr sw.1, sw).

Definition set_state {S W : Type} (f : S → S) : M (S * W) unit :=
  λ sw, (inr tt, (f sw.1, sw.2)).

(** A block that mutates a local object in place; what the object holds
    when the block is left is the result. *)
Definition with_local {L W : Type} (l0 : L) (c : M (L * W) unit) : M W L :=
  λ w, match c (l0, w) with
       | (inl e, lw) => (inl e, lw.2)
       | (inr _, lw) => (inr lw.1, lw.2)
       end.

(** [datetime.now()] for such an object. *)
Definition clock {S W : Type} (now : W → datetime * W) : M (S * W) datetime :=
  λ sw, let '(t, w') := now sw.2 in (inr t, (sw.1, w')).

Definition with_state_clock {S W : Type} (now : W → datetime * W)
  : S * W → datetime * (S * W) :=
  λ sw, let '(t, w') := now sw.2 in (t, (sw.1, w')).

(** [for x in xs: f(x)] *)
Fixpoint for_each {W A : Type} (f : A → M W unit) (xs : list A) : M W unit :=
  match xs with
  | [] => ret tt
  | x :: rest => f x ;;; for_each f rest
  end.

(** [for x in xs: results.append(f(x))] from an empty [results]. *)
Fixpoint for_append {W A B : Type} (f : A → M W B) (xs : list A) : M W (list B) :=
  match xs with
  | [] => ret []
  | x :: rest => y <- f x ;; ys <- for_append f rest ;; ret (y :: ys)
  end.

(* ===================================================================== *)
(** ** geotab-mcp-server: geotab_api/client.py                             *)
(* ===================================================================== *)

Module GeotabApi.

(** What [GeotabClient] keeps between calls: whether [self.client] is set,
    and [self.authenticated]. *)
Record state : Type := mkState {
  client_set : bool;
  authenticated : bool
}.

(** [__init__] *)
Definition init : state := mkState false false.

Definition device_fields : list (string * field) :=
  [("id", Get "id" VNone);
   ("name", Get "name" VNone);
   ("serial_number", Get "serialNumber" VNone);
   ("device_type", Get "deviceType" VNone);
   ("active", Get "active" (VBool true))].

Definition status_fields : list (string * field) :=
  [("timestamp", Get "dateTime" VNone);
   ("latitude", Get "latitude" VNone);
   ("longitude", Get "longitude" VNone);
   ("speed", Get "speed" VNone);
   ("bearing", Get "bearing" VNone)].

Definition trip_fields (device_id : pyval) : list (string * field) :=
  [("trip_id", Get "id" VNone);
   ("device_id", Const device_id);
   ("start_time", Get "start" VNone);
   ("end_time", Get "stop" VNone);
   ("distance", Get "distance" VNone);
   ("duration", Get "duration" VNone);
   ("start_latitude", Get "startLatitude" VNone);
   ("start_longitude", Get "startLongitude" VNone);
   ("end_latitude", Get "endLatitude" VNone);
   ("end_longitude", Get "endLongitude" VNone);
   ("max_speed", Get "maxSpeed" VNone);
   ("avg_speed", Get "averageSpeed" VNone);
   ("idle_time", Get "idlingDuration" VNone)].

Definition fault_fields (device_id : pyval) : list (string * field) :=
  [("fault_id", Get "id" VNone);
   ("device_id", Const device_id);
   ("diagnostic_id", Nested "diagnostic" "id");
   ("diagnostic_name", Nested "diagnostic" "name");
   ("code", Get "code" VNone);
   ("source_address", Get "sourceAddress" VNone);
   ("failure_mode", Get "failureMode" VNone);
   ("timestamp", Get "dateTime" VNone);
   ("controller", Nested "controller" "name");
   ("count", Get "count" VNone);
   ("active", Get "active" (VBool false))].

Section Client.
Context {W : Type}.
(** [mygeotab.API] and [datetime.now()] *)
Variable api : MyGeotab.API W.
Variable now : W → datetime * W.

Definition authenticate : M (state * W) bool :=
  try_except
    (with_state (MyGeotab.new api) ;;;
     set_state (λ s, mkState true (authenticated s)) ;;;
     with_state (MyGeotab.authenticate api) ;;;
     set_state (λ s, mkState (client_set s) true) ;;;
     ret true)
    [("MyGeotabException", λ e,
        set_state (λ s, mkState (client_set s) false) ;;;
        ret false)].

Definition ensure_authenticated : M (state * W) bool :=
  s <- get_state ;;
  if negb (authenticated s) || negb (client_set s) then authenticate
  else ret true.

Definition get_devices : M (state * W) (list pyval) :=
  ok <- ensure_authenticated ;;
  if negb ok then ret []
  else
    try_except
      (devices <- with_state (MyGeotab.get api "Device" []) ;;
       lift (format_all (λ _, device_fields) devices))
      [("MyGeotabException", λ e, ret [])].

Definition _get_address_from_coordinates (latitude longitude : pyval)
  : M (state * W) pyval :=
  ok <- ensure_authenticated ;;
  if negb ok || negb (truthy latitude) || negb (truthy longitude) then ret VNone
  else
    try_except
      (address <- with_state
                    (MyGeotab.call api "GetAddressForCoordinate"
                       [("x", longitude); ("y", latitude)]) ;;
       if truthy address then ret address else ret VNone)
      [("MyGeotabException", λ e, ret VNone)].

Definition get_device_location (device_id : pyval) : M (state * W) pyval :=
  ok <- ensure_authenticated ;;
  if negb ok then ret VNone
  else
    try_except
      (device_status_info <-
         with_state (MyGeotab.get api "DeviceStatusInfo"
                       [("search", MyGeotab.SDict (MyGeotab.device_search device_id))]) ;;
       match device_status_info with
       | [] => ret VNone
       | status :: _ =>
           fields <- lift (eval_fields status status_fields) ;;
           latitude <- lift (method_get status "latitude" VNone) ;;
           longitude <- lift (method_get status "longitude" VNone) ;;
           address <- _get_address_from_coordinates latitude longitude ;;
           ret (VDict (("device_id", device_id) :: fields ++ [("address", address)]))
       end)
      [("MyGeotabException", λ e, ret VNone)].

(** [datetime.now() - timedelta(days=n)], the start of a default window. *)
Definition days_ago (n : Z) : M (state * W) datetime :=
  t <- clock now ;;
  lift (datetime_sub t (n * us_per_day)).

Definition get_trip_data (device_id : pyval) (from_date to_date : option datetime)
  : M (state * W) (list pyval) :=
  ok <- ensure_authenticated ;;
  if negb ok then ret []
  else
    from_date <- match from_date with Some t => ret t | None => days_ago 1 end ;;
    to_date <- match to_date with Some t => ret t | None => clock now end ;;
    try_except
      (trips <- with_state
                  (MyGeotab.get api "Trip"
                     [("search",
                       MyGeotab.SDict (MyGeotab.window_search device_id from_date to_date))]) ;;
       lift (format_all (λ _, trip_fields device_id) trips))
      [("MyGeotabException", λ e, ret [])].

Definition get_fault_data (device_id : pyval) (from_date to_date : option datetime)
  : M (state * W) (list pyval) :=
  ok <- ensure_authenticated ;;
  if negb ok then ret []
  else
    from_date <- match from_date with Some t => ret t | None => days_ago 7 end ;;
    to_date <- match to_date with Some t => ret t | None => clock now end ;;
    try_except
      (fault_data <- with_state
                       (MyGeotab.get api "FaultData"
                          [("search",
                            MyGeotab.SDict (MyGeotab.window_search device_id from_date to_date))]) ;;
       lift (format_all (λ _, fault_fields device_id) fault_data))
      [("MyGeotabException", λ e, ret [])].

(** The client as [GeotabOperations] holds it ([self.client]); the
    operations always pass both dates. *)
Definition as_client : McpServer.GeotabClient.t (state * W) :=
  McpServer.GeotabClient.mk (state * W)
    get_devices
    get_device_location
    (λ device_id from_date to_date,
       get_trip_data device_id (Some from_date) (Some to_date))
    (λ device_id from_date to_date,
       get_fault_data device_id (Some from_date) (Some to_date)).
End Client.

End GeotabApi.

(* ===================================================================== *)
(** ** geotab-mcp-docker: geotab/client.py                                 *)
(* ===================================================================== *)

Module GeotabDocker.

(** Whether [self.api] is set, and [self.session_id]. *)
Record state : Type := mkState {
  api_set : bool;
  session_id : pyval
}.

(** [__init__] *)
Definition init : state := mkState false VNone.

Definition device_fields : list (string * field) :=
  [("id", Get "id" VNone);
   ("name", Get "name" VNone);
   ("serial_number", Get "serialNumber" VNone);
   ("device_type", Get "deviceType" VNone);
   ("active", Get "active" (VBool true));
   ("groups", Each "groups" "id");
   ("product_id", Get "productId" VNone);
   ("last_communication_time", Get "lastCommunicationTime" VNone)].

Definition location_fields (device_id address : pyval) : list (string * field) :=
  [("device_id", Const device_id);
   ("timestamp", Get "dateTime" VNone);
   ("latitude", Get "latitude" VNone);
   ("longitude", Get "longitude" VNone);
   ("speed", Get "speed" VNone);
   ("direction", Get "bearing" VNone);
   ("address", Const address);
   ("is_driving", Get "isDriving" (VBool false));
   ("is_moving", Get "isMoving" (VBool false))].

Definition trip_fields (device_id : pyval) : list (string * field) :=
  [("id", Get "id" VNone);
   ("device_id", Const device_id);
   ("start_time", Get "start" VNone);
   ("end_time", Get "stop" VNone);
   ("duration", Get "duration" VNone);
   ("distance", Get "distance" VNone);
   ("start_latitude", Get "startLatitude" VNone);
   ("start_longitude", Get "startLongitude" VNone);
   ("end_latitude", Get "endLatitude" VNone);
   ("end_longitude", Get "endLongitude" VNone);
   ("max_speed", Get "maxSpeed" VNone);
   ("average_speed", Get "averageSpeed" VNone);
   ("idle_time", Get "idlingDuration" VNone);
   ("stop_time", Get "stopDuration" VNone)].

Definition stop_fields (device_id : pyval) : list (string * field) :=
  [("type", Const (VStr "stop"));
   ("id", Get "id" VNone);
   ("device_id", Const device_id);
   ("start_time", Get "start" VNone);
   ("end_time", Get "stop" VNone);
   ("duration", Get "duration" VNone);
   ("latitude", Get "latitude" VNone);
   ("longitude", Get "longitude" VNone)].

Definition fault_fields (device_id diagnostic controller : pyval)
  : list (string * field) :=
  [("id", Get "id" VNone);
   ("device_id", Const device_id);
   ("timestamp", Get "dateTime" VNone);
   ("diagnostic_id", Of diagnostic "id");
   ("diagnostic_name", Of diagnostic "name");
   ("diagnostic_code", Of diagnostic "code");
   ("controller_id", Of controller "id");
   ("controller_name", Of controller "name");
   ("failure_mode", Get "failureMode" VNone);
   ("failure_mode_text", Get "failureModeText" VNone);
   ("source", Get "source" VNone);
   ("count", Get "count" VNone);
   ("active", Get "activeFault" (VBool false));
   ("severity", Of diagnostic "severity")].

Definition status_data_fields (device_id diagnostic : pyval)
  : list (string * field) :=
  [("id", Get "id" VNone);
   ("device_id", Const device_id);
   ("timestamp", Get "dateTime" VNone);
   ("diagnostic_id", Of diagnostic "id");
   ("diagnostic_name", Of diagnostic "name");
   ("value", Get "data" VNone);
   ("units", Of diagnostic "units")].

(** One fault: [diagnostic] and [controller] are fetched first. *)
Definition format_fault (device_id fault : pyval) : exn + pyval :=
  match method_get fault "diagnostic" (VDict []) with
  | inl e => inl e
  | inr diagnostic =>
      match method_get fault "controller" (VDict []) with
      | inl e => inl e
      | inr controller =>
          match eval_fields fault (fault_fields device_id diagnostic controller) with
          | inl e => inl e
          | inr d => inr (VDict d)
          end
      end
  end.

Definition format_status (device_id status : pyval) : exn + pyval :=
  match method_get status "diagnostic" (VDict []) with
  | inl e => inl e
  | inr diagnostic =>
      match eval_fields status (status_data_fields device_id diagnostic) with
      | inl e => inl e
      | inr d => inr (VDict d)
      end
  end.

Section Client.
Context {W : Type}.
Variable api : MyGeotab.API W.
Variable now : W → datetime * W.

Definition authenticate : M (state * W) bool :=
  try_except
    (with_state (MyGeotab.new api) ;;;
     set_state (λ s, mkState true (session_id s)) ;;;
     credentials <- with_state (MyGeotab.authenticate api) ;;
     set_state (λ s, mkState (api_set s) credentials) ;;;
     ret true)
    [("MyGeotabException", λ e, ret false)].

Definition ensure_authenticated : M (state * W) bool :=
  s <- get_state ;;
  if negb (api_set s) || negb (truthy (session_id s)) then authenticate
  else ret true.

Definition get_devices (include_inactive : pyval) : M (state * W) (list pyval) :=
  ok <- ensure_authenticated ;;
  if negb ok then ret []
  else
    try_except
      (let search := if negb (truthy include_inactive)
                     then MyGeotab.SDict [("active", MyGeotab.SVal (VBool true))]
                     else MyGeotab.SVal VNone in
       devices <- with_state (MyGeotab.get api "Device" [("search", search)]) ;;
       lift (format_all (λ _, device_fields) devices))
      [("MyGeotabException", λ e, ret [])].

(** [api.call('GetAddressFromCoordinates', {'x': a.get(lon), 'y': a.get(lat)})] *)
Definition address_of {S : Type} (entity : pyval) (lat lon : string) : M (S * W) pyval :=
  x <- lift (method_get entity lon VNone) ;;
  y <- lift (method_get entity lat VNone) ;;
  with_state (MyGeotab.call api "GetAddressFromCoordinates" [("x", x); ("y", y)]).

Definition get_device_location (device_id : pyval) : M (state * W) pyval :=
  ok <- ensure_authenticated ;;
  if negb ok then ret VNone
  else
    try_except
      (device_status <-
         with_state (MyGeotab.get api "DeviceStatusInfo"
                       [("search", MyGeotab.SDict (MyGeotab.device_search device_id))]) ;;
       match device_status with
       | [] => ret VNone
       | status :: _ =>
           available <- lift (and_get status "latitude" "longitude") ;;
           address <- (if truthy available then
                         try_except (address_of status "latitude" "longitude")
                           [("Exception", λ e, ret VNone)]
                       else ret VNone) ;;
           fields <- lift (eval_fields status (location_fields device_id address)) ;;
           ret (VDict fields)
       end)
      [("MyGeotabException", λ e, ret VNone)].

(** [if a.get(lat) and a.get(lon): record[out] = api.call(...)], on the
    record being filled. *)
Definition add_address (entity : pyval) (lat lon out : string)
  : M (dict * (state * W)) unit :=
  available <- lift (and_get entity lat lon) ;;
  if truthy available then
    address <- with_state (address_of entity lat lon) ;;
    set_state (λ record, dict_set record out address)
  else ret tt.

Definition format_trip (device_id trip : pyval) : M (state * W) pyval :=
  trip_data <- lift (eval_fields trip (trip_fields device_id)) ;;
  trip_data <- with_local trip_data
                 (try_except
                    (add_address trip "startLatitude" "startLongitude" "start_address" ;;;
                     add_address trip "endLatitude" "endLongitude" "end_address")
                    [("Exception", λ e, ret tt)]) ;;
  ret (VDict trip_data).

Definition format_stop (device_id stop : pyval) : M (state * W) pyval :=
  stop_data <- lift (eval_fields stop (stop_fields device_id)) ;;
  stop_data <- with_local stop_data
                 (try_except
                    (add_address stop "latitude" "longitude" "address")
                    [("Exception", λ e, ret tt)]) ;;
  ret (VDict stop_data).

Definition days_ago (n : Z) : M (state * W) datetime :=
  t <- clock now ;;
  lift (datetime_sub t (n * us_per_day)).

Definition hours_ago (n : Z) : M (state * W) datetime :=
  t <- clock now ;;
  lift (datetime_sub t (n * us_per_hour)).

Definition get_trips (device_id : pyval) (from_date to_date : option datetime)
    (include_non_trip_data : pyval) : M (state * W) (list pyval) :=
  ok <- ensure_authenticated ;;
  if negb ok then ret []
  else
    from_date <- match from_date with Some t => ret t | None => days_ago 1 end ;;
    to_date <- match to_date with Some t => ret t | None => clock now end ;;
    let search := [("search",
                    MyGeotab.SDict (MyGeotab.window_search device_id from_date to_date))] in
    try_except
      (trips <- with_state (MyGeotab.get api "Trip" search) ;;
       results <- for_append (format_trip device_id) trips ;;
       if truthy include_non_trip_data then
         with_local results
           (try_except
              (non_trips <- with_state
                              (with_state (MyGeotab.get api "NonTripActivity" search)) ;;
               for_each (λ stop,
                           stop_data <- with_state (format_stop device_id stop) ;;
                           set_state (λ results, (results ++ [stop_data])%list))
                        non_trips)
              [("MyGeotabException", λ e, ret tt)])
       else ret results)
      [("MyGeotabException", λ e, ret [])].

Definition get_fault_data (device_id : pyval) (from_date to_date : option datetime)
    (include_inactive : pyval) : M (state * W) (list pyval) :=
  ok <- ensure_authenticated ;;
  if negb ok then ret []
  else
    from_date <- match from_date with Some t => ret t | None => days_ago 7 end ;;
    to_date <- match to_date with Some t => ret t | None => clock now end ;;
    try_except
      (let search :=
         (MyGeotab.window_search device_id from_date to_date
          ++ (if negb (truthy include_inactive)
              then [("includeHistoricFaults", MyGeotab.SVal (VBool false))]
              else []))%list in
       faults <- with_state
                   (MyGeotab.get api "FaultData" [("search", MyGeotab.SDict search)]) ;;
       lift (collect (format_fault device_id) faults))
      [("MyGeotabException", λ e, ret [])].

Definition get_status_data (device_id diagnostic_id : pyval)
    (from_date to_date : option datetime) : M (state * W) (list pyval) :=
  ok <- ensure_authenticated ;;
  if negb ok then ret []
  else
    from_date <- match from_date with Some t => ret t | None => hours_ago 1 end ;;
    to_date <- match to_date with Some t => ret t | None => clock now end ;;
    try_except
      (let search :=
         (MyGeotab.window_search device_id from_date to_date
          ++ (if truthy diagnostic_id
              then [("diagnosticSearch",
                     MyGeotab.SDict [("id", MyGeotab.SVal diagnostic_id)])]
              else []))%list in
       status_data <- with_state
                        (MyGeotab.get api "StatusData" [("search", MyGeotab.SDict search)]) ;;
       lift (collect (format_status device_id) status_data))
      [("MyGeotabException", λ e, ret [])].

(** The client as the handlers of mcp/operations.py hold it
    ([geotab_client]); they always pass both dates. *)
Definition as_client : McpDocker.GeotabClient.t (state * W) :=
  McpDocker.GeotabClient.mk (state * W)
    get_devices
    get_device_location
    (λ device_id from_date to_date include_non_trip_data,
       get_trips device_id (Some from_date) (Some to_date) include_non_trip_data)
    (λ device_id from_date to_date include_inactive,
       get_fault_data device_id (Some from_date) (Some to_date) include_inactive)
    (λ device_id diagnostic_id from_date to_date,
       get_status_data device_id diagnostic_id (Some from_date) (Some to_date)).
End Client.

End GeotabDocker.

(* ===================================================================== *)
(** ** geotab-mcp-server: example_client.py                                *)
(* ===================================================================== *)

Module ExampleClient.

(** What the script writes: a line of text, or [json.dumps(v, indent=2)]. *)
Inductive out : Type :=
| Text (s : string)
| Dump (v : pyval).

(** [args] as [parse_args] leaves it; a subcommand sets the attributes of
    its own options. *)
Record args : Type := mkArgs {
  command : option string;
  include_inactive : bool;
  device_id : string;
  days : Z;
  active_only : bool
}.

(** [len(x)]; a string is the sequence of its characters. *)
Definition py_len (x : pyval) : exn + nat :=
  match x with
  | VStr s => inr (String.length s)
  | VList l => inr (length l)
  | VDict d => inr (length d)
  | _ => inl (TypeError ("object of type " ++ repr_str (type_name x) ++ " has no len()"))
  end.

(** ["-" * n] *)
Fixpoint dashes (n : nat) : string :=
  match n with
  | O => ""
  | S n' => String "-" (dashes n')
  end.

Definition is_none (v : pyval) : bool :=
  match v with VNone => true | _ => false end.

Section Script.
Context {W : Type}.
Variable rt : runtime.
(** [requests.post(self.server_url, json=payload).json()] *)
Variable post : pyval → M W pyval.

Definition mcp_version : string := "0.1.0".

(** [print(s)] *)
Definition print (s : string) : M (list out * W) unit :=
  set_state (λ written, (written ++ [Text s])%list).

(** [MCPClient.discover] *)
Definition discover : M W pyval :=
  post (VDict [("type", VStr "discover");
               ("version", VStr mcp_version)]).

(** [MCPClient.execute] *)
Definition execute (operation : string) (parameters : option dict) : M W pyval :=
  let parameters := match parameters with None => [] | Some p => p end in
  post (VDict [("type", VStr "execute");
               ("version", VStr mcp_version);
               ("operation", VStr operation);
               ("parameters", VDict parameters)]).

Definition print_parameter (param : pyval) : M (list out * W) unit :=
  flag <- lift (method_get param "required" (VBool false)) ;;
  let required := if truthy flag then "(Required)" else "(Optional)" in
  given <- lift (method_get param "default" VNone) ;;
  default <- (if negb (is_none given) then
                shown <- lift (method_get param "default" VNone) ;;
                ret (", Default: " ++ py_str rt shown)
              else ret "") ;;
  name <- lift (getitem param "name") ;;
  type <- lift (getitem param "type") ;;
  print ("  - " ++ py_str rt name ++ " (" ++ py_str rt type ++ ") "
           ++ required ++ default) ;;;
  description <- lift (getitem param "description") ;;
  print ("    " ++ py_str rt description).

Definition print_operation (op : pyval) : M (list out * W) unit :=
  name <- lift (getitem op "name") ;;
  print (Pydantic.newline ++ py_str rt name) ;;;
  name <- lift (getitem op "name") ;;
  width <- lift (py_len name) ;;
  print (dashes width) ;;;
  description <- lift (getitem op "description") ;;
  print ("Description: " ++ py_str rt description) ;;;
  returns <- lift (getitem op "returns") ;;
  print ("Returns: " ++ py_str rt returns) ;;;
  parameters <- lift (getitem op "parameters") ;;
  if truthy parameters then
    print (Pydantic.newline ++ "Parameters:") ;;;
    parameters <- lift (getitem op "parameters") ;;
    params <- lift (iterate parameters) ;;
    for_each print_parameter params
  else ret tt.

Definition print_operations (operations : pyval) : M (list out * W) unit :=
  print (Pydantic.newline ++ "Available Operations:") ;;;
  print "====================" ;;;
  ops <- lift (iterate operations) ;;
  for_each print_operation ops.

Definition print_result (result : pyval) : M (list out * W) unit :=
  print (Pydantic.newline ++ "Operation Result:") ;;;
  print "================" ;;;
  set_state (λ written, (written ++ [Dump result])%list).

Definition main (a : args) : M (list out * W) unit :=
  match command a with
  | None | Some "discover" =>
      discover_result <- with_state discover ;;
      type <- lift (method_get discover_result "type" VNone) ;;
      if eq_str type "error" then
        error <- lift (method_get discover_result "error" VNone) ;;
        print ("Error: " ++ py_str rt error) ;;;
        details <- lift (method_get discover_result "details" VNone) ;;
        print ("Details: " ++ py_str rt details)
      else
        operations <- lift (method_get discover_result "operations" (VList [])) ;;
        print_operations operations
  | Some "get_device_info" =>
      let parameters :=
        if include_inactive a then [("include_inactive", VBool true)] else [] in
      result <- with_state (execute "get_device_info" (Some parameters)) ;;
      print_result result
  | Some "get_device_location" =>
      let parameters := [("device_id", VStr (device_id a))] in
      result <- with_state (execute "get_device_location" (Some parameters)) ;;
      print_result result
  | Some "get_trip_data" =>
      let parameters := [("device_id", VStr (device_id a));
                         ("days", VInt (days a))] in
      result <- with_state (execute "get_trip_data" (Some parameters)) ;;
      print_result result
  | Some "get_fault_data" =>
      let parameters := [("device_id", VStr (device_id a));
                         ("days", VInt (days a));
                         ("active_only", VBool (active_only a))] in
      result <- with_state (execute "get_fault_data" (Some parameters)) ;;
      print_result result
  | Some _ => ret tt
  end.
End Script.

End ExampleClient.

(* ===================================================================== *)
(** ** A small fleet behind a stub SDK, to run the clients on              *)
(* ===================================================================== *)

Module Fleet.

Definition truck : dict :=
  [("id", VStr "b1"); ("name", VStr "Truck 1"); ("serialNumber", VStr "G9-0001");
   ("deviceType", VStr "GO9"); ("active", VBool true)].
Definition trailer : dict :=
  [("id", VStr "b2"); ("name", VStr "Trailer 7"); ("active", VBool false)].
Definition van : dict :=
  [("id", VStr "b3"); ("name", VStr "Van 3")].

Definition status : dict :=
  [("dateTime", VStr "2024-03-01T11:59:00"); ("latitude", VInt 43);
   ("longitude", VInt (-79)); ("speed", VInt 0); ("bearing", VInt 90)].

Definition morning_trip : dict :=
  [("id", VStr "t1"); ("start", VStr "2024-03-01T08:00:00");
   ("stop", VStr "2024-03-01T09:10:00"); ("distance", VInt 42);
   ("startLatitude", VInt 43); ("startLongitude", VInt (-79))].

Definition lunch_stop : dict :=
  [("id", VStr "n1"); ("latitude", VInt 43); ("longitude", VInt (-79))].

Definition engine_fault : dict :=
  [("id", VStr "f1");
   ("diagnostic", VDict [("id", VStr "d1"); ("name", VStr "Engine")]);
   ("controller", VDict [("id", VStr "c1"); ("name", VStr "ECM")]);
   ("activeFault", VBool true)].

Definition entities (type_name : string) : list dict :=
  if String.eqb type_name "Device" then [truck; trailer; van]
  else if String.eqb type_name "DeviceStatusInfo" then [status]
  else if String.eqb type_name "Trip" then [morning_trip]
  else if String.eqb type_name "NonTripActivity" then [lunch_stop]
  else if String.eqb type_name "FaultData" then [engine_fault]
  else [].

(** The SDK answering from the fleet; its calls leave the world (the
    number of clock readings) as it is. *)
Definition sdk : MyGeotab.API nat :=
  MyGeotab.mkAPI nat
    (ret tt)
    (ret (VStr "session-1"))
    (λ type_name _, ret (VDict <$> entities type_name))
    (λ _ _, ret (VStr "12 King St W")).

Definition refused : exn :=
  Exn ["MyGeotabException"; "OSError"] "Incorrect login credentials" VNone.

(** An SDK that refuses the credentials. *)
Definition sdk_refusing : MyGeotab.API nat :=
  MyGeotab.mkAPI nat (ret tt) (raise refused) (λ _ _, ret []) (λ _ _, ret VNone).

(** An SDK whose searches and calls all raise [e]. *)
Definition sdk_raising (e : exn) : MyGeotab.API nat :=
  MyGeotab.mkAPI nat (ret tt) (ret (VStr "session-1")) (λ _ _, raise e) (λ _ _, raise e).

(** The fleet's SDK with the address lookup out of order. *)
Definition sdk_no_geocoder (e : exn) : MyGeotab.API nat :=
  MyGeotab.mkAPI nat (ret tt) (ret (VStr "session-1"))
    (λ type_name _, ret (VDict <$> entities type_name))
    (λ _ _, raise e).

(** Clients that know where the truck is, without an SDK behind them. *)
Definition location : pyval :=
  VDict [("device_id", VStr "b1"); ("latitude", VInt 43); ("longitude", VInt (-79))].

Definition server_client : McpServer.GeotabClient.t nat :=
  McpServer.GeotabClient.mk nat (ret []) (λ _, ret location)
    (λ _ _ _, ret []) (λ _ _ _, ret []).

Definition docker_client : McpDocker.GeotabClient.t nat :=
  McpDocker.GeotabClient.mk nat (λ _, ret []) (λ _, ret location)
    (λ _ _ _ _, ret []) (λ _ _ _ _, ret []) (λ _ _ _ _, ret []).

Definition server_ready : GeotabApi.state := GeotabApi.mkState true true.
Definition docker_ready : GeotabDocker.state := GeotabDocker.mkState true (VStr "session-1").

End Fleet.


(* ===================================================================== *)
(** ** Generic facts: mappings, exceptions, keyword binding                *)
(* ===================================================================== *)

Section DictFacts.
Context {A : Type}.
Implicit Types (d : list (string * A)) (k : string).

Lemma dict_lookup_None d k : dict_lookup d k = None ↔ k ∉ dict_keys d.
Proof.
  unfold dict_keys. induction d as [|[k' v] d IH]; simpl.
  - split; [intros _; apply not_elem_of_nil | done].
  - rewrite not_elem_of_cons. destruct (String.eqb_spec k' k) as [->|Hne].
    + split; [done | intros [? _]; done].
    + rewrite IH. split; [intros ?; split; [congruence | done] | intros [_ ?]; done].
Qed.

Lemma dict_lookup_Some_key d k v : dict_lookup d k = Some v → k ∈ dict_keys d.
Proof.
  intros H. destruct (decide (k ∈ dict_keys d)) as [|Hn]; [done|].
  apply dict_lookup_None in Hn. congruence.
Qed.

Lemma dict_contains_true d k : dict_contains d k = true ↔ k ∈ dict_keys d.
Proof. unfold dict_contains. by rewrite bool_decide_eq_true. Qed.

Lemma dict_contains_false d k : dict_contains d k = false ↔ k ∉ dict_keys d.
Proof. unfold dict_contains. by rewrite bool_decide_eq_false. Qed.

Lemma dict_contains_lookup d k : dict_contains d k = true ↔ is_Some (dict_lookup d k).
Proof.
  rewrite dict_contains_true. split.
  - intros Hin. destruct (dict_lookup d k) eqn:E; [done|].
    apply dict_lookup_None in E. done.
  - intros [v Hv]. by eapply dict_lookup_Some_key.
Qed.
End DictFacts.

Lemma dict_get_default_Some (d : dict) k v dflt :
  dict_lookup d k = Some v → dict_get_default d k dflt = v.
Proof. unfold dict_get_default. by intros ->. Qed.

Lemma dict_get_default_None (d : dict) k dflt :
  dict_lookup d k = None → dict_get_default d k dflt = dflt.
Proof. unfold dict_get_default. by intros ->. Qed.


(* ===================================================================== *)
(** ** ISO strings determine instants                                      *)
(* ===================================================================== *)

Section DigitFacts.

Lemma string_app_cons c (s t : string) : String c s ++ t = String c (s ++ t).
Proof. reflexivity. Qed.

Lemma string_app_nil_l (t : string) : "" ++ t = t.
Proof. reflexivity. Qed.

Lemma string_app_assoc (s1 s2 s3 : string) : (s1 ++ s2) ++ s3 = s1 ++ (s2 ++ s3).
Proof.
  induction s1 as [|c s1 IH]; [reflexivity|].
  by rewrite !string_app_cons, IH.
Qed.

Lemma string_app_nil_r (s : string) : s ++ "" = s.
Proof.
  induction s as [|c s IH]; [reflexivity|]. by rewrite string_app_cons, IH.
Qed.

Lemma digit_value_char d : 0 <= d <= 9 → digit_value (digit_char d) = Some d.
Proof.
  intros Hd.
  assert (d = 0 ∨ d = 1 ∨ d = 2 ∨ d = 3 ∨ d = 4 ∨ d = 5 ∨ d = 6 ∨ d = 7
          ∨ d = 8 ∨ d = 9) as Hcases by lia.
  repeat (destruct Hcases as [->|Hcases]; [reflexivity|]). by subst.
Qed.

(** Reading back what [fixed_digits] wrote, with more to read after it. *)
Lemma take_fixed_digits w : ∀ k n acc rest,
  0 <= n < 10 ^ Z.of_nat w →
  take_digits (w + k) acc (fixed_digits w n ++ rest)
  = take_digits k (acc * 10 ^ Z.of_nat w + n) rest.
Proof.
  induction w as [|w IH]; intros k n acc rest Hn.
  - simpl in *. f_equal. lia.
  - rewrite Nat2Z.inj_succ, Z.pow_succ_r in Hn by lia.
    cbn [fixed_digits]. rewrite string_app_assoc.
    replace (S w + k)%nat with (w + S k)%nat by lia.
    rewrite IH by (split; [apply Z.div_pos | apply Z.div_lt_upper_bound]; lia).
    rewrite string_app_cons, string_app_nil_l. cbn [take_digits].
    rewrite digit_value_char by (pose proof (Z.mod_pos_bound n 10); lia).
    f_equal. rewrite Nat2Z.inj_succ, Z.pow_succ_r by lia.
    pose proof (Z.div_mod n 10). lia.
Qed.

Lemma take_zero_pad w n rest :
  0 <= n < 10 ^ Z.of_nat w →
  take_digits w 0 (zero_pad w n ++ rest) = Some (n, rest).
Proof.
  intros Hn. unfold zero_pad.
  destruct (Z.ltb_spec n (10 ^ Z.of_nat w)); [|lia].
  replace w with (w + 0)%nat at 1 by lia.
  rewrite take_fixed_digits by done. reflexivity.
Qed.

Lemma take_zero_pad_end w n :
  0 <= n < 10 ^ Z.of_nat w →
  take_digits w 0 (zero_pad w n) = Some (n, "").
Proof.
  intros Hn. rewrite <- (string_app_nil_r (zero_pad w n)).
  by apply take_zero_pad.
Qed.

End DigitFacts.

Section CalendarFacts.

Lemma cycle_iter_fst first b days :
  (Pos.iter cycle_step (first, b) days).1 = first + Z.pos days.
Proof.
  induction days as [|days IH] using Pos.peano_ind; [reflexivity|].
  rewrite Pos.iter_succ. unfold cycle_step at 1. cbn [fst]. rewrite IH. lia.
Qed.

Lemma cycle_iter_snd first b days :
  (Pos.iter cycle_step (first, b) days).2 = true →
  ∀ r, first <= r < first + Z.pos days → cycle_day_ok r = true.
Proof.
  induction days as [|days IH] using Pos.peano_ind.
  - cbn. intros [_ Hok]%andb_true_iff r Hr. by replace r with first by lia.
  - rewrite Pos.iter_succ. unfold cycle_step at 1. cbn [snd].
    rewrite cycle_iter_fst. intros [Hbefore Hlast]%andb_true_iff r Hr.
    destruct (decide (r = first + Z.pos days)) as [->|Hne]; [done|].
    apply IH; [done | lia].
Qed.

(** Every day of one 400-year cycle, checked by evaluation. *)
Lemma cycle_days_ok : (Pos.iter cycle_step (0, true) 146097).2 = true.
Proof. vm_compute. reflexivity. Qed.

Lemma cycle_day_ok_all r : 0 <= r < 146097 → cycle_day_ok r = true.
Proof.
  intros Hr. pose proof (cycle_iter_snd 0 true 146097 cycle_days_ok) as Hall.
  apply Hall. lia.
Qed.

(** The date of an ordinal is the date of its offset in the cycle, moved
    forward by whole cycles. *)
Lemma ord2ymd_cycle n :
  ord2ymd n
  = let '(y, m, d) := ord2ymd ((n - 1) mod 146097 + 1) in
    (y + 400 * ((n - 1) / 146097), m, d).
Proof.
  pose proof (Z.mod_pos_bound (n - 1) 146097 eq_refl) as Hr.
  unfold ord2ymd.
  replace ((n - 1) mod 146097 + 1 - 1) with ((n - 1) mod 146097) by lia.
  rewrite (Z.div_small ((n - 1) mod 146097) 146097) by lia.
  rewrite (Z.mod_small ((n - 1) mod 146097) 146097) by lia.
  cbv zeta.
  repeat match goal with
         | |- context [if ?b then _ else _] => destruct b
         end; f_equal; f_equal; lia.
Qed.

Lemma is_leap_cycle y q : is_leap (y + 400 * q) = is_leap y.
Proof.
  unfold is_leap.
  replace (y + 400 * q) with (y + (100 * q) * 4) at 1 by lia.
  replace (y + 400 * q) with (y + (4 * q) * 100) at 1 by lia.
  replace (y + 400 * q) with (y + q * 400) by lia.
  by rewrite !Z_mod_plus_full.
Qed.

Lemma ymd2ord_cycle y m d q :
  ymd2ord (y + 400 * q) m d = ymd2ord y m d + 146097 * q.
Proof.
  unfold ymd2ord, days_before_year. rewrite is_leap_cycle. cbv zeta.
  replace (y + 400 * q - 1) with (y - 1 + (100 * q) * 4) at 2 by lia.
  replace (y + 400 * q - 1) with (y - 1 + (4 * q) * 100) at 2 by lia.
  replace (y + 400 * q - 1) with (y - 1 + q * 400) at 2 by lia.
  rewrite !Z.div_add by lia. lia.
Qed.

(** [ymd2ord] undoes [ord2ymd] on every representable day, and the date has
    a four-digit year, a month and a day of the month. *)
Lemma ymd2ord_ord2ymd n y m d :
  1 <= n <= max_ordinal →
  ord2ymd n = (y, m, d) →
  ymd2ord y m d = n ∧ 1 <= y <= 9999 ∧ 1 <= m <= 12 ∧ 1 <= d <= 31.
Proof.
  unfold max_ordinal. intros Hn Hdate.
  pose proof (Z.mod_pos_bound (n - 1) 146097 eq_refl) as Hr.
  pose proof (Z.div_mod (n - 1) 146097 ltac:(lia)) as Hdm.
  assert (0 <= (n - 1) / 146097 <= 24) as Hq.
  { lia. }
  pose proof (cycle_day_ok_all _ Hr) as Hok.
  rewrite ord2ymd_cycle in Hdate. unfold cycle_day_ok in Hok.
  destruct (ord2ymd ((n - 1) mod 146097 + 1)) as [[y0 m0] d0].
  injection Hdate as <- <- <-.
  rewrite !andb_true_iff, orb_true_iff in Hok.
  destruct Hok as [[[[[[[Hy1 Hy2] Hy3] Hm1] Hm2] Hd1] Hd2] Hord].
  rewrite ymd2ord_cycle. lia.
Qed.

End CalendarFacts.

Section IsoformatFacts.

Lemma expect_char_app c rest : expect_char c (String c "" ++ rest) = Some rest.
Proof.
  rewrite string_app_cons, string_app_nil_l. cbn [expect_char].
  by rewrite Ascii.eqb_refl.
Qed.

(** Hours, minutes and seconds recompose the second of the day. *)
Lemma hms_of_second s :
  s / 3600 * 3600 + s / 60 mod 60 * 60 + s mod 60 = s.
Proof.
  pose proof (Z.div_mod s 60 ltac:(lia)).
  pose proof (Z.div_mod (s / 60) 60 ltac:(lia)).
  replace (s / 3600) with (s / 60 / 60) by (rewrite Z.div_div by lia; reflexivity).
  lia.
Qed.

(** Reading an ISO string gives back the instant it was written from. *)
Lemma parse_isoformat_isoformat t :
  datetime_valid t → parse_isoformat (isoformat t) = Some t.
Proof.
  unfold datetime_valid, max_ordinal, us_per_day. intros Ht.
  unfold isoformat, us_per_day.
  assert (1 <= t / 86400000000 + 1 <= max_ordinal) as Hordinal.
  { unfold max_ordinal. split.
    - pose proof (Z.div_pos t 86400000000). lia.
    - pose proof (Z.div_lt_upper_bound t 86400000000 3652059). lia. }
  destruct (ord2ymd (t / 86400000000 + 1)) as [[y m] d] eqn:Hdate.
  destruct (ymd2ord_ord2ymd _ _ _ _ Hordinal Hdate) as (Hord & Hy & Hm & Hd).
  pose proof (Z.mod_pos_bound t 86400000000 eq_refl) as Hr.
  pose proof (Z.div_mod t 86400000000 ltac:(lia)) as Hdm.
  set (r := t mod 86400000000) in *.
  pose proof (Z.mod_pos_bound r 1000000 eq_refl) as Hus.
  pose proof (Z.div_mod r 1000000 ltac:(lia)) as Hrdm.
  assert (0 <= r / 1000000 < 86400) as Hs.
  { split; [apply Z.div_pos; lia | apply Z.div_lt_upper_bound; lia]. }
  set (s := r / 1000000) in *. set (us := r mod 1000000) in *.
  pose proof (Z.mod_pos_bound s 60 eq_refl) as Hss.
  pose proof (Z.mod_pos_bound (s / 60) 60 eq_refl) as Hmm.
  assert (0 <= s / 3600 < 24) as Hhh.
  { split; [apply Z.div_pos; lia | apply Z.div_lt_upper_bound; lia]. }
  unfold parse_isoformat.
  rewrite ?string_app_assoc.
  rewrite take_zero_pad by (change (10 ^ Z.of_nat 4) with 10000; lia).
  cbn [mbind option_bind]. rewrite expect_char_app. cbn [mbind option_bind].
  rewrite take_zero_pad by (change (10 ^ Z.of_nat 2) with 100; lia).
  cbn [mbind option_bind]. rewrite expect_char_app. cbn [mbind option_bind].
  rewrite take_zero_pad by (change (10 ^ Z.of_nat 2) with 100; lia).
  cbn [mbind option_bind]. rewrite expect_char_app. cbn [mbind option_bind].
  rewrite take_zero_pad by (change (10 ^ Z.of_nat 2) with 100; lia).
  cbn [mbind option_bind]. rewrite expect_char_app. cbn [mbind option_bind].
  rewrite take_zero_pad by (change (10 ^ Z.of_nat 2) with 100; lia).
  cbn [mbind option_bind]. rewrite expect_char_app. cbn [mbind option_bind].
  rewrite take_zero_pad by (change (10 ^ Z.of_nat 2) with 100; lia).
  cbn [mbind option_bind].
  pose proof (hms_of_second s) as Hhms.
  destruct (Z.eqb_spec us 0) as [Hzero|Hnonzero].
  - cbn [mbind option_bind]. f_equal. unfold us_per_day. lia.
  - rewrite string_app_cons, string_app_nil_l. cbn [mbind option_bind].
    change (expect_char "." (String "." (zero_pad 6 us)))
      with (Some (zero_pad 6 us)).
    cbn [mbind option_bind].
    rewrite take_zero_pad_end by (change (10 ^ Z.of_nat 6) with 1000000; lia).
    cbn [mbind option_bind]. f_equal. unfold us_per_day. lia.
Qed.

(** Two representable instants with the same ISO string are the same. *)
Lemma isoformat_inj t1 t2 :
  datetime_valid t1 → datetime_valid t2 →
  isoformat t1 = isoformat t2 → t1 = t2.
Proof.
  intros H1 H2 Heq.
  apply parse_isoformat_isoformat in H1, H2.
  rewrite Heq in H1. congruence.
Qed.

End IsoformatFacts.

Lemma isinstance_Exception e : isinstance e "Exception" = true.
Proof. reflexivity. Qed.

Lemma isinstance_TypeError msg : isinstance (TypeError msg) "TypeError" = true.
Proof. reflexivity. Qed.

Lemma isinstance_ValueError msg : isinstance (ValueError msg) "ValueError" = true.
Proof. reflexivity. Qed.

Section KeywordFacts.
Variables (fname : string) (sig : signature).
Implicit Types (kwargs : dict) (k : string).

Lemma check_keywords_TypeError kwargs e :
  check_keywords fname sig kwargs = Some e → ∃ msg, e = TypeError msg.
Proof.
  induction kwargs as [|[k v] kwargs IH]; simpl; [done|].
  destruct (String.eqb k "self"); [intros [= <-]; eauto|].
  destruct (dict_contains sig k); [done|]. intros [= <-]; eauto.
Qed.

Lemma check_keywords_unexpected kwargs k :
  k ∈ dict_keys kwargs → k ∉ dict_keys sig →
  is_Some (check_keywords fname sig kwargs).
Proof.
  intros Hin Hsig. unfold dict_keys in Hin.
  induction kwargs as [|[k' v] kwargs IH]; simpl in *.
  - by apply elem_of_nil in Hin.
  - destruct (String.eqb k' "self"); [done|].
    destruct (dict_contains sig k') eqn:Hk'; [|done].
    apply elem_of_cons in Hin as [->|Hin]; [|by apply IH].
    apply dict_contains_true in Hk'. done.
Qed.

(** Binding fails with a [TypeError] when a keyword names no parameter. *)
Lemma bind_kwargs_unexpected kwargs k :
  k ∈ dict_keys kwargs → k ∉ dict_keys sig →
  ∃ msg, bind_kwargs fname sig kwargs = inl (TypeError msg).
Proof.
  intros Hin Hsig. unfold bind_kwargs.
  destruct (check_keywords_unexpected kwargs k Hin Hsig) as [e He].
  rewrite He. apply check_keywords_TypeError in He as [msg ->]. eauto.
Qed.

(** Binding fails with a [TypeError] when a parameter without default gets
    no value. *)
Lemma bind_kwargs_missing kwargs k :
  (k, None) ∈ sig → dict_lookup kwargs k = None →
  ∃ msg, bind_kwargs fname sig kwargs = inl (TypeError msg).
Proof.
  intros Hin Hk. unfold bind_kwargs.
  destruct (check_keywords fname sig kwargs) as [e|] eqn:He.
  - apply check_keywords_TypeError in He as [msg ->]. eauto.
  - assert (k ∈ missing_args sig kwargs) as Hm.
    { unfold missing_args. apply list_elem_of_omap.
      exists (k, None). split; [done|]. simpl. by rewrite Hk. }
    destruct (missing_args sig kwargs); [by apply elem_of_nil in Hm | eauto].
Qed.
End KeywordFacts.

(* ===================================================================== *)
(** ** geotab-mcp-server: the dispatcher                                   *)
(* ===================================================================== *)

Section ServerFacts.
Import McpServer.
Context {W : Type}.
Variables (rt : runtime) (now : W → datetime * W) (client : GeotabClient.t W).

Local Abbreviation operation_map := (GeotabOperations.operation_map rt now client).
Local Abbreviation handle_execute := (handle_execute rt now client).
Local Abbreviation mcp_endpoint := (mcp_endpoint rt now client).

Lemma fmap_injective {A B : Type} (f : A → B) :
  (∀ x y, f x = f y → x = y) → ∀ l1 l2 : list A, f <$> l1 = f <$> l2 → l1 = l2.
Proof.
  intros Hf l1. induction l1 as [|x l1 IH]; intros [|y l2] Heq;
    try discriminate Heq; [reflexivity|].
  injection Heq as Hxy Hrest. f_equal; [by apply Hf | by apply IH].
Qed.

(** [.dict()] loses nothing of a catalog entry. *)
Lemma MCPParameter_dict_inj p q : MCPParameter_dict p = MCPParameter_dict q → p = q.
Proof. destruct p, q. cbn. by intros [= -> -> -> -> ->]. Qed.

Lemma MCPOperation_dict_inj o1 o2 : MCPOperation_dict o1 = MCPOperation_dict o2 → o1 = o2.
Proof.
  destruct o1, o2. cbn. intros [= -> -> Hparams ->].
  by rewrite (fmap_injective _ MCPParameter_dict_inj _ _ Hparams).
Qed.

Lemma operation_map_keys :
  dict_keys operation_map = op_name <$> OPERATIONS.
Proof. reflexivity. Qed.

(** Every catalog entry is served by a method whose Python signature is
    the one the entry advertises. *)
Lemma operation_map_method spec :
  spec ∈ OPERATIONS →
  ∃ qualname body,
    dict_lookup operation_map (op_name spec)
    = Some (GeotabOperations.method qualname (advertised_signature spec) body).
Proof.
  intros Hin. unfold OPERATIONS in Hin.
  repeat (apply elem_of_cons in Hin as [->|Hin]);
    [do 2 eexists; reflexivity .. | by apply elem_of_nil in Hin].
Qed.

Lemma advertised_signature_keys spec :
  dict_keys (advertised_signature spec) = param_name <$> op_parameters spec.
Proof.
  unfold dict_keys, advertised_signature.
  rewrite <- list_fmap_compose. reflexivity.
Qed.

(** An operation outside the handler table. *)
Lemma handle_execute_unknown request w :
  ereq_operation request ∉ dict_keys operation_map →
  handle_execute request w
  = (inr (MCPErrorResponse_dict MCP_VERSION "Unknown operation"
            [("requested_operation", VStr (ereq_operation request));
             ("available_operations", VList (VStr <$> dict_keys operation_map))]),
     w).
Proof.
  intros Hn. apply dict_contains_false in Hn.
  unfold McpServer.handle_execute. rewrite Hn. reflexivity.
Qed.

(** A registered operation whose method raises: the first matching
    [except] clause builds the reply. *)
Lemma handle_execute_raises request handler e w w' :
  dict_lookup operation_map (ereq_operation request) = Some handler →
  handler (ereq_parameters request) w = (inl e, w') →
  handle_execute request w
  = (inr (MCPErrorResponse_dict MCP_VERSION
            (if isinstance e "TypeError" then "Invalid parameters"
             else "Operation execution failed")
            [("message", VStr (exn_str e))]),
     w').
Proof.
  intros Hlook Hraise.
  assert (dict_contains operation_map (ereq_operation request) = true) as Hc.
  { apply dict_contains_lookup. eauto. }
  unfold McpServer.handle_execute. rewrite Hc. cbn [negb].
  unfold try_except, bind. rewrite Hlook. cbn [ret].
  rewrite Hraise. cbn [select_clause].
  destruct (isinstance e "TypeError"); reflexivity.
Qed.

(** A registered operation called with keywords that do not bind. *)
Lemma handle_execute_bind_error request qualname sig body msg w :
  dict_lookup operation_map (ereq_operation request)
    = Some (GeotabOperations.method qualname sig body) →
  bind_kwargs qualname sig (ereq_parameters request) = inl (TypeError msg) →
  handle_execute request w
  = (inr (MCPErrorResponse_dict MCP_VERSION "Invalid parameters"
            [("message", VStr msg)]), w).
Proof.
  intros Hlook Hbind.
  rewrite (handle_execute_raises request _ (TypeError msg) w w Hlook).
  - reflexivity.
  - unfold GeotabOperations.method, bind, lift. rewrite Hbind. reflexivity.
Qed.

(** A registered operation whose method returns [{"operation": ...,
    "result": {...}}]: the inner mapping becomes the execute reply. *)
Lemma handle_execute_returns request handler result inner w w' :
  dict_lookup operation_map (ereq_operation request) = Some handler →
  handler (ereq_parameters request) w = (inr result, w') →
  getitem result "result" = inr (VDict inner) →
  handle_execute request w
  = (inr (MCPExecuteResponse_dict MCP_VERSION (ereq_operation request) inner), w').
Proof.
  intros Hlook Hret Hinner.
  assert (dict_contains operation_map (ereq_operation request) = true) as Hc.
  { apply dict_contains_lookup. eauto. }
  unfold McpServer.handle_execute. rewrite Hc. cbn [negb].
  unfold try_except, bind, lift. rewrite Hlook. cbn [ret].
  rewrite Hret, Hinner. reflexivity.
Qed.

Lemma isinstance_ValidationError model errors :
  isinstance (Pydantic.ValidationError model errors) "ValidationError" = true.
Proof. reflexivity. Qed.

Lemma eq_str_false v s : v ≠ VStr s → eq_str v s = false.
Proof.
  destruct v; try reflexivity. cbn. intros Hne.
  destruct (String.eqb_spec s0 s) as [->|]; [done | reflexivity].
Qed.

Lemma required_missing {A} (validate : string → pyval → Pydantic.field_error + A)
    d field :
  dict_lookup d field = None →
  Pydantic.required validate d field = inl (Pydantic.missing field).
Proof. intros H. unfold Pydantic.required. by rewrite H. Qed.

(** An [execute] body without [operation] does not validate. *)
Lemma MCPExecuteRequest_init_missing_operation d :
  dict_lookup d "operation" = None →
  ∃ e, MCPExecuteRequest_init rt d = inl e.
Proof.
  intros Hop. unfold MCPExecuteRequest_init, Pydantic.init.
  destruct (dict_lookup d Pydantic.self_parameter); [eauto|].
  rewrite (required_missing _ d "operation" Hop).
  destruct (Pydantic.const_str _ _ _ _), (Pydantic.required _ _ _),
    (Pydantic.optional _ _ _ _); cbn beta iota; eauto.
Qed.

(** Whatever the body and whatever the handlers do, the endpoint returns a
    reply: its last [except] clause takes every exception. *)
Lemma mcp_endpoint_never_raises request_json w :
  ∃ reply w', mcp_endpoint request_json w = (inr reply, w').
Proof.
  unfold McpServer.mcp_endpoint, try_except.
  match goal with |- context [match ?c w with _ => _ end] => destruct (c w) as [[e|reply] w'] end.
  - cbn [select_clause]. destruct (isinstance e "ValidationError"); cbn; eauto.
  - eauto.
Qed.

Lemma mcp_endpoint_malformed data w :
  malformed_envelope data →
  ∃ error details,
    mcp_endpoint (ret data) w
    = (inr (MCPErrorResponse_dict MCP_VERSION error details), w).
Proof.
  intros Hbad. unfold McpServer.mcp_endpoint, try_except, bind, ret, lift.
  destruct data as [| | | | |l|d];
    try (cbn; do 2 eexists; reflexivity).
  cbn [method_get].
  destruct Hbad as [Hty | v Hty Hd He | Hty Hop]; cbn in Hty.
  - rewrite (dict_get_default_None _ _ _ Hty). cbn. eauto.
  - rewrite (dict_get_default_Some _ _ _ _ Hty).
    rewrite !eq_str_false by done. eauto.
  - rewrite (dict_get_default_Some _ _ _ _ Hty).
    change (eq_str (VStr "execute") "discover") with false.
    change (eq_str (VStr "execute") "execute") with true. cbv iota.
    destruct (MCPExecuteRequest_init_missing_operation d Hop) as [e ->].
    cbn [select_clause]. destruct (isinstance e "ValidationError"); [eauto|].
    rewrite isinstance_Exception. eauto.
Qed.
End ServerFacts.

(** C3: geotab-mcp-server.  For a catalog operation and one of its required
    parameters, an execute call whose parameters omit it gets the
    "Invalid parameters" error reply, not a result. *)
Theorem handle_execute_missing_required
    {W : Type} (rt : runtime) (now : W → datetime * W)
    (client : McpServer.GeotabClient.t W)
    (spec : McpServer.MCPOperation) (p : McpServer.MCPParameter)
    (request : McpServer.MCPExecuteRequest) (w : W) :
  spec ∈ McpServer.OPERATIONS →
  p ∈ McpServer.op_parameters spec →
  McpServer.param_required p = true →
  McpServer.ereq_operation request = McpServer.op_name spec →
  dict_lookup (McpServer.ereq_parameters request) (McpServer.param_name p) = None →
  ∃ reply message,
    McpServer.handle_execute rt now client request w = (inr reply, w) ∧
    is_error_reply reply ∧
    reply_field reply "error" = Some (VStr "Invalid parameters") ∧
    reply_field reply "details" = Some (VDict [("message", VStr message)]).
Proof.
  intros Hspec Hp Hreq Hop Hmiss.
  destruct (operation_map_method rt now client spec Hspec) as (qualname & body & Hlook).
  rewrite <- Hop in Hlook.
  assert ((McpServer.param_name p, None) ∈ advertised_signature spec) as Hsig.
  { unfold advertised_signature. apply list_elem_of_fmap.
    exists p. by rewrite Hreq. }
  destruct (bind_kwargs_missing qualname _ _ _ Hsig Hmiss) as [msg Hbind].
  rewrite (handle_execute_bind_error rt now client request _ _ _ msg w Hlook Hbind).
  do 2 eexists. split; [reflexivity|]. repeat split.
Qed.

(** [execute("get_device_location", {})]: [device_id] is missing. *)
Lemma handle_execute_missing_required_witness :
  ∃ reply message,
    McpServer.handle_execute Stub.rt Stub.now Stub.server_client
      (McpServer.mkExecuteRequest "execute" "0.1.0" "get_device_location" []) 0%nat
    = (inr reply, 0%nat) ∧
    is_error_reply reply ∧
    reply_field reply "error" = Some (VStr "Invalid parameters") ∧
    reply_field reply "details" = Some (VDict [("message", VStr message)]).
Proof.
  apply (handle_execute_missing_required Stub.rt Stub.now Stub.server_client
           (McpServer.mkOperation "get_device_location"
              "Get the current location of a specific device"
              [McpServer.mkParameter "device_id" "string"
                 "ID of the device to get location for" true VNone]
              "Current location information including coordinates, speed, and address")
           (McpServer.mkParameter "device_id" "string"
              "ID of the device to get location for" true VNone)).
  - unfold McpServer.OPERATIONS. apply list_elem_of_further, list_elem_of_here.
  - apply list_elem_of_here.
  - reflexivity.
  - reflexivity.
  - reflexivity.
Defined.

(** C9: geotab-mcp-server.  For a catalog operation, an execute call that
    supplies a key the operation does not declare gets the
    "Invalid parameters" error reply: the parameters are passed as keywords. *)
Theorem handle_execute_undeclared_key
    {W : Type} (rt : runtime) (now : W → datetime * W)
    (client : McpServer.GeotabClient.t W)
    (spec : McpServer.MCPOperation)
    (request : McpServer.MCPExecuteRequest) (key : string) (w : W) :
  spec ∈ McpServer.OPERATIONS →
  McpServer.ereq_operation request = McpServer.op_name spec →
  key ∈ dict_keys (McpServer.ereq_parameters request) →
  key ∉ (McpServer.param_name <$> McpServer.op_parameters spec) →
  ∃ reply message,
    McpServer.handle_execute rt now client request w = (inr reply, w) ∧
    is_error_reply reply ∧
    reply_field reply "error" = Some (VStr "Invalid parameters") ∧
    reply_field reply "details" = Some (VDict [("message", VStr message)]).
Proof.
  intros Hspec Hop Hkey Hundeclared.
  destruct (operation_map_method rt now client spec Hspec) as (qualname & body & Hlook).
  rewrite <- Hop in Hlook.
  rewrite <- advertised_signature_keys in Hundeclared.
  destruct (bind_kwargs_unexpected qualname _ _ _ Hkey Hundeclared) as [msg Hbind].
  rewrite (handle_execute_bind_error rt now client request _ _ _ msg w Hlook Hbind).
  do 2 eexists. split; [reflexivity|]. repeat split.
Qed.

(** [execute("get_trip_data", {"device_id": "b1", "dayz": 2})]. *)
Lemma handle_execute_undeclared_key_witness :
  ∃ reply message,
    McpServer.handle_execute Stub.rt Stub.now Stub.server_client
      (McpServer.mkExecuteRequest "execute" "0.1.0" "get_trip_data"
         [("device_id", VStr "b1"); ("dayz", VInt 2)]) 0%nat
    = (inr reply, 0%nat) ∧
    is_error_reply reply ∧
    reply_field reply "error" = Some (VStr "Invalid parameters") ∧
    reply_field reply "details" = Some (VDict [("message", VStr message)]).
Proof.
  apply (handle_execute_undeclared_key Stub.rt Stub.now Stub.server_client
           (McpServer.mkOperation "get_trip_data"
              "Get trip data for a specific device within a time range"
              [McpServer.mkParameter "device_id" "string"
                 "ID of the device to get trip data for" true VNone;
               McpServer.mkParameter "days" "integer"
                 "Number of days to look back from current time" false (VInt 1)]
              "List of trips with start/end locations, distance, duration, and other metrics")
           _ "dayz").
  - unfold McpServer.OPERATIONS.
    apply list_elem_of_further, list_elem_of_further, list_elem_of_here.
  - reflexivity.
  - apply list_elem_of_further, list_elem_of_here.
  - cbn. intros H. repeat (apply elem_of_cons in H as [[=]|H]).
    by apply elem_of_nil in H.
Defined.

(** A discover body as the endpoint takes it apart: unless a field is
    named like the first parameter of the model's [__init__], the request
    validates and [handle_discover] answers. *)
Lemma server_discover_body {W : Type} (rt : runtime) (now : W → datetime * W)
    (client : McpServer.GeotabClient.t W) (version : string) (extra : dict) (w : W) :
  McpServer.mcp_endpoint rt now client (ret (discover_body version extra)) w
  = match dict_lookup extra "__pydantic_self__" with
    | None =>
        (inr (McpServer.MCPDiscoverResponse_dict "0.1.0" McpServer.OPERATIONS), w)
    | Some _ =>
        (inr (McpServer.MCPErrorResponse_dict "0.1.0" "Server error"
                [("message", VStr (init_collision rt))]), w)
    end.
Proof.
  unfold McpServer.mcp_endpoint, try_except, bind, ret, lift, discover_body.
  cbn [method_get dict_get_default dict_lookup String.eqb Ascii.eqb Bool.eqb default id].
  change (eq_str (VStr "discover") "discover") with true. cbv iota.
  unfold McpServer.MCPDiscoverRequest_init, Pydantic.init, Pydantic.self_parameter.
  cbn [dict_lookup String.eqb Ascii.eqb Bool.eqb].
  destruct (dict_lookup extra "__pydantic_self__"); reflexivity.
Qed.

(** C4: geotab-mcp-server.  [handle_discover] succeeds on every request,
    whatever its version, and so does the endpoint on every discover body
    with a version string and no field named like the first parameter of
    the model's [__init__]: the reply is the discover reply tagged "0.1.0"
    whose operations are the catalog entries in catalog order, from which
    the catalog can be read back unchanged. *)
Theorem handle_discover_returns_catalog
    {W : Type} (rt : runtime) (now : W → datetime * W)
    (client : McpServer.GeotabClient.t W) :
  (∀ (request : McpServer.MCPDiscoverRequest) (w : W),
     McpServer.handle_discover request w
     = (inr (McpServer.MCPDiscoverResponse_dict "0.1.0" McpServer.OPERATIONS), w))
  ∧
  (∀ (version : string) (extra : dict) (w : W),
     dict_lookup extra "__pydantic_self__" = None →
     McpServer.mcp_endpoint rt now client (ret (discover_body version extra)) w
     = (inr (McpServer.MCPDiscoverResponse_dict "0.1.0" McpServer.OPERATIONS), w))
  ∧
  is_discover_reply (McpServer.MCPDiscoverResponse_dict "0.1.0" McpServer.OPERATIONS)
  ∧
  reply_field (McpServer.MCPDiscoverResponse_dict "0.1.0" McpServer.OPERATIONS)
    "version" = Some (VStr "0.1.0")
  ∧
  reply_field (McpServer.MCPDiscoverResponse_dict "0.1.0" McpServer.OPERATIONS)
    "operations"
  = Some (VList (McpServer.MCPOperation_dict <$> McpServer.OPERATIONS))
  ∧
  (∀ catalog : list McpServer.MCPOperation,
     McpServer.MCPOperation_dict <$> catalog
     = McpServer.MCPOperation_dict <$> McpServer.OPERATIONS →
     catalog = McpServer.OPERATIONS).
Proof.
  split; [reflexivity|]. split.
  { intros version extra w Hplain. rewrite server_discover_body. by rewrite Hplain. }
  repeat split.
  intros catalog. apply fmap_injective, MCPOperation_dict_inj.
Qed.

(** A discover call with version "9.9" and a field the model does not
    declare. *)
Lemma handle_discover_returns_catalog_witness :
  McpServer.mcp_endpoint Stub.rt Stub.now Stub.server_client
    (ret (discover_body "9.9" [("client", VStr "cli")])) 0%nat
  = (inr (McpServer.MCPDiscoverResponse_dict "0.1.0" McpServer.OPERATIONS), 0%nat).
Proof.
  apply (proj1 (proj2 (handle_discover_returns_catalog Stub.rt Stub.now
                         Stub.server_client))).
  reflexivity.
Defined.

(** C8: geotab-mcp-server.  Two discover calls, with any two versions and
    from any two states of the world, return the same reply, hence the same
    operation list; a discover call leaves the world as it was.  At the
    endpoint the bodies may hold other fields too, except one named like
    the first parameter of the model's [__init__]. *)
Theorem handle_discover_version_insensitive
    {W : Type} (rt : runtime) (now : W → datetime * W)
    (client : McpServer.GeotabClient.t W)
    (version1 version2 : string) (extra1 extra2 : dict) (w1 w2 : W) :
  dict_lookup extra1 "__pydantic_self__" = None →
  dict_lookup extra2 "__pydantic_self__" = None →
  (McpServer.mcp_endpoint rt now client (ret (discover_body version1 extra1)) w1).1
  = (McpServer.mcp_endpoint rt now client (ret (discover_body version2 extra2)) w2).1
  ∧ (McpServer.mcp_endpoint rt now client (ret (discover_body version1 extra1)) w1).2
    = w1
  ∧ (∀ r1 r2 : McpServer.MCPDiscoverRequest,
       (McpServer.handle_discover r1 w1).1 = (McpServer.handle_discover r2 w2).1)
  ∧ ∃ reply,
      (McpServer.mcp_endpoint rt now client (ret (discover_body version1 extra1)) w1).1
      = inr reply ∧
      reply_field reply "operations"
      = Some (VList (McpServer.MCPOperation_dict <$> McpServer.OPERATIONS)).
Proof.
  intros Hplain1 Hplain2. rewrite !server_discover_body, Hplain1, Hplain2.
  repeat split; try reflexivity.
  eexists. split; reflexivity.
Qed.

(** Versions "0.1.0" and "7", the second body with one more field, from
    two states of the world. *)
Lemma handle_discover_version_insensitive_witness :
  (McpServer.mcp_endpoint Stub.rt Stub.now Stub.server_client
     (ret (discover_body "0.1.0" [])) 0%nat).1
  = (McpServer.mcp_endpoint Stub.rt Stub.now Stub.server_client
       (ret (discover_body "7" [("client", VStr "cli")])) 5%nat).1.
Proof.
  apply (handle_discover_version_insensitive Stub.rt Stub.now Stub.server_client
           "0.1.0" "7" [] [("client", VStr "cli")] 0%nat 5%nat eq_refl eq_refl).
Defined.

(** C5: geotab-mcp-server, [mcp_endpoint].  A body whose type is missing or
    is neither discover nor execute, and an execute body without operation,
    get an error reply; the endpoint returns and does not raise. *)
Theorem mcp_endpoint_malformed_envelope
    {W : Type} (rt : runtime) (now : W → datetime * W)
    (client : McpServer.GeotabClient.t W) (data : pyval) (w : W) :
  malformed_envelope data →
  ∃ reply,
    McpServer.mcp_endpoint rt now client (ret data) w = (inr reply, w) ∧
    is_error_reply reply ∧
    reply_field reply "version" = Some (VStr "0.1.0").
Proof.
  intros Hbad.
  destruct (mcp_endpoint_malformed rt now client data w Hbad) as (error & details & ->).
  eexists. split; [reflexivity|]. split; reflexivity.
Qed.

(** An execute body without [operation]. *)
Lemma mcp_endpoint_malformed_envelope_witness :
  ∃ reply,
    McpServer.mcp_endpoint Stub.rt Stub.now Stub.server_client
      (ret (VDict [("type", VStr "execute"); ("version", VStr "0.1.0")])) 0%nat
    = (inr reply, 0%nat) ∧
    is_error_reply reply ∧
    reply_field reply "version" = Some (VStr "0.1.0").
Proof.
  apply (mcp_endpoint_malformed_envelope Stub.rt Stub.now Stub.server_client
           (VDict [("type", VStr "execute"); ("version", VStr "0.1.0")]) 0%nat).
  apply operation_missing; reflexivity.
Defined.

(** C6: in both variants the catalog names and the keys of the handler
    mapping are the same set, and neither lists a name twice: each catalog
    entry has one handler and each handler one catalog entry. *)
Theorem catalog_and_handlers_in_lock_step
    {W : Type} (rt : runtime) (now : W → datetime * W)
    (server_client : McpServer.GeotabClient.t W)
    (docker_client : McpDocker.GeotabClient.t W) :
  (list_to_set (McpServer.op_name <$> McpServer.OPERATIONS)
     =@{gset string}
     list_to_set (dict_keys (McpServer.GeotabOperations.operation_map rt now server_client))
   ∧ NoDup (McpServer.op_name <$> McpServer.OPERATIONS)
   ∧ NoDup (dict_keys (McpServer.GeotabOperations.operation_map rt now server_client)))
  ∧
  (list_to_set (McpDocker.op_name <$> McpDocker.OPERATIONS)
     =@{gset string}
     list_to_set (dict_keys (McpDocker.OPERATION_HANDLERS rt now docker_client))
   ∧ NoDup (McpDocker.op_name <$> McpDocker.OPERATIONS)
   ∧ NoDup (dict_keys (McpDocker.OPERATION_HANDLERS rt now docker_client))).
Proof.
  assert (dict_keys (McpServer.GeotabOperations.operation_map rt now server_client)
          = McpServer.op_name <$> McpServer.OPERATIONS) as -> by reflexivity.
  assert (dict_keys (McpDocker.OPERATION_HANDLERS rt now docker_client)
          = McpDocker.op_name <$> McpDocker.OPERATIONS) as -> by reflexivity.
  repeat split; try (apply (bool_decide_unpack _); vm_compute; exact I).
Qed.

(* ===================================================================== *)
(** ** geotab-mcp-docker: the dispatcher                                   *)
(* ===================================================================== *)

Section DockerFacts.
Import McpDocker.
Context {W : Type}.
Variables (rt : runtime) (now : W → datetime * W) (client : GeotabClient.t W).

Local Abbreviation handlers := (OPERATION_HANDLERS rt now client).
Local Abbreviation execute_operation := (execute_operation rt now client).
Local Abbreviation handle_execute := (handle_execute rt now client).

Lemma docker_handlers_keys : dict_keys handlers = op_name <$> OPERATIONS.
Proof. reflexivity. Qed.

Lemma docker_execute_operation_unknown operation parameters w :
  operation ∉ dict_keys handlers →
  execute_operation operation parameters w
  = (inl (ValueError ("Unknown operation: " ++ operation)), w).
Proof.
  intros Hn. apply dict_contains_false in Hn.
  unfold McpDocker.execute_operation. rewrite Hn. reflexivity.
Qed.

(** A registered operation: the outcome of the handler, an exception being
    raised again unchanged. *)
Lemma docker_execute_operation_registered operation handler parameters w :
  dict_lookup handlers operation = Some handler →
  execute_operation operation parameters w = handler parameters w.
Proof.
  intros Hlook.
  assert (dict_contains handlers operation = true) as Hc.
  { apply dict_contains_lookup. eauto. }
  unfold McpDocker.execute_operation. rewrite Hc. cbn [negb].
  unfold try_except, bind. rewrite Hlook. cbn [ret].
  destruct (handler parameters w) as [[e|v] w']; reflexivity.
Qed.

(** A well-formed execute body reaches the inner [try]: the request
    validates, its type is "execute", and the inner [try] lets no
    exception out. *)
Lemma docker_handle_execute_body version operation parameters w :
  handle_execute (execute_body version operation parameters) w
  = match execute_operation operation parameters w with
    | (inr result, w') =>
        match MCPExecuteResponse_init rt MCP_VERSION operation result with
        | inr reply => (inr reply, w')
        | inl e =>
            (inr (MCPErrorResponse_dict MCP_VERSION
                    (if isinstance e "ValueError" then "Operation error"
                     else "Operation execution failed")
                    [("message", VStr (exn_str e))]), w')
        end
    | (inl e, w') =>
        (inr (MCPErrorResponse_dict MCP_VERSION
                (if isinstance e "ValueError" then "Operation error"
                 else "Operation execution failed")
                [("message", VStr (exn_str e))]), w')
    end.
Proof.
  assert (MCPExecuteRequest_init rt (execute_body version operation parameters)
          = inr (mkExecuteRequest "execute" version operation parameters)) as Hinit
    by reflexivity.
  unfold McpDocker.handle_execute, try_except, bind, lift.
  rewrite Hinit.
  change (execute_validate_type
            (mkExecuteRequest "execute" version operation parameters))
    with (@inr exn unit tt).
  cbn [ereq_operation ereq_parameters].
  destruct (execute_operation operation parameters w) as [[e|result] w'].
  - cbn [select_clause]. destruct (isinstance e "ValueError"); reflexivity.
  - destruct (MCPExecuteResponse_init rt MCP_VERSION operation result) as [e|reply].
    + cbn [select_clause]. destruct (isinstance e "ValueError"); reflexivity.
    + reflexivity.
Qed.
End DockerFacts.

(** C1: in both variants, when the operation is in the handler table and
    the handler it resolves to raises an exception [e], [handle_execute]
    returns (it does not raise) an error reply whose details carry [str(e)]
    as [message]. *)
Theorem handle_execute_handler_exception
    {W : Type} (rt : runtime) (now : W → datetime * W)
    (server_client : McpServer.GeotabClient.t W)
    (docker_client : McpDocker.GeotabClient.t W)
    (request : McpServer.MCPExecuteRequest)
    (version operation : string) (parameters : dict)
    (handler : dict → M W pyval) (e : exn) (w w' : W) :
  (dict_lookup (McpServer.GeotabOperations.operation_map rt now server_client)
     (McpServer.ereq_operation request) = Some handler →
   handler (McpServer.ereq_parameters request) w = (inl e, w') →
   ∃ reply,
     McpServer.handle_execute rt now server_client request w = (inr reply, w') ∧
     is_error_reply reply ∧
     reply_field reply "version" = Some (VStr "0.1.0") ∧
     reply_field reply "details" = Some (VDict [("message", VStr (exn_str e))]))
  ∧
  (dict_lookup (McpDocker.OPERATION_HANDLERS rt now docker_client) operation
     = Some handler →
   handler parameters w = (inl e, w') →
   ∃ reply,
     McpDocker.handle_execute rt now docker_client
       (execute_body version operation parameters) w = (inr reply, w') ∧
     is_error_reply reply ∧
     reply_field reply "version" = Some (VStr "0.1.0") ∧
     reply_field reply "details" = Some (VDict [("message", VStr (exn_str e))])).
Proof.
  split; intros Hlook Hraise.
  - rewrite (handle_execute_raises rt now server_client request handler e w w'
               Hlook Hraise).
    eexists. split; [reflexivity|]. repeat split.
  - rewrite docker_handle_execute_body.
    rewrite (docker_execute_operation_registered rt now docker_client
               operation handler parameters w Hlook), Hraise.
    eexists. split; [reflexivity|]. repeat split.
Qed.

(** The data source is down: [get_devices] raises inside
    [get_device_info] (geotab-mcp-server) and inside [handle_get_devices]
    (geotab-mcp-docker). *)
Lemma handle_execute_handler_exception_witness :
  (∃ reply,
     McpServer.handle_execute Stub.rt Stub.now Stub.failing_server_client
       (McpServer.mkExecuteRequest "execute" "0.1.0" "get_device_info" []) 0%nat
     = (inr reply, 0%nat) ∧
     is_error_reply reply ∧
     reply_field reply "version" = Some (VStr "0.1.0") ∧
     reply_field reply "details"
     = Some (VDict [("message", VStr (exn_str Stub.down))]))
  ∧
  (∃ reply,
     McpDocker.handle_execute Stub.rt Stub.now Stub.failing_docker_client
       (execute_body "0.1.0" "get_devices" []) 0%nat
     = (inr reply, 0%nat) ∧
     is_error_reply reply ∧
     reply_field reply "version" = Some (VStr "0.1.0") ∧
     reply_field reply "details"
     = Some (VDict [("message", VStr (exn_str Stub.down))])).
Proof.
  split.
  - eapply (proj1 (handle_execute_handler_exception Stub.rt Stub.now
                     Stub.failing_server_client Stub.failing_docker_client
                     (McpServer.mkExecuteRequest "execute" "0.1.0" "get_device_info" [])
                     "0.1.0" "get_devices" [] _ Stub.down 0%nat 0%nat));
      reflexivity.
  - eapply (proj2 (handle_execute_handler_exception Stub.rt Stub.now
                     Stub.failing_server_client Stub.failing_docker_client
                     (McpServer.mkExecuteRequest "execute" "0.1.0" "get_device_info" [])
                     "0.1.0" "get_devices" [] _ Stub.down 0%nat 0%nat));
      reflexivity.
Defined.

(** A docker reply to an operation outside the catalog: it is an error
    reply, but neither named "Unknown operation" nor listing the catalog. *)
Lemma docker_unknown_operation_counterexample :
  ("nonexistent_op" ∉ (McpDocker.op_name <$> McpDocker.OPERATIONS)) ∧
  ∃ reply,
    McpDocker.mcp_endpoint Stub.rt Stub.now Stub.docker_client
      (ret (VDict (execute_body "0.1.0" "nonexistent_op" []))) 0%nat
    = (inr reply, 0%nat) ∧
    ¬ unknown_operation_reply (McpDocker.op_name <$> McpDocker.OPERATIONS) reply.
Proof.
  split.
  - cbn. intros H. repeat (apply elem_of_cons in H as [[=]|H]).
    by apply elem_of_nil in H.
  - eexists. split; [vm_compute; reflexivity|].
    intros (_ & Herror & _). vm_compute in Herror. discriminate Herror.
Qed.

(** C2, as the code has it.  geotab-mcp-server answers an operation outside
    its catalog with the "Unknown operation" error reply listing every
    catalog name; geotab-mcp-docker answers with the "Operation error"
    reply whose message is "Unknown operation: <name>". *)
Theorem unknown_operation_replies
    {W : Type} (rt : runtime) (now : W → datetime * W)
    (server_client : McpServer.GeotabClient.t W)
    (docker_client : McpDocker.GeotabClient.t W)
    (request : McpServer.MCPExecuteRequest)
    (version operation : string) (parameters : dict) (w : W) :
  McpServer.ereq_operation request ∉ (McpServer.op_name <$> McpServer.OPERATIONS) →
  operation ∉ (McpDocker.op_name <$> McpDocker.OPERATIONS) →
  (∃ reply,
     McpServer.handle_execute rt now server_client request w = (inr reply, w) ∧
     unknown_operation_reply (McpServer.op_name <$> McpServer.OPERATIONS) reply ∧
     reply_field reply "version" = Some (VStr "0.1.0"))
  ∧
  McpDocker.handle_execute rt now docker_client
    (execute_body version operation parameters) w
  = (inr (McpDocker.MCPErrorResponse_dict "0.1.0" "Operation error"
            [("message", VStr ("Unknown operation: " ++ operation))]), w).
Proof.
  intros Hserver Hdocker. split.
  - rewrite <- (operation_map_keys rt now server_client) in Hserver.
    rewrite (handle_execute_unknown rt now server_client request w Hserver).
    eexists. split; [reflexivity|]. split; [|reflexivity].
    split; [reflexivity|]. split; [reflexivity|].
    do 2 eexists. split; [reflexivity|]. split; [reflexivity|].
    intros name Hname. apply list_elem_of_fmap. eauto.
  - rewrite <- (docker_handlers_keys rt now docker_client) in Hdocker.
    rewrite docker_handle_execute_body.
    rewrite (docker_execute_operation_unknown rt now docker_client _ _ _ Hdocker).
    reflexivity.
Qed.

(** [execute("nonexistent_op", {})] against both variants. *)
Lemma unknown_operation_replies_witness :
  (∃ reply,
     McpServer.handle_execute Stub.rt Stub.now Stub.server_client
       (McpServer.mkExecuteRequest "execute" "0.1.0" "nonexistent_op" []) 0%nat
     = (inr reply, 0%nat) ∧
     unknown_operation_reply (McpServer.op_name <$> McpServer.OPERATIONS) reply ∧
     reply_field reply "version" = Some (VStr "0.1.0"))
  ∧
  McpDocker.handle_execute Stub.rt Stub.now Stub.docker_client
    (execute_body "0.1.0" "nonexistent_op" []) 0%nat
  = (inr (McpDocker.MCPErrorResponse_dict "0.1.0" "Operation error"
            [("message", VStr ("Unknown operation: " ++ "nonexistent_op"))]), 0%nat).
Proof.
  apply (unknown_operation_replies Stub.rt Stub.now Stub.server_client
           Stub.docker_client
           (McpServer.mkExecuteRequest "execute" "0.1.0" "nonexistent_op" [])
           "0.1.0" "nonexistent_op" [] 0%nat).
  - cbn. intros H. repeat (apply elem_of_cons in H as [[=]|H]).
    by apply elem_of_nil in H.
  - cbn. intros H. repeat (apply elem_of_cons in H as [[=]|H]).
    by apply elem_of_nil in H.
Defined.

(** A device id that is present but empty: geotab-mcp-docker tests the id
    for truth before it asks the data source, and answers with an error
    reply, not with an execute reply holding an [error] entry. *)
Lemma docker_empty_device_id_counterexample :
  dict_lookup [("device_id", VStr "")] "device_id" = Some (VStr "") ∧
  McpDocker.GeotabClient.get_device_location Stub.docker_client (VStr "") 0%nat
    = (inr VNone, 0%nat) ∧
  ∃ reply,
    McpDocker.mcp_endpoint Stub.rt Stub.now Stub.docker_client
      (ret (VDict (execute_body "0.1.0" "get_device_location" [("device_id", VStr "")])))
      0%nat
    = (inr reply, 0%nat) ∧
    is_error_reply reply ∧
    ¬ is_execute_reply reply ∧
    reply_field reply "result" = None.
Proof.
  split; [reflexivity|]. split; [reflexivity|].
  eexists. split; [vm_compute; reflexivity|].
  split; [reflexivity|]. split; [|reflexivity].
  intros Hexecute. vm_compute in Hexecute. discriminate Hexecute.
Qed.

(** C10, as the code has it: [get_device_location] with a device id for
    which the data source has no location.  geotab-mcp-server returns an
    execute reply, not an error reply, whose result holds an [error] entry,
    the device id and a timestamp, whatever the id is.  geotab-mcp-docker
    does the same when the id is truthy; an id that is present but falsy
    (empty string, zero, false, null, empty list or object) is answered
    with the "Operation error" reply and the data source is not asked. *)
Theorem get_device_location_without_location
    {W : Type} (rt : runtime) (now : W → datetime * W)
    (server_client : McpServer.GeotabClient.t W)
    (docker_client : McpDocker.GeotabClient.t W)
    (version : string) (device_id location : pyval) (parameters : dict)
    (timestamp : datetime) (w w1 w2 : W) :
  truthy location = false →
  now w1 = (timestamp, w2) →
  (McpServer.GeotabClient.get_device_location server_client device_id w = (inr location, w1) →
   ∃ reply,
     McpServer.handle_execute rt now server_client
       (McpServer.mkExecuteRequest "execute" version "get_device_location"
          [("device_id", device_id)]) w = (inr reply, w2) ∧
     is_execute_reply reply ∧ ¬ is_error_reply reply ∧
     reply_field reply "result"
     = Some (VDict [("error", VStr "Device location not found");
                    ("device_id", device_id);
                    ("timestamp", VStr (isoformat timestamp))]))
  ∧
  (dict_lookup parameters "device_id" = Some device_id →
   truthy device_id = true →
   McpDocker.GeotabClient.get_device_location docker_client device_id w = (inr location, w1) →
   ∃ reply,
     McpDocker.handle_execute rt now docker_client
       (execute_body version "get_device_location" parameters) w = (inr reply, w2) ∧
     is_execute_reply reply ∧ ¬ is_error_reply reply ∧
     reply_field reply "result"
     = Some (VDict [("error", VStr "Location not available for device");
                    ("device_id", device_id);
                    ("timestamp", VStr (isoformat timestamp))]))
  ∧
  (dict_lookup parameters "device_id" = Some device_id →
   truthy device_id = false →
   McpDocker.handle_execute rt now docker_client
     (execute_body version "get_device_location" parameters) w
   = (inr (McpDocker.MCPErrorResponse_dict "0.1.0" "Operation error"
             [("message", VStr "device_id is required")]), w)).
Proof.
  intros Hnone Hnow. split; [|split].
  - intros Hloc.
    rewrite (handle_execute_returns rt now server_client
               (McpServer.mkExecuteRequest "execute" version "get_device_location"
                  [("device_id", device_id)])
               (McpServer.GeotabOperations.method "GeotabOperations.get_device_location"
                  McpServer.GeotabOperations.sig_get_device_location
                  (λ a, McpServer.GeotabOperations.get_device_location now server_client
                          (dict_get a "device_id")))
               (VDict [("operation", VStr "get_device_location");
                       ("result",
                        VDict [("error", VStr "Device location not found");
                               ("device_id", device_id);
                               ("timestamp", VStr (isoformat timestamp))])])
               [("error", VStr "Device location not found");
                ("device_id", device_id);
                ("timestamp", VStr (isoformat timestamp))] w w2).
    + eexists. split; [reflexivity|]. split; [reflexivity|].
      split; [intros [=] | reflexivity].
    + reflexivity.
    + cbn [McpServer.ereq_parameters].
      unfold McpServer.GeotabOperations.method, bind, lift.
      change (bind_kwargs "GeotabOperations.get_device_location"
                McpServer.GeotabOperations.sig_get_device_location [("device_id", device_id)])
        with (@inr exn dict [("device_id", device_id)]).
      cbv beta iota.
      change (dict_get [("device_id", device_id)] "device_id") with device_id.
      unfold McpServer.GeotabOperations.get_device_location, bind. rewrite Hloc, Hnone.
      cbn [negb]. unfold McpServer.GeotabOperations.datetime_now, bind. rewrite Hnow. reflexivity.
    + reflexivity.
  - intros Hid Htrue Hloc.
    rewrite docker_handle_execute_body.
    rewrite (docker_execute_operation_registered rt now docker_client
               "get_device_location"
               (McpDocker.handle_get_device_location now docker_client))
      by reflexivity.
    unfold McpDocker.handle_get_device_location, dict_get.
    rewrite (dict_get_default_Some _ _ _ _ Hid), Htrue. cbn [negb].
    unfold bind. rewrite Hloc, Hnone. cbn [negb].
    unfold McpDocker.datetime_now. rewrite Hnow.
    eexists. split; [reflexivity|]. split; [reflexivity|].
    split; [intros [=] | reflexivity].
  - intros Hid Hfalse.
    rewrite docker_handle_execute_body.
    rewrite (docker_execute_operation_registered rt now docker_client
               "get_device_location"
               (McpDocker.handle_get_device_location now docker_client))
      by reflexivity.
    unfold McpDocker.handle_get_device_location, dict_get.
    rewrite (dict_get_default_Some _ _ _ _ Hid), Hfalse. reflexivity.
Qed.

(** The stub data sources know no location; the device is "b1". *)
Lemma get_device_location_without_location_witness :
  (∃ reply,
     McpServer.handle_execute Stub.rt Stub.now Stub.server_client
       (McpServer.mkExecuteRequest "execute" "0.1.0" "get_device_location"
          [("device_id", VStr "b1")]) 0%nat = (inr reply, 1%nat) ∧
     is_execute_reply reply ∧ ¬ is_error_reply reply ∧
     reply_field reply "result"
     = Some (VDict [("error", VStr "Device location not found");
                    ("device_id", VStr "b1");
                    ("timestamp", VStr (isoformat Stub.clock_start))]))
  ∧
  (∃ reply,
     McpDocker.handle_execute Stub.rt Stub.now Stub.docker_client
       (execute_body "0.1.0" "get_device_location" [("device_id", VStr "b1")]) 0%nat
     = (inr reply, 1%nat) ∧
     is_execute_reply reply ∧ ¬ is_error_reply reply ∧
     reply_field reply "result"
     = Some (VDict [("error", VStr "Location not available for device");
                    ("device_id", VStr "b1");
                    ("timestamp", VStr (isoformat Stub.clock_start))])).
Proof.
  split.
  - apply (proj1 (get_device_location_without_location Stub.rt Stub.now
                    Stub.server_client Stub.docker_client "0.1.0" (VStr "b1") VNone
                    [("device_id", VStr "b1")] Stub.clock_start 0%nat 0%nat 1%nat
                    eq_refl eq_refl)).
    reflexivity.
  - apply (proj1 (proj2 (get_device_location_without_location Stub.rt Stub.now
                    Stub.server_client Stub.docker_client "0.1.0" (VStr "b1") VNone
                    [("device_id", VStr "b1")] Stub.clock_start 0%nat 0%nat 1%nat
                    eq_refl eq_refl))).
    + reflexivity.
    + reflexivity.
    + reflexivity.
Defined.

(** C7: geotab-mcp-docker, [handle_get_trips].  For
    [execute("get_trips", {"device_id": "b1", "days": 2})] against a data
    source whose [get_trips] returns three records, at a clock reading at
    least two days after the first representable instant, the reply is an
    execute reply; the mapping under its [result] field has [count] 3 and
    the three trips, and its [from_date] and [to_date] are ISO strings that
    read back as two instants exactly two days apart, [to_date] being the
    clock reading. *)
Theorem get_trips_two_days
    {W : Type} (rt : runtime) (now : W → datetime * W)
    (client : McpDocker.GeotabClient.t W)
    (version : string) (trips : list pyval)
    (to_date timestamp : datetime) (w w1 w2 w3 : W) :
  length trips = 3%nat →
  now w = (to_date, w1) →
  datetime_valid to_date →
  2 * us_per_day <= to_date →
  McpDocker.GeotabClient.get_trips client (VStr "b1") (to_date - 2 * us_per_day) to_date
    (VBool false) w1 = (inr trips, w2) →
  now w2 = (timestamp, w3) →
  ∃ reply result from_date,
    McpDocker.handle_execute rt now client
      (execute_body version "get_trips" [("device_id", VStr "b1"); ("days", VInt 2)]) w
    = (inr reply, w3) ∧
    is_execute_reply reply ∧
    reply_field reply "result" = Some (VDict result) ∧
    dict_lookup result "count" = Some (VInt 3) ∧
    dict_lookup result "trips" = Some (VList trips) ∧
    dict_lookup result "from_date" = Some (VStr (isoformat from_date)) ∧
    dict_lookup result "to_date" = Some (VStr (isoformat to_date)) ∧
    parse_isoformat (isoformat from_date) = Some from_date ∧
    parse_isoformat (isoformat to_date) = Some to_date ∧
    to_date - from_date = 2 * us_per_day.
Proof.
  intros Hlen Hnow [Hlo Hhi] Hfar Htrips Hstamp.
  rewrite docker_handle_execute_body.
  rewrite (docker_execute_operation_registered rt now client "get_trips"
             (McpDocker.handle_get_trips rt now client)) by reflexivity.
  unfold McpDocker.handle_get_trips.
  change (dict_get [("device_id", VStr "b1"); ("days", VInt 2)] "device_id")
    with (VStr "b1").
  change (truthy (VStr "b1")) with true. cbn [negb].
  change (dict_get_default [("device_id", VStr "b1"); ("days", VInt 2)] "days" (VInt 1))
    with (VInt 2).
  change (dict_get_default [("device_id", VStr "b1"); ("days", VInt 2)]
            "include_stops" (VBool false)) with (VBool false).
  assert (py_float rt (VInt 2) = inr (float_of_Z 2)) as Hfloat by reflexivity.
  assert (timedelta_of rt us_per_day "days" (VFloat (float_of_Z 2))
          = inr (2 * us_per_day)) as Hdelta by reflexivity.
  assert (datetime_sub to_date (2 * us_per_day) = inr (to_date - 2 * us_per_day))
    as Hsub.
  { unfold datetime_sub. cbv zeta.
    destruct (Z.leb_spec 0 (to_date - 2 * us_per_day)); [|lia].
    destruct (Z.ltb_spec (to_date - 2 * us_per_day) (max_ordinal * us_per_day));
      [reflexivity|].
    unfold us_per_day, max_ordinal in *. lia. }
  unfold bind, lift, McpDocker.datetime_now.
  rewrite Hfloat, Hnow, Hdelta, Hsub, Htrips, Hstamp.
  unfold McpDocker.MCPExecuteResponse_init, Pydantic.dict_validator.
  eexists.
  exists [("device_id", VStr "b1");
          ("from_date", VStr (isoformat (to_date - 2 * us_per_day)));
          ("to_date", VStr (isoformat to_date));
          ("trips", VList trips);
          ("count", VInt (Z.of_nat (length trips)));
          ("timestamp", VStr (isoformat timestamp))],
         (to_date - 2 * us_per_day).
  split; [reflexivity|]. split; [reflexivity|]. split; [reflexivity|].
  split; [rewrite Hlen; reflexivity|].
  split; [reflexivity|]. split; [reflexivity|]. split; [reflexivity|].
  split; [|split; [|lia]].
  - apply parse_isoformat_isoformat.
    unfold datetime_valid, us_per_day, max_ordinal in *. lia.
  - apply parse_isoformat_isoformat.
    unfold datetime_valid, us_per_day, max_ordinal in *. lia.
Qed.

(** The stub data source returns three trips; the clock reads
    2024-03-01T12:00:00, so the window starts on 2024-02-28 (2024 is a leap
    year only after that day). *)
Lemma get_trips_two_days_witness :
  ∃ reply result from_date,
    McpDocker.handle_execute Stub.rt Stub.now Stub.docker_client
      (execute_body "0.1.0" "get_trips" [("device_id", VStr "b1"); ("days", VInt 2)])
      0%nat
    = (inr reply, 2%nat) ∧
    is_execute_reply reply ∧
    reply_field reply "result" = Some (VDict result) ∧
    dict_lookup result "count" = Some (VInt 3) ∧
    dict_lookup result "trips" = Some (VList Stub.three_trips) ∧
    dict_lookup result "from_date" = Some (VStr (isoformat from_date)) ∧
    dict_lookup result "to_date" = Some (VStr (isoformat Stub.clock_start)) ∧
    parse_isoformat (isoformat from_date) = Some from_date ∧
    parse_isoformat (isoformat Stub.clock_start) = Some Stub.clock_start ∧
    Stub.clock_start - from_date = 2 * us_per_day.
Proof.
  apply (get_trips_two_days Stub.rt Stub.now Stub.docker_client "0.1.0"
           Stub.three_trips Stub.clock_start (Stub.clock_start + 1000000)
           0%nat 1%nat 1%nat 2%nat).
  - reflexivity.
  - reflexivity.
  - unfold datetime_valid, Stub.clock_start, max_ordinal, us_per_day. lia.
  - unfold Stub.clock_start, us_per_day. lia.
  - reflexivity.
  - reflexivity.
Defined.

(* ===================================================================== *)
(** ** Further facts about geotab-mcp-docker, and concrete runs            *)
(* ===================================================================== *)

(** geotab-mcp-docker names no "Invalid parameters" error: a call without
    [device_id] to any handler that needs one is answered with the
    "Operation error" reply, the handler's [ValueError]. *)
Lemma docker_missing_device_id
    {W : Type} (rt : runtime) (now : W → datetime * W)
    (client : McpDocker.GeotabClient.t W)
    (version operation : string) (parameters : dict) (w : W) :
  operation ∈ ["get_device_location"; "get_trips"; "get_fault_data"; "get_status_data"] →
  dict_lookup parameters "device_id" = None →
  McpDocker.handle_execute rt now client
    (execute_body version operation parameters) w
  = (inr (McpDocker.MCPErrorResponse_dict "0.1.0" "Operation error"
            [("message", VStr "device_id is required")]), w).
Proof.
  intros Hop Hmiss. rewrite docker_handle_execute_body.
  assert (dict_get parameters "device_id" = VNone) as Hid.
  { unfold dict_get. by apply dict_get_default_None. }
  repeat (apply elem_of_cons in Hop as [->|Hop]);
    [| | | | by apply elem_of_nil in Hop].
  - rewrite (docker_execute_operation_registered rt now client "get_device_location"
               (McpDocker.handle_get_device_location now client)) by reflexivity.
    unfold McpDocker.handle_get_device_location. rewrite Hid. reflexivity.
  - rewrite (docker_execute_operation_registered rt now client "get_trips"
               (McpDocker.handle_get_trips rt now client)) by reflexivity.
    unfold McpDocker.handle_get_trips. rewrite Hid. reflexivity.
  - rewrite (docker_execute_operation_registered rt now client "get_fault_data"
               (McpDocker.handle_get_fault_data rt now client)) by reflexivity.
    unfold McpDocker.handle_get_fault_data. rewrite Hid. reflexivity.
  - rewrite (docker_execute_operation_registered rt now client "get_status_data"
               (McpDocker.handle_get_status_data rt now client)) by reflexivity.
    unfold McpDocker.handle_get_status_data. rewrite Hid. reflexivity.
Qed.

(** The docker endpoint returns a reply on every body as well. *)
Lemma docker_mcp_endpoint_never_raises
    {W : Type} (rt : runtime) (now : W → datetime * W)
    (client : McpDocker.GeotabClient.t W) (request_json : M W pyval) (w : W) :
  ∃ reply w', McpDocker.mcp_endpoint rt now client request_json w = (inr reply, w').
Proof.
  unfold McpDocker.mcp_endpoint, try_except.
  match goal with
  | |- context [match ?c w with _ => _ end] => destruct (c w) as [[e|reply] w']
  end.
  - cbn [select_clause]. destruct (isinstance e "JSONDecodeError"); cbn; eauto.
  - eauto.
Qed.

(** The docker discover reply, for any version string; a field named like
    the first parameter of the model's [__init__] is the one that is not
    ignored. *)
Lemma docker_handle_discover
    {W : Type} (rt : runtime) (now : W → datetime * W)
    (client : McpDocker.GeotabClient.t W) (version : string) (extra : dict) (w : W) :
  McpDocker.mcp_endpoint rt now client (ret (discover_body version extra)) w
  = match dict_lookup extra "__pydantic_self__" with
    | None =>
        (inr (McpDocker.MCPDiscoverResponse_dict "0.1.0" McpDocker.OPERATIONS), w)
    | Some _ =>
        (inr (McpDocker.MCPErrorResponse_dict "0.1.0" "Invalid discover request"
                [("message", VStr (init_collision rt))]), w)
    end.
Proof.
  unfold McpDocker.mcp_endpoint, McpDocker.handle_discover, try_except, bind, ret, lift,
    discover_body.
  cbn [method_get dict_get_default dict_lookup String.eqb Ascii.eqb Bool.eqb default id].
  change (eq_str (VStr "discover") "discover") with true. cbv iota.
  unfold McpDocker.MCPDiscoverRequest_init, Pydantic.init, Pydantic.self_parameter.
  cbn [dict_lookup String.eqb Ascii.eqb Bool.eqb].
  destruct (dict_lookup extra "__pydantic_self__"); reflexivity.
Qed.

(** geotab-mcp-server reads the clock once for [from_date] and again for
    [to_date]: with a clock that moves one second per reading, the window
    of [get_trip_data] for two days is two days and one second long. *)
Example server_get_trip_data_run :
  McpServer.handle_execute Stub.rt Stub.now Stub.server_client
    (McpServer.mkExecuteRequest "execute" "0.1.0" "get_trip_data"
       [("device_id", VStr "b1"); ("days", VInt 2)]) 0%nat
  = (inr (McpServer.MCPExecuteResponse_dict "0.1.0" "get_trip_data"
            [("device_id", VStr "b1");
             ("from_date", VStr "2024-02-28T12:00:00");
             ("to_date", VStr "2024-03-01T12:00:01");
             ("trips", VList Stub.three_trips);
             ("count", VInt 3);
             ("timestamp", VStr "2024-03-01T12:00:02")]), 3%nat).
Proof. vm_compute. reflexivity. Qed.

(** The same call against geotab-mcp-docker: one reading for both ends. *)
Example docker_get_trips_run :
  McpDocker.mcp_endpoint Stub.rt Stub.now Stub.docker_client
    (ret (VDict (execute_body "0.1.0" "get_trips"
                   [("device_id", VStr "b1"); ("days", VInt 2)]))) 0%nat
  = (inr (McpDocker.MCPExecuteResponse_dict "0.1.0" "get_trips"
            [("device_id", VStr "b1");
             ("from_date", VStr "2024-02-28T12:00:00");
             ("to_date", VStr "2024-03-01T12:00:00");
             ("trips", VList Stub.three_trips);
             ("count", VInt 3);
             ("timestamp", VStr "2024-03-01T12:00:01")]), 2%nat).
Proof. vm_compute. reflexivity. Qed.

(** Keyword binding, on the three ways it fails. *)
Example bind_kwargs_runs :
  bind_kwargs "f" [("device_id", None); ("days", Some (VInt 1))] [("days", VInt 3)]
  = inl (TypeError "f() missing 1 required positional argument: 'device_id'")
  ∧ bind_kwargs "f" [("device_id", None)] [("device_id", VStr "b1"); ("x", VNone)]
    = inl (TypeError "f() got an unexpected keyword argument 'x'")
  ∧ bind_kwargs "f" [("device_id", None)] [("self", VNone)]
    = inl (TypeError "f() got multiple values for argument 'self'")
  ∧ bind_kwargs "f" [("device_id", None); ("days", Some (VInt 1))]
      [("device_id", VStr "b1")]
    = inr [("device_id", VStr "b1"); ("days", VInt 1)].
Proof. repeat split. Qed.

(** A body that is not an object, and a body without type. *)
Example server_endpoint_runs :
  McpServer.mcp_endpoint Stub.rt Stub.now Stub.server_client (ret (VList [])) 0%nat
  = (inr (McpServer.MCPErrorResponse_dict "0.1.0" "Server error"
            [("message", VStr "'list' object has no attribute 'get'")]), 0%nat)
  ∧ McpServer.mcp_endpoint Stub.rt Stub.now Stub.server_client
      (ret (VDict [("version", VStr "0.1.0")])) 0%nat
    = (inr (McpServer.MCPErrorResponse_dict "0.1.0" "Invalid request type"
              [("supported_types", VList [VStr "discover"; VStr "execute"])]), 0%nat).
Proof. split; reflexivity. Qed.

(** [isoformat], [float] and [timedelta] on values CPython was run on. *)
Example isoformat_runs :
  isoformat 0 = "0001-01-01T00:00:00"
  ∧ isoformat 1 = "0001-01-01T00:00:00.000001"
  ∧ isoformat 62135596800000000 = "1970-01-01T00:00:00"
  ∧ isoformat 63082281599000000 = "1999-12-31T23:59:59"
  ∧ isoformat 59958230400123456 = "1901-01-02T00:00:00.123456"
  ∧ isoformat 63844718400000000 = "2024-02-28T12:00:00"
  ∧ isoformat 315537897599999999 = "9999-12-31T23:59:59.999999".
Proof. vm_compute. repeat split. Qed.

Example timedelta_runs :
  timedelta_of Stub.rt us_per_day "days" (VFloat (float_of_Z 2)) = inr (2 * us_per_day)
  ∧ timedelta_of Stub.rt us_per_day "days" (VInt 10000000000)
    = inl (OverflowError "Python int too large to convert to C int")
  ∧ timedelta_of Stub.rt us_per_day "days" (VStr "2")
    = inl (TypeError "unsupported type for timedelta days component: str")
  ∧ timedelta_of Stub.rt us_per_day "days" (VFloat S754_nan)
    = inl (ValueError "cannot convert float NaN to integer")
  ∧ datetime_sub us_per_day (2 * us_per_day)
    = inl (OverflowError "date value out of range")
  ∧ py_float Stub.rt VNone
    = inl (TypeError "float() argument must be a string or a real number, not 'NoneType'").
Proof. vm_compute. repeat split. Qed.

(* ===================================================================== *)
(** * Beyond the protocol contract: the endpoints, the handlers' windows *)
(* ===================================================================== *)

Section EndpointFacts.
Context {W : Type}.
Variables (rt : runtime) (now : W → datetime * W).

Lemma error_reply_protocol error details :
  protocol_reply (McpServer.MCPErrorResponse_dict "0.1.0" error details).
Proof. split; [reflexivity | right; right; reflexivity]. Qed.

Lemma docker_error_reply_protocol error details :
  protocol_reply (McpDocker.MCPErrorResponse_dict "0.1.0" error details).
Proof. split; [reflexivity | right; right; reflexivity]. Qed.

(** [handle_execute] of geotab-mcp-server returns a reply whatever the
    request and whatever the method does. *)
Lemma server_handle_execute_replies (client : McpServer.GeotabClient.t W) request w :
  ∃ reply w',
    McpServer.handle_execute rt now client request w = (inr reply, w') ∧
    protocol_reply reply.
Proof.
  unfold McpServer.handle_execute. cbv zeta.
  destruct (dict_contains _ _).
  - cbn [negb]. unfold try_except.
    match goal with
    | |- context [match ?c w with _ => _ end] => destruct (c w) as [[e|reply] w'] eqn:Hbody
    end.
    + cbn [select_clause].
      destruct (isinstance e "TypeError"); cbn;
        do 2 eexists; (split; [reflexivity | apply error_reply_protocol]).
    + do 2 eexists. split; [reflexivity|].
      unfold bind, lift in Hbody.
      repeat match type of Hbody with
             | context [match ?x with _ => _ end] => destruct x; try discriminate Hbody
             end.
      unfold McpServer.MCPExecuteResponse_init in *.
      repeat match type of Hbody with
             | context [match ?x with _ => _ end] => destruct x; try discriminate Hbody
             end.
      injection Hbody as <- _. split; [reflexivity | right; left; reflexivity].
  - cbn. do 2 eexists. split; [reflexivity | apply error_reply_protocol].
Qed.

(** X1: geotab-mcp-server: whatever the request body is (JSON or not, any
    shape) and whatever the Geotab client does, mcp_endpoint returns and
    never raises, and what it returns is a reply carrying version 0.1.0
    whose type is discover, execute or error. *)
Theorem server_endpoint_always_replies
    (client : McpServer.GeotabClient.t W) (request_json : M W pyval) (w : W) :
  ∃ reply w',
    McpServer.mcp_endpoint rt now client request_json w = (inr reply, w') ∧
    protocol_reply reply.
Proof.
  unfold McpServer.mcp_endpoint, try_except, bind.
  destruct (request_json w) as [[e|data] w1].
  { cbn [select_clause]. destruct (isinstance e "ValidationError"); cbn;
      do 2 eexists; (split; [reflexivity | apply error_reply_protocol]). }
  unfold lift. destruct (method_get data "type" VNone) as [e|request_type].
  { cbn [select_clause]. destruct (isinstance e "ValidationError"); cbn;
      do 2 eexists; (split; [reflexivity | apply error_reply_protocol]). }
  destruct (eq_str request_type "discover").
  { destruct (McpServer.MCPDiscoverRequest_init rt _) as [e|request].
    - cbn [select_clause]. destruct (isinstance e "ValidationError"); cbn;
        do 2 eexists; (split; [reflexivity | apply error_reply_protocol]).
    - cbn. do 2 eexists. split; [reflexivity|].
      split; [reflexivity | left; reflexivity]. }
  destruct (eq_str request_type "execute").
  { destruct (McpServer.MCPExecuteRequest_init rt _) as [e|request].
    - cbn [select_clause]. destruct (isinstance e "ValidationError"); cbn;
        do 2 eexists; (split; [reflexivity | apply error_reply_protocol]).
    - destruct (server_handle_execute_replies client request w1)
        as (reply & w' & -> & Hreply). eauto. }
  cbn. do 2 eexists. split; [reflexivity | apply error_reply_protocol].
Qed.

(** geotab-mcp-docker *)
Lemma docker_inner_try_replies (client : McpDocker.GeotabClient.t W)
    operation parameters w :
  ∃ reply w',
    try_except
      (result <- McpDocker.execute_operation rt now client operation parameters ;;
       lift (McpDocker.MCPExecuteResponse_init rt McpDocker.MCP_VERSION operation result))
      [("ValueError", λ e,
          ret (McpDocker.MCPErrorResponse_dict McpDocker.MCP_VERSION "Operation error"
                 [("message", VStr (exn_str e))]));
       ("Exception", λ e,
          ret (McpDocker.MCPErrorResponse_dict McpDocker.MCP_VERSION
                 "Operation execution failed" [("message", VStr (exn_str e))]))] w
    = (inr reply, w') ∧ protocol_reply reply.
Proof.
  unfold try_except, bind, lift.
  destruct (McpDocker.execute_operation rt now client operation parameters w)
    as [[e|result] w'].
  - cbn [select_clause]. destruct (isinstance e "ValueError"); cbn;
      do 2 eexists; (split; [reflexivity | apply docker_error_reply_protocol]).
  - unfold McpDocker.MCPExecuteResponse_init.
    destruct (Pydantic.dict_validator rt "result" result) as [fe|d].
    + cbn [select_clause].
      destruct (isinstance _ "ValueError"); cbn;
        do 2 eexists; (split; [reflexivity | apply docker_error_reply_protocol]).
    + do 2 eexists. split; [reflexivity|].
      split; [reflexivity | right; left; reflexivity].
Qed.

Lemma docker_handle_execute_replies (client : McpDocker.GeotabClient.t W) body w :
  ∃ reply w',
    McpDocker.handle_execute rt now client body w = (inr reply, w') ∧
    protocol_reply reply.
Proof.
  unfold McpDocker.handle_execute.
  unfold try_except at 1. unfold bind at 1. unfold lift at 1.
  destruct (McpDocker.MCPExecuteRequest_init rt body) as [e|request].
  { cbn. do 2 eexists. split; [reflexivity | apply docker_error_reply_protocol]. }
  unfold bind at 1. unfold lift at 1.
  destruct (McpDocker.execute_validate_type request) as [e|[]].
  { cbn. do 2 eexists. split; [reflexivity | apply docker_error_reply_protocol]. }
  cbv zeta.
  destruct (docker_inner_try_replies client (McpDocker.ereq_operation request)
              (McpDocker.ereq_parameters request) w) as (reply & w' & -> & Hreply).
  eauto.
Qed.

Lemma docker_handle_discover_replies (body : dict) (w : W) :
  ∃ reply w',
    McpDocker.handle_discover rt body w = (inr reply, w') ∧ protocol_reply reply.
Proof.
  unfold McpDocker.handle_discover, try_except, bind, lift.
  destruct (McpDocker.MCPDiscoverRequest_init rt body) as [e|request].
  { cbn. do 2 eexists. split; [reflexivity | apply docker_error_reply_protocol]. }
  destruct (McpDocker.discover_validate_type request) as [e|[]].
  { cbn. do 2 eexists. split; [reflexivity | apply docker_error_reply_protocol]. }
  cbn. do 2 eexists. split; [reflexivity|].
  split; [reflexivity | left; reflexivity].
Qed.

(** X2: geotab-mcp-docker: whatever the request body is and whatever the
    Geotab client does, mcp_endpoint returns and never raises, and what it
    returns is a reply carrying version 0.1.0 whose type is discover,
    execute or error. *)
Theorem docker_endpoint_always_replies
    (client : McpDocker.GeotabClient.t W) (request_json : M W pyval) (w : W) :
  ∃ reply w',
    McpDocker.mcp_endpoint rt now client request_json w = (inr reply, w') ∧
    protocol_reply reply.
Proof.
  unfold McpDocker.mcp_endpoint, try_except, bind.
  destruct (request_json w) as [[e|data] w1].
  { cbn [select_clause]. destruct (isinstance e "JSONDecodeError"); cbn;
      do 2 eexists; (split; [reflexivity | apply docker_error_reply_protocol]). }
  unfold lift. destruct (method_get data "type" VNone) as [e|request_type].
  { cbn [select_clause]. destruct (isinstance e "JSONDecodeError"); cbn;
      do 2 eexists; (split; [reflexivity | apply docker_error_reply_protocol]). }
  destruct (eq_str request_type "discover").
  { destruct (docker_handle_discover_replies
                (match data with VDict d => d | _ => [] end) w1)
      as (reply & w' & -> & Hreply). eauto. }
  destruct (eq_str request_type "execute").
  { destruct (docker_handle_execute_replies client
                (match data with VDict d => d | _ => [] end) w1)
      as (reply & w' & -> & Hreply). eauto. }
  cbn. do 2 eexists. split; [reflexivity | apply docker_error_reply_protocol].
Qed.
End EndpointFacts.

Section ServerHandlerFacts.
Import McpServer.
Context {W : Type}.
Variables (rt : runtime) (now : W → datetime * W) (client : GeotabClient.t W).

Lemma filter_by_flag_records k dflt xs :
  Forall is_record xs →
  filter_by_flag k dflt xs = inr (List.filter (has_flag k dflt) xs).
Proof.
  induction 1 as [|x xs [d ->] _ IH]; [reflexivity|].
  cbn [filter_by_flag method_get List.filter has_flag]. rewrite IH.
  destruct (truthy _); reflexivity.
Qed.

(** The first object that is not a record stops the filter. *)
Lemma filter_by_flag_not_record k dflt xs :
  ¬ Forall is_record xs →
  ∃ msg, filter_by_flag k dflt xs = inl (AttributeError msg).
Proof.
  induction xs as [|x xs IH]; intros Hbad.
  - destruct Hbad. constructor.
  - destruct x as [| | | | | |d];
      try (cbn [filter_by_flag method_get]; eauto; fail).
    cbn [filter_by_flag method_get].
    destruct IH as [msg ->]; [|eauto].
    intros Hall. apply Hbad. constructor; [by eexists | done].
Qed.

Lemma get_device_info_run include_inactive devices timestamp w w1 w2 :
  GeotabClient.get_devices client w = (inr devices, w1) →
  Forall is_record devices →
  now w1 = (timestamp, w2) →
  let kept := if truthy include_inactive then devices
              else List.filter (has_flag "active" (VBool true)) devices in
  GeotabOperations.get_device_info now client include_inactive w
  = (inr (VDict [("operation", VStr "get_device_info");
                 ("result", VDict [("devices", VList kept);
                                   ("count", VInt (Z.of_nat (length kept)));
                                   ("timestamp", VStr (isoformat timestamp))])]),
     w2).
Proof.
  intros Hdev Hrec Hnow. unfold GeotabOperations.get_device_info, bind.
  rewrite Hdev. destruct (truthy include_inactive); cbn [negb].
  - cbn [ret]. unfold GeotabOperations.datetime_now. rewrite Hnow. reflexivity.
  - unfold lift. rewrite filter_by_flag_records by done.
    unfold GeotabOperations.datetime_now. rewrite Hnow. reflexivity.
Qed.

(** X3: GeotabOperations.get_device_info: when the client returns device
    records, the result lists all of them if include_inactive is truthy
    and otherwise exactly those whose active field is truthy (a record
    without the field counts as active), in order; count is the length of
    the list that is returned, and the timestamp is a clock reading taken
    after the client call. *)
Theorem get_device_info_result include_inactive devices timestamp w w1 w2 :
  GeotabClient.get_devices client w = (inr devices, w1) →
  Forall is_record devices →
  now w1 = (timestamp, w2) →
  let kept := if truthy include_inactive then devices
              else List.filter (has_flag "active" (VBool true)) devices in
  GeotabOperations.get_device_info now client include_inactive w
  = (inr (VDict [("operation", VStr "get_device_info");
                 ("result", VDict [("devices", VList kept);
                                   ("count", VInt (Z.of_nat (length kept)));
                                   ("timestamp", VStr (isoformat timestamp))])]),
     w2).
Proof.
  intros Hdev Hrec Hnow. unfold GeotabOperations.get_device_info, bind.
  rewrite Hdev. destruct (truthy include_inactive); cbn [negb].
  - cbn [ret]. unfold GeotabOperations.datetime_now. rewrite Hnow. reflexivity.
  - unfold lift. rewrite filter_by_flag_records by done.
    unfold GeotabOperations.datetime_now. rewrite Hnow. reflexivity.
Qed.
End ServerHandlerFacts.

Section ServerWindowFacts.
Import McpServer.
Context {W : Type}.
Variables (rt : runtime) (now : W → datetime * W) (client : GeotabClient.t W).

Lemma timedelta_of_int unit_us what d :
  0 < unit_us →
  - max_delta_days <= d * unit_us / us_per_day <= max_delta_days →
  timedelta_of rt unit_us what (VInt d) = inr (d * unit_us).
Proof.
  intros Hu Hd. cbn [timedelta_of]. unfold timedelta_check. cbv zeta.
  destruct (Z.leb_spec (- max_delta_days) (d * unit_us / us_per_day)); [|lia].
  destruct (Z.leb_spec (d * unit_us / us_per_day) max_delta_days); [|lia].
  reflexivity.
Qed.

Lemma timedelta_of_days what d :
  - max_delta_days <= d <= max_delta_days →
  timedelta_of rt us_per_day what (VInt d) = inr (d * us_per_day).
Proof.
  intros Hd. apply timedelta_of_int; [reflexivity|].
  rewrite Z.div_mul by discriminate. done.
Qed.

Lemma timedelta_of_not_number unit_us what v :
  is_number v = false →
  timedelta_of rt unit_us what v
  = inl (TypeError ("unsupported type for timedelta " ++ what ++ " component: "
                      ++ type_name v)).
Proof. destruct v; try discriminate; reflexivity. Qed.

Lemma datetime_sub_valid t delta :
  datetime_valid (t - delta) → datetime_sub t delta = inr (t - delta).
Proof.
  unfold datetime_valid, datetime_sub. intros [Hlo Hhi]. cbv zeta.
  destruct (Z.leb_spec 0 (t - delta)); [|lia].
  destruct (Z.ltb_spec (t - delta) (max_ordinal * us_per_day)); [reflexivity | lia].
Qed.

Lemma get_trip_data_run device_id d trips t0 t1 timestamp w w1 w2 w3 w4 :
  - max_delta_days <= d <= max_delta_days →
  now w = (t0, w1) →
  datetime_valid (t0 - d * us_per_day) →
  now w1 = (t1, w2) →
  GeotabClient.get_trip_data client device_id (t0 - d * us_per_day) t1 w2
    = (inr trips, w3) →
  now w3 = (timestamp, w4) →
  GeotabOperations.get_trip_data rt now client device_id (VInt d) w
  = (inr (VDict [("operation", VStr "get_trip_data");
                 ("result",
                  VDict [("device_id", device_id);
                         ("from_date", VStr (isoformat (t0 - d * us_per_day)));
                         ("to_date", VStr (isoformat t1));
                         ("trips", VList trips);
                         ("count", VInt (Z.of_nat (length trips)));
                         ("timestamp", VStr (isoformat timestamp))])]),
     w4).
Proof.
  intros Hd Hnow0 Hvalid Hnow1 Htrips Hnow2.
  unfold GeotabOperations.get_trip_data, bind, lift, GeotabOperations.datetime_now.
  rewrite Hnow0, (timedelta_of_days _ _ Hd), (datetime_sub_valid _ _ Hvalid).
  rewrite Hnow1, Htrips, Hnow2. reflexivity.
Qed.

(** X4: GeotabOperations.get_trip_data with an integer days d in range: the
    client is asked for the window from (first clock reading minus exactly
    d days) to a second clock reading, the reply names that same window in
    ISO format, trips are the client's trips unchanged and count is their
    number. *)
Theorem get_trip_data_window device_id d trips t0 t1 timestamp w w1 w2 w3 w4 :
  - max_delta_days <= d <= max_delta_days →
  now w = (t0, w1) →
  datetime_valid (t0 - d * us_per_day) →
  now w1 = (t1, w2) →
  GeotabClient.get_trip_data client device_id (t0 - d * us_per_day) t1 w2
    = (inr trips, w3) →
  now w3 = (timestamp, w4) →
  GeotabOperations.get_trip_data rt now client device_id (VInt d) w
  = (inr (VDict [("operation", VStr "get_trip_data");
                 ("result",
                  VDict [("device_id", device_id);
                         ("from_date", VStr (isoformat (t0 - d * us_per_day)));
                         ("to_date", VStr (isoformat t1));
                         ("trips", VList trips);
                         ("count", VInt (Z.of_nat (length trips)));
                         ("timestamp", VStr (isoformat timestamp))])]),
     w4).
Proof.
  intros Hd Hnow0 Hvalid Hnow1 Htrips Hnow2.
  unfold GeotabOperations.get_trip_data, bind, lift, GeotabOperations.datetime_now.
  rewrite Hnow0, (timedelta_of_days _ _ Hd), (datetime_sub_valid _ _ Hvalid).
  rewrite Hnow1, Htrips, Hnow2. reflexivity.
Qed.

(** X5: GeotabOperations.get_fault_data with an integer days d in range: the
    window is (first clock reading minus d days, second clock reading);
    with active_only truthy only the fault records whose active field is
    truthy are returned (a record without the field is dropped), otherwise
    all; count is the length of the returned list and active_only is
    echoed. *)
Theorem get_fault_data_result device_id d active_only faults t0 t1 timestamp
    w w1 w2 w3 w4 :
  - max_delta_days <= d <= max_delta_days →
  now w = (t0, w1) →
  datetime_valid (t0 - d * us_per_day) →
  now w1 = (t1, w2) →
  GeotabClient.get_fault_data client device_id (t0 - d * us_per_day) t1 w2
    = (inr faults, w3) →
  Forall is_record faults →
  now w3 = (timestamp, w4) →
  let kept := if truthy active_only
              then List.filter (has_flag "active" (VBool false)) faults
              else faults in
  GeotabOperations.get_fault_data rt now client device_id (VInt d) active_only w
  = (inr (VDict [("operation", VStr "get_fault_data");
                 ("result",
                  VDict [("device_id", device_id);
                         ("from_date", VStr (isoformat (t0 - d * us_per_day)));
                         ("to_date", VStr (isoformat t1));
                         ("faults", VList kept);
                         ("count", VInt (Z.of_nat (length kept)));
                         ("active_only", active_only);
                         ("timestamp", VStr (isoformat timestamp))])]),
     w4).
Proof.
  intros Hd Hnow0 Hvalid Hnow1 Hfaults Hrec Hnow2.
  unfold GeotabOperations.get_fault_data, bind, lift, GeotabOperations.datetime_now.
  rewrite Hnow0, (timedelta_of_days _ _ Hd), (datetime_sub_valid _ _ Hvalid).
  rewrite Hnow1, Hfaults.
  destruct (truthy active_only).
  - rewrite (filter_by_flag_records _ _ _ Hrec), Hnow2. reflexivity.
  - cbn [ret]. rewrite Hnow2. reflexivity.
Qed.

(** X6: geotab-mcp-server: an execute of get_trip_data or get_fault_data whose
    days is not a number (a string, null, a list, an object) is answered
    with the error reply Invalid parameters carrying timedelta's TypeError
    message; the clock has been read once and the Geotab client has not
    been called. *)
Theorem handle_execute_days_not_a_number version operation device_id days t0 w w1 :
  operation ∈ ["get_trip_data"; "get_fault_data"] →
  is_number days = false →
  now w = (t0, w1) →
  handle_execute rt now client
    (mkExecuteRequest "execute" version operation
       [("device_id", device_id); ("days", days)]) w
  = (inr (MCPErrorResponse_dict "0.1.0" "Invalid parameters"
            [("message",
              VStr ("unsupported type for timedelta days component: "
                      ++ type_name days))]), w1).
Proof.
  intros Hop Hnum Hnow.
  repeat (apply elem_of_cons in Hop as [->|Hop]); [| |by apply elem_of_nil in Hop].
  - rewrite (handle_execute_raises rt now client _
               (GeotabOperations.method "GeotabOperations.get_trip_data"
                  GeotabOperations.sig_get_trip_data
                  (λ a, GeotabOperations.get_trip_data rt now client
                          (dict_get a "device_id") (dict_get a "days")))
               (TypeError ("unsupported type for timedelta days component: "
                             ++ type_name days)) w w1);
      [reflexivity | reflexivity |].
    cbn [ereq_parameters]. unfold GeotabOperations.method, bind, lift.
    change (bind_kwargs "GeotabOperations.get_trip_data"
              GeotabOperations.sig_get_trip_data [("device_id", device_id); ("days", days)])
      with (@inr exn dict [("device_id", device_id); ("days", days)]).
    cbv beta iota.
    change (dict_get [("device_id", device_id); ("days", days)] "days") with days.
    unfold GeotabOperations.get_trip_data, bind, lift, GeotabOperations.datetime_now.
    rewrite Hnow, (timedelta_of_not_number _ _ _ Hnum). reflexivity.
  - rewrite (handle_execute_raises rt now client _
               (GeotabOperations.method "GeotabOperations.get_fault_data"
                  GeotabOperations.sig_get_fault_data
                  (λ a, GeotabOperations.get_fault_data rt now client
                          (dict_get a "device_id") (dict_get a "days")
                          (dict_get a "active_only")))
               (TypeError ("unsupported type for timedelta days component: "
                             ++ type_name days)) w w1);
      [reflexivity | reflexivity |].
    cbn [ereq_parameters]. unfold GeotabOperations.method, bind, lift.
    change (bind_kwargs "GeotabOperations.get_fault_data"
              GeotabOperations.sig_get_fault_data [("device_id", device_id); ("days", days)])
      with (@inr exn dict [("device_id", device_id); ("days", days);
                           ("active_only", VBool false)]).
    cbv beta iota.
    change (dict_get [("device_id", device_id); ("days", days);
                      ("active_only", VBool false)] "days") with days.
    unfold GeotabOperations.get_fault_data, bind, lift, GeotabOperations.datetime_now.
    rewrite Hnow, (timedelta_of_not_number _ _ _ Hnum). reflexivity.
Qed.
End ServerWindowFacts.

Section FloatFacts.

Lemma digits2_pos_iter_xO m d :
  digits2_pos (Pos.iter xO m d) = (digits2_pos m + d)%positive.
Proof.
  induction d as [|d IH] using Pos.peano_ind.
  - cbn. lia.
  - rewrite Pos.iter_succ. cbn [digits2_pos]. rewrite IH. lia.
Qed.

Lemma Zpos_iter_xO m d : Z.pos (Pos.iter xO m d) = Z.pos m * 2 ^ Z.pos d.
Proof.
  induction d as [|d IH] using Pos.peano_ind.
  - cbn. lia.
  - rewrite Pos.iter_succ, Pos2Z.inj_xO, IH, Pos2Z.inj_succ, Z.pow_succ_r by lia. lia.
Qed.

Lemma digits2_pos_lower m : 2 ^ (Z.pos (digits2_pos m) - 1) <= Z.pos m.
Proof.
  induction m as [m IH|m IH|]; cbn [digits2_pos].
  - rewrite Pos2Z.inj_succ.
    replace (Z.succ (Z.pos (digits2_pos m)) - 1) with (Z.succ (Z.pos (digits2_pos m) - 1)) by lia.
    rewrite Z.pow_succ_r by lia. lia.
  - rewrite Pos2Z.inj_succ.
    replace (Z.succ (Z.pos (digits2_pos m)) - 1) with (Z.succ (Z.pos (digits2_pos m) - 1)) by lia.
    rewrite Z.pow_succ_r by lia. lia.
  - reflexivity.
Qed.

Lemma digits2_pos_small m :
  Z.pos m < 2 ^ 53 → Z.pos (digits2_pos m) <= 53.
Proof.
  intros Hm. pose proof (digits2_pos_lower m) as Hlo.
  destruct (Z.le_gt_cases (Z.pos (digits2_pos m)) 53) as [|Hbig]; [done|].
  assert (2 ^ 53 <= 2 ^ (Z.pos (digits2_pos m) - 1)); [|lia].
  apply Z.pow_le_mono_r; lia.
Qed.

(** A mantissa of 53 digits is kept as it is. *)
Lemma binary_round_aux_exact sx mz e :
  Z.pos (digits2_pos mz) = 53 → -1074 <= e <= 971 →
  binary_round_aux 53 1024 sx (Z.pos mz) e loc_Exact = S754_finite sx mz e.
Proof.
  intros Hdigits He.
  unfold binary_round_aux, shr_fexp, fexp, emin. cbn [Zdigits2 shr_record_of_loc].
  rewrite Hdigits.
  replace (Z.max (53 + e - 53) (3 - 1024 - 53) - e) with 0 by lia.
  cbn [shr shr_m loc_of_shr_record round_nearest_even Zdigits2 shr_record_of_loc].
  rewrite Hdigits.
  replace (Z.max (53 + e - 53) (3 - 1024 - 53) - e) with 0 by lia.
  cbn [shr shr_m].
  destruct (Z.leb_spec e (1024 - 53)); [reflexivity | lia].
Qed.

(** A binary64 float holds every integer below 2^53 exactly. *)
Lemma binary_round_small sx m :
  Z.pos m < 2 ^ 53 →
  ∃ mz e, binary_round 53 1024 sx m 0 = S754_finite sx mz e
          ∧ e <= 0 ∧ Z.pos mz = Z.pos m * 2 ^ (- e).
Proof.
  intros Hm. pose proof (digits2_pos_small m Hm) as Hk.
  unfold binary_round, shl_align, fexp, emin.
  set (k := digits2_pos m) in *.
  replace (Z.max (Z.pos k + 0 - 53) (3 - 1024 - 53)) with (Z.pos k - 53) by lia.
  destruct (Z.pos k - 53 - 0) as [|q|q] eqn:Hq; [|lia|].
  - exists m, 0. split; [|split; [lia | cbn; lia]].
    apply binary_round_aux_exact; [fold k|]; lia.
  - exists (Pos.iter xO m q), (Z.pos k - 53).
    split; [|split; [lia | rewrite Zpos_iter_xO; f_equal; f_equal; lia]].
    apply binary_round_aux_exact; [|lia].
    rewrite digits2_pos_iter_xO. fold k. lia.
Qed.

Lemma float_of_Z_exact d :
  - 2 ^ 53 < d < 2 ^ 53 →
  float_is_inf (float_of_Z d) = false ∧ float_integral (float_of_Z d) = Some d
  ∧ float_of_Z d ≠ S754_nan.
Proof.
  intros Hd. unfold float_of_Z, binary_normalize.
  destruct d as [|m|m]; [done| |].
  - destruct (binary_round_small false m) as (mz & e & -> & He & Hmz); [lia|].
    split; [reflexivity|]. split; [|done]. cbn [float_integral cond_Zopp].
    destruct (Z.leb_spec 0 e).
    + assert (e = 0) as -> by lia. f_equal. cbn in Hmz. lia.
    + rewrite Hmz, Z_mod_mult, Z.div_mul by (apply Z.pow_nonzero; lia).
      reflexivity.
  - destruct (binary_round_small true m) as (mz & e & -> & He & Hmz); [lia|].
    split; [reflexivity|]. split; [|done]. cbn [float_integral cond_Zopp].
    destruct (Z.leb_spec 0 e).
    + assert (e = 0) as -> by lia. f_equal. cbn in Hmz. lia.
    + rewrite Hmz, Z_mod_mult.
      change (Z.neg m) with (- Z.pos m).
      replace (- (Z.pos m * 2 ^ (- e))) with ((- Z.pos m) * 2 ^ (- e)) by lia.
      rewrite Z.div_mul by (apply Z.pow_nonzero; lia). reflexivity.
Qed.
End FloatFacts.

Section DockerHandlerFacts.
Import McpDocker.
Context {W : Type}.
Variables (rt : runtime) (now : W → datetime * W) (client : GeotabClient.t W).

(** [float(n)] then [timedelta(days=...)] or [timedelta(hours=...)], for an
    integer [n]: no rounding. *)
Lemma timedelta_of_float_of_int unit_us what n :
  - 2 ^ 53 < n < 2 ^ 53 →
  - max_delta_days <= n * unit_us / us_per_day <= max_delta_days →
  py_float rt (VInt n) = inr (float_of_Z n) ∧
  timedelta_of rt unit_us what (VFloat (float_of_Z n)) = inr (n * unit_us).
Proof.
  intros Hn Hrange.
  destruct (float_of_Z_exact n Hn) as (Hinf & Hint & Hnan).
  split.
  - cbn [py_float]. cbv zeta. by rewrite Hinf.
  - cbn [timedelta_of]. rewrite Hint.
    destruct (float_of_Z n); try done.
    all: unfold timedelta_check; cbv zeta.
    all: destruct (Z.leb_spec (- max_delta_days) (n * unit_us / us_per_day)); [|lia].
    all: destruct (Z.leb_spec (n * unit_us / us_per_day) max_delta_days); [|lia].
    all: reflexivity.
Qed.

(** X7: geotab-mcp-docker handle_get_trips: for a truthy device_id and an
    integer days d (default 1), float(days) loses nothing, the client is
    asked for the window from (clock reading minus exactly d days) to that
    same clock reading with include_stops passed on (default false), and
    the result names the window, the trips and their count. *)
Theorem handle_get_trips_window parameters device_id d trips to_date timestamp
    w w1 w2 w3 :
  dict_get parameters "device_id" = device_id →
  truthy device_id = true →
  dict_get_default parameters "days" (VInt 1) = VInt d →
  - max_delta_days <= d <= max_delta_days →
  now w = (to_date, w1) →
  datetime_valid (to_date - d * us_per_day) →
  GeotabClient.get_trips client device_id (to_date - d * us_per_day) to_date
    (dict_get_default parameters "include_stops" (VBool false)) w1
    = (inr trips, w2) →
  now w2 = (timestamp, w3) →
  handle_get_trips rt now client parameters w
  = (inr (VDict [("device_id", device_id);
                 ("from_date", VStr (isoformat (to_date - d * us_per_day)));
                 ("to_date", VStr (isoformat to_date));
                 ("trips", VList trips);
                 ("count", VInt (Z.of_nat (length trips)));
                 ("timestamp", VStr (isoformat timestamp))]), w3).
Proof.
  intros Hid Htrue Hdays Hd Hnow Hvalid Htrips Hstamp.
  destruct (timedelta_of_float_of_int us_per_day "days" d) as [Hfloat Hdelta].
  { unfold max_delta_days in Hd. lia. }
  { rewrite Z.div_mul by discriminate. done. }
  unfold handle_get_trips. rewrite Hid, Htrue, Hdays. cbn [negb].
  unfold bind, lift, datetime_now.
  rewrite Hfloat, Hnow, Hdelta, (datetime_sub_valid _ _ Hvalid), Htrips, Hstamp.
  reflexivity.
Qed.

Lemma handle_get_fault_data_run parameters device_id d faults to_date timestamp
    w w1 w2 w3 :
  dict_get parameters "device_id" = device_id →
  truthy device_id = true →
  dict_get_default parameters "days" (VInt 7) = VInt d →
  - max_delta_days <= d <= max_delta_days →
  now w = (to_date, w1) →
  datetime_valid (to_date - d * us_per_day) →
  GeotabClient.get_fault_data client device_id (to_date - d * us_per_day) to_date
    (VBool (negb (truthy (dict_get_default parameters "active_only" (VBool false)))))
    w1 = (inr faults, w2) →
  now w2 = (timestamp, w3) →
  handle_get_fault_data rt now client parameters w
  = (inr (VDict [("device_id", device_id);
                 ("from_date", VStr (isoformat (to_date - d * us_per_day)));
                 ("to_date", VStr (isoformat to_date));
                 ("faults", VList faults);
                 ("count", VInt (Z.of_nat (length faults)));
                 ("timestamp", VStr (isoformat timestamp))]), w3).
Proof.
  intros Hid Htrue Hdays Hd Hnow Hvalid Hfaults Hstamp.
  destruct (timedelta_of_float_of_int us_per_day "days" d) as [Hfloat Hdelta].
  { unfold max_delta_days in Hd. lia. }
  { rewrite Z.div_mul by discriminate. done. }
  unfold handle_get_fault_data. rewrite Hid, Htrue, Hdays. cbn [negb].
  unfold bind, lift, datetime_now.
  rewrite Hfloat, Hnow, Hdelta, (datetime_sub_valid _ _ Hvalid), Hfaults, Hstamp.
  reflexivity.
Qed.

(** X8: geotab-mcp-docker handle_get_fault_data: for a truthy device_id and an
    integer days d (default 7), the client is asked for the window of
    exactly d days ending at the clock reading, with include_inactive
    equal to the negation of active_only (default false); the result names
    the window, the faults and their count. *)
Theorem handle_get_fault_data_window parameters device_id d faults to_date timestamp
    w w1 w2 w3 :
  dict_get parameters "device_id" = device_id →
  truthy device_id = true →
  dict_get_default parameters "days" (VInt 7) = VInt d →
  - max_delta_days <= d <= max_delta_days →
  now w = (to_date, w1) →
  datetime_valid (to_date - d * us_per_day) →
  GeotabClient.get_fault_data client device_id (to_date - d * us_per_day) to_date
    (VBool (negb (truthy (dict_get_default parameters "active_only" (VBool false)))))
    w1 = (inr faults, w2) →
  now w2 = (timestamp, w3) →
  handle_get_fault_data rt now client parameters w
  = (inr (VDict [("device_id", device_id);
                 ("from_date", VStr (isoformat (to_date - d * us_per_day)));
                 ("to_date", VStr (isoformat to_date));
                 ("faults", VList faults);
                 ("count", VInt (Z.of_nat (length faults)));
                 ("timestamp", VStr (isoformat timestamp))]), w3).
Proof.
  intros Hid Htrue Hdays Hd Hnow Hvalid Hfaults Hstamp.
  destruct (timedelta_of_float_of_int us_per_day "days" d) as [Hfloat Hdelta].
  { unfold max_delta_days in Hd. lia. }
  { rewrite Z.div_mul by discriminate. done. }
  unfold handle_get_fault_data. rewrite Hid, Htrue, Hdays. cbn [negb].
  unfold bind, lift, datetime_now.
  rewrite Hfloat, Hnow, Hdelta, (datetime_sub_valid _ _ Hvalid), Hfaults, Hstamp.
  reflexivity.
Qed.

(** X9: geotab-mcp-docker handle_get_status_data: for a truthy device_id and
    an integer hours h (default 1), the client is asked for the window of
    exactly h hours ending at the clock reading, with the diagnostic_id
    parameter passed on (None when absent); the result names the window,
    the diagnostic id, the data points and their count. *)
Theorem handle_get_status_data_window parameters device_id h status_data to_date
    timestamp w w1 w2 w3 :
  dict_get parameters "device_id" = device_id →
  truthy device_id = true →
  dict_get_default parameters "hours" (VInt 1) = VInt h →
  - 1000000000 <= h <= 1000000000 →
  now w = (to_date, w1) →
  datetime_valid (to_date - h * us_per_hour) →
  GeotabClient.get_status_data client device_id (dict_get parameters "diagnostic_id")
    (to_date - h * us_per_hour) to_date w1 = (inr status_data, w2) →
  now w2 = (timestamp, w3) →
  handle_get_status_data rt now client parameters w
  = (inr (VDict [("device_id", device_id);
                 ("diagnostic_id", dict_get parameters "diagnostic_id");
                 ("from_date", VStr (isoformat (to_date - h * us_per_hour)));
                 ("to_date", VStr (isoformat to_date));
                 ("status_data", VList status_data);
                 ("count", VInt (Z.of_nat (length status_data)));
                 ("timestamp", VStr (isoformat timestamp))]), w3).
Proof.
  intros Hid Htrue Hhours Hh Hnow Hvalid Hdata Hstamp.
  destruct (timedelta_of_float_of_int us_per_hour "hours" h) as [Hfloat Hdelta].
  { lia. }
  { unfold max_delta_days, us_per_hour, us_per_day.
    split.
    - apply Z.div_le_lower_bound; lia.
    - apply Z.div_le_upper_bound; lia. }
  unfold handle_get_status_data. rewrite Hid, Htrue, Hhours. cbn [negb].
  unfold bind, lift, datetime_now.
  rewrite Hfloat, Hnow, Hdelta, (datetime_sub_valid _ _ Hvalid), Hdata, Hstamp.
  reflexivity.
Qed.

(** X10: geotab-mcp-docker: an execute of get_trips or get_fault_data with a
    truthy device_id whose days float() refuses is answered with an error
    reply carrying float's message: Operation error when days is a string
    that is not a number (ValueError), Operation execution failed for any
    other refused value (TypeError, OverflowError); neither the clock nor
    the Geotab client has been used. *)
Theorem docker_days_not_convertible version operation parameters days e w :
  operation ∈ ["get_trips"; "get_fault_data"] →
  truthy (dict_get parameters "device_id") = true →
  dict_lookup parameters "days" = Some days →
  py_float rt days = inl e →
  handle_execute rt now client (execute_body version operation parameters) w
  = (inr (MCPErrorResponse_dict "0.1.0"
            (match days with
             | VStr _ => "Operation error"
             | _ => "Operation execution failed"
             end)
            [("message", VStr (exn_str e))]), w).
Proof.
  intros Hop Htrue Hdays Hfloat.
  assert (isinstance e "ValueError" = match days with VStr _ => true | _ => false end)
    as Hclass.
  { destruct days; cbn in Hfloat; try discriminate Hfloat;
      try (injection Hfloat as <-; reflexivity).
    - destruct (float_is_inf _); [injection Hfloat as <-; reflexivity | discriminate].
    - destruct (parse_float rt s); [discriminate | injection Hfloat as <-; reflexivity]. }
  rewrite docker_handle_execute_body.
  repeat (apply elem_of_cons in Hop as [->|Hop]); [| |by apply elem_of_nil in Hop].
  - rewrite (docker_execute_operation_registered rt now client "get_trips"
               (handle_get_trips rt now client)) by reflexivity.
    unfold handle_get_trips. rewrite Htrue. cbn [negb]. unfold bind, lift.
    rewrite (dict_get_default_Some _ _ _ _ Hdays), Hfloat, Hclass.
    by destruct days.
  - rewrite (docker_execute_operation_registered rt now client "get_fault_data"
               (handle_get_fault_data rt now client)) by reflexivity.
    unfold handle_get_fault_data. rewrite Htrue. cbn [negb]. unfold bind, lift.
    rewrite (dict_get_default_Some _ _ _ _ Hdays), Hfloat, Hclass.
    by destruct days.
Qed.
End DockerHandlerFacts.

Section DecodingFacts.
Context {W : Type}.
Variables (rt : runtime) (now : W → datetime * W).
Variables (server_client : McpServer.GeotabClient.t W)
          (docker_client : McpDocker.GeotabClient.t W).

(** An execute body with more fields than the model declares: a field
    named like the first parameter of the model's [__init__] makes the call
    of the model fail; any other is ignored. *)
Lemma server_execute_body_fields
    (version operation : string) (parameters extra : dict) (w : W) :
  McpServer.mcp_endpoint rt now server_client
    (ret (VDict (execute_body version operation parameters ++ extra))) w
  = match dict_lookup extra "__pydantic_self__" with
    | None =>
        McpServer.mcp_endpoint rt now server_client
          (ret (VDict (execute_body version operation parameters))) w
    | Some _ =>
        (inr (McpServer.MCPErrorResponse_dict "0.1.0" "Server error"
                [("message", VStr (init_collision rt))]), w)
    end.
Proof.
  unfold McpServer.mcp_endpoint, try_except, bind, ret, lift, execute_body.
  cbn [app method_get dict_get_default dict_lookup String.eqb Ascii.eqb Bool.eqb
       default id].
  change (eq_str (VStr "execute") "discover") with false.
  change (eq_str (VStr "execute") "execute") with true. cbv iota.
  unfold McpServer.MCPExecuteRequest_init, Pydantic.init, Pydantic.self_parameter.
  cbn [dict_lookup String.eqb Ascii.eqb Bool.eqb].
  destruct (dict_lookup extra "__pydantic_self__"); reflexivity.
Qed.

Lemma docker_execute_body_fields
    (version operation : string) (parameters extra : dict) (w : W) :
  McpDocker.mcp_endpoint rt now docker_client
    (ret (VDict (execute_body version operation parameters ++ extra))) w
  = match dict_lookup extra "__pydantic_self__" with
    | None =>
        McpDocker.mcp_endpoint rt now docker_client
          (ret (VDict (execute_body version operation parameters))) w
    | Some _ =>
        (inr (McpDocker.MCPErrorResponse_dict "0.1.0" "Invalid execute request"
                [("message", VStr (init_collision rt))]), w)
    end.
Proof.
  unfold McpDocker.mcp_endpoint, McpDocker.handle_execute, try_except, bind, ret, lift,
    execute_body.
  cbn [app method_get dict_get_default dict_lookup String.eqb Ascii.eqb Bool.eqb
       default id].
  change (eq_str (VStr "execute") "discover") with false.
  change (eq_str (VStr "execute") "execute") with true. cbv iota.
  unfold McpDocker.MCPExecuteRequest_init, Pydantic.init, Pydantic.self_parameter.
  cbn [dict_lookup String.eqb Ascii.eqb Bool.eqb].
  destruct (dict_lookup extra "__pydantic_self__"); reflexivity.
Qed.

(** X11: In both variants the reply to an execute request does not depend on
    the version the request names nor on fields of the body that the
    request model does not declare, a field named __pydantic_self__ apart
    (it collides with the first parameter of the pydantic model's __init__
    and the request is refused); and a body without parameters is treated
    as a call with an empty parameters object. *)
Theorem execute_ignores_version_and_unknown_fields
    (version1 version2 operation : string) (parameters extra : dict) (w : W) :
  dict_lookup extra "__pydantic_self__" = None →
  (McpServer.mcp_endpoint rt now server_client
     (ret (VDict (execute_body version1 operation parameters ++ extra))) w
   = McpServer.mcp_endpoint rt now server_client
       (ret (VDict (execute_body version2 operation parameters))) w
   ∧
   McpServer.mcp_endpoint rt now server_client
     (ret (VDict [("type", VStr "execute"); ("version", VStr version1);
                  ("operation", VStr operation)])) w
   = McpServer.mcp_endpoint rt now server_client
       (ret (VDict (execute_body version1 operation []))) w)
  ∧
  (McpDocker.mcp_endpoint rt now docker_client
     (ret (VDict (execute_body version1 operation parameters ++ extra))) w
   = McpDocker.mcp_endpoint rt now docker_client
       (ret (VDict (execute_body version2 operation parameters))) w
   ∧
   McpDocker.mcp_endpoint rt now docker_client
     (ret (VDict [("type", VStr "execute"); ("version", VStr version1);
                  ("operation", VStr operation)])) w
   = McpDocker.mcp_endpoint rt now docker_client
       (ret (VDict (execute_body version1 operation []))) w).
Proof.
  intros Hplain.
  rewrite server_execute_body_fields, docker_execute_body_fields, Hplain.
  repeat split.
Qed.

(** X12: A discover request without a version field (and without a field
    named __pydantic_self__, which would stop the model's __init__ before
    any validation) is refused by both variants: geotab-mcp-server answers
    Invalid request format with the pydantic error list (field version,
    field required), geotab-mcp-docker answers Invalid discover request
    with the validation error text as message. *)
Theorem discover_without_version (body : dict) (w : W) :
  dict_lookup body "type" = Some (VStr "discover") →
  dict_lookup body "version" = None →
  dict_lookup body "__pydantic_self__" = None →
  McpServer.mcp_endpoint rt now server_client (ret (VDict body)) w
  = (inr (McpServer.MCPErrorResponse_dict "0.1.0" "Invalid request format"
            [("validation_errors",
              VList [VDict [("loc", VList [VStr "version"]);
                            ("msg", VStr "field required");
                            ("type", VStr "value_error.missing")]])]), w)
  ∧
  McpDocker.mcp_endpoint rt now docker_client (ret (VDict body)) w
  = (inr (McpDocker.MCPErrorResponse_dict "0.1.0" "Invalid discover request"
            [("message",
              VStr ("1 validation error for MCPDiscoverRequest" ++ Pydantic.newline
                      ++ "version" ++ Pydantic.newline
                      ++ "  field required (type=value_error.missing)"))]), w).
Proof.
  intros Htype Hversion Hplain. split.
  - unfold McpServer.mcp_endpoint, try_except, bind, ret, lift. cbn [method_get].
    rewrite (dict_get_default_Some _ _ _ _ Htype).
    change (eq_str (VStr "discover") "discover") with true. cbv iota.
    unfold McpServer.MCPDiscoverRequest_init, Pydantic.init, Pydantic.self_parameter.
    rewrite Hplain.
    rewrite (required_missing _ _ _ Hversion).
    unfold Pydantic.const_str, Pydantic.optional. rewrite Htype. reflexivity.
  - unfold McpDocker.mcp_endpoint, try_except, bind, ret, lift. cbn [method_get].
    rewrite (dict_get_default_Some _ _ _ _ Htype).
    change (eq_str (VStr "discover") "discover") with true. cbv iota.
    unfold McpDocker.handle_discover, try_except, bind, lift.
    unfold McpDocker.MCPDiscoverRequest_init, Pydantic.init, Pydantic.self_parameter.
    rewrite Hplain.
    rewrite (required_missing _ _ _ Hversion).
    unfold Pydantic.required. rewrite Htype. reflexivity.
Qed.

(** X13: get_device_location in both variants, when the Geotab client returns
    a truthy location: the reply is an execute reply whose result holds
    that location unchanged and a timestamp read from the clock after the
    client call. *)
Theorem get_device_location_found
    (version : string) (device_id location : pyval) (parameters : dict)
    (timestamp : datetime) (w w1 w2 : W) :
  truthy location = true →
  now w1 = (timestamp, w2) →
  (McpServer.GeotabClient.get_device_location server_client device_id w
     = (inr location, w1) →
   McpServer.handle_execute rt now server_client
     (McpServer.mkExecuteRequest "execute" version "get_device_location"
        [("device_id", device_id)]) w
   = (inr (McpServer.MCPExecuteResponse_dict "0.1.0" "get_device_location"
             [("location", location);
              ("timestamp", VStr (isoformat timestamp))]), w2))
  ∧
  (dict_lookup parameters "device_id" = Some device_id →
   truthy device_id = true →
   McpDocker.GeotabClient.get_device_location docker_client device_id w
     = (inr location, w1) →
   McpDocker.handle_execute rt now docker_client
     (execute_body version "get_device_location" parameters) w
   = (inr (McpDocker.MCPExecuteResponse_dict "0.1.0" "get_device_location"
             [("location", location);
              ("timestamp", VStr (isoformat timestamp))]), w2)).
Proof.
  intros Hfound Hnow. split.
  - intros Hloc.
    rewrite (handle_execute_returns rt now server_client
               (McpServer.mkExecuteRequest "execute" version "get_device_location"
                  [("device_id", device_id)])
               (McpServer.GeotabOperations.method "GeotabOperations.get_device_location"
                  McpServer.GeotabOperations.sig_get_device_location
                  (λ a, McpServer.GeotabOperations.get_device_location now server_client
                          (dict_get a "device_id")))
               (VDict [("operation", VStr "get_device_location");
                       ("result",
                        VDict [("location", location);
                               ("timestamp", VStr (isoformat timestamp))])])
               [("location", location);
                ("timestamp", VStr (isoformat timestamp))] w w2);
      [reflexivity | reflexivity | | reflexivity].
    cbn [McpServer.ereq_parameters].
    unfold McpServer.GeotabOperations.method, bind, lift.
    change (bind_kwargs "GeotabOperations.get_device_location"
              McpServer.GeotabOperations.sig_get_device_location
              [("device_id", device_id)])
      with (@inr exn dict [("device_id", device_id)]).
    cbv beta iota.
    change (dict_get [("device_id", device_id)] "device_id") with device_id.
    unfold McpServer.GeotabOperations.get_device_location, bind.
    rewrite Hloc, Hfound. cbn [negb].
    unfold McpServer.GeotabOperations.datetime_now, bind. rewrite Hnow. reflexivity.
  - intros Hid Htrue Hloc.
    rewrite docker_handle_execute_body.
    rewrite (docker_execute_operation_registered rt now docker_client
               "get_device_location"
               (McpDocker.handle_get_device_location now docker_client))
      by reflexivity.
    unfold McpDocker.handle_get_device_location, dict_get.
    rewrite (dict_get_default_Some _ _ _ _ Hid), Htrue. cbn [negb].
    unfold bind. rewrite Hloc, Hfound. cbn [negb].
    unfold McpDocker.datetime_now. rewrite Hnow. reflexivity.
Qed.
End DecodingFacts.

(* ===================================================================== *)
(** * The Geotab clients over the SDK                                      *)
(* ===================================================================== *)

Section MonadFacts.
Context {W : Type}.

(** A clause that returns keeps its class from leaving the block. *)
Lemma try_except_no_escape {A} (body : M W A) cls (h : exn → M W A) w e w' :
  (∀ e w, ∃ a w', h e w = (inr a, w')) →
  try_except body [(cls, h)] w = (inl e, w') →
  isinstance e cls = false.
Proof.
  intros Hh. unfold try_except. destruct (body w) as [[e0|a] w0]; [|discriminate].
  cbn [select_clause]. destruct (isinstance e0 cls) eqn:Hi.
  - destruct (Hh e0 w0) as (a & w1 & ->). discriminate.
  - intros [= <- <-]. exact Hi.
Qed.

Lemma try_except_returns {A} (body : M W A) clauses w a w' :
  body w = (inr a, w') → try_except body clauses w = (inr a, w').
Proof. unfold try_except. by intros ->. Qed.

Lemma try_except_caught {A} (body : M W A) cls (h : exn → M W A) w e w' :
  body w = (inl e, w') → isinstance e cls = true →
  try_except body [(cls, h)] w = h e w'.
Proof. unfold try_except. intros -> Hi. cbn [select_clause]. by rewrite Hi. Qed.

Lemma try_except_passed {A} (body : M W A) cls (h : exn → M W A) w e w' :
  body w = (inl e, w') → isinstance e cls = false →
  try_except body [(cls, h)] w = (inl e, w').
Proof. unfold try_except. intros -> Hi. cbn [select_clause]. by rewrite Hi. Qed.

Lemma bind_returns {A B} (c : M W A) (k : A → M W B) w a w' :
  c w = (inr a, w') → bind c k w = k a w'.
Proof. unfold bind. by intros ->. Qed.

Lemma bind_raises {A B} (c : M W A) (k : A → M W B) w e w' :
  c w = (inl e, w') → bind c k w = (inl e, w').
Proof. unfold bind. by intros ->. Qed.

Lemma try_except_bind {A B} (c : M W A) (k : A → M W B) clauses w a w' :
  c w = (inr a, w') →
  try_except (bind c k) clauses w = try_except (k a) clauses w'.
Proof. unfold try_except, bind. by intros ->. Qed.

Lemma bind_escape {A B} (c : M W A) (k : A → M W B) (P : exn → Prop) w e w' :
  (∀ e w', c w = (inl e, w') → P e) →
  (∀ a w1, c w = (inr a, w1) → k a w1 = (inl e, w') → P e) →
  bind c k w = (inl e, w') → P e.
Proof.
  intros Hc Hk. unfold bind. destruct (c w) as [[e0|a] w0].
  - intros [= <- <-]. eauto.
  - eauto.
Qed.
End MonadFacts.

Section RecordFacts.

Lemma collect_fmap {A B C : Type} (f : B → exn + C) (g : A → B) (h : A → C) xs :
  (∀ x, f (g x) = inr (h x)) → collect f (g <$> xs) = inr (h <$> xs).
Proof.
  intros Hf. induction xs as [|x xs IH]; [reflexivity|].
  cbn. rewrite Hf. cbn in IH. rewrite IH. reflexivity.
Qed.

Lemma collect_length {A B : Type} (f : A → exn + B) xs ys :
  collect f xs = inr ys → length ys = length xs.
Proof.
  revert ys. induction xs as [|x xs IH]; intros ys; cbn.
  - by intros [= <-].
  - destruct (f x); [discriminate|]. destruct (collect f xs); [discriminate|].
    intros [= <-]. cbn. f_equal. by apply IH.
Qed.

Lemma format_all_records fields (g : dict → dict) raw :
  (∀ d, eval_fields (VDict d) (fields (VDict d)) = inr (g d)) →
  format_all fields (VDict <$> raw) = inr ((λ d, VDict (g d)) <$> raw).
Proof.
  intros Hg. unfold format_all. apply collect_fmap. intros d. by rewrite Hg.
Qed.

End RecordFacts.

Section GeotabApiFacts.
Import GeotabApi.
Context {W : Type}.
Variable api : MyGeotab.API W.

Local Abbreviation authenticate := (authenticate api).
Local Abbreviation ensure_authenticated := (ensure_authenticated api).
Local Abbreviation get_devices := (get_devices api).
Local Abbreviation get_device_location := (get_device_location api).

Lemma server_authenticate_cases s w :
  match authenticate (s, w) with
  | (inr ok, (s', _)) =>
      if ok then s' = mkState true true else authenticated s' = false
  | (inl e, (s', _)) =>
      isinstance e "MyGeotabException" = false ∧ authenticated s' = authenticated s
  end.
Proof.
  unfold GeotabApi.authenticate, try_except, bind, with_state, set_state, ret.
  cbn -[isinstance].
  destruct (MyGeotab.new api w) as [[e|[]] w1]; cbn -[isinstance].
  - destruct (isinstance e "MyGeotabException") eqn:Hi; cbn -[isinstance];
      [reflexivity | done].
  - destruct (MyGeotab.authenticate api w1) as [[e|sid] w2]; cbn -[isinstance].
    + destruct (isinstance e "MyGeotabException") eqn:Hi; cbn -[isinstance];
        [reflexivity | done].
    + reflexivity.
Qed.

Lemma server_ensure_ready w :
  ensure_authenticated (mkState true true, w) = (inr true, (mkState true true, w)).
Proof. reflexivity. Qed.

Lemma server_ensure_cases s w :
  match ensure_authenticated (s, w) with
  | (inr ok, (s', _)) =>
      if ok then s' = mkState true true else authenticated s' = false
  | (inl e, _) => isinstance e "MyGeotabException" = false
  end.
Proof.
  unfold GeotabApi.ensure_authenticated, bind, get_state. cbn [fst snd].
  destruct (negb (authenticated s) || negb (client_set s)) eqn:Hc.
  - pose proof (server_authenticate_cases s w) as H.
    destruct (authenticate (s, w)) as [[e|ok] [s' w']]; [tauto | done].
  - destruct s as [[] []]; try discriminate Hc. reflexivity.
Qed.

(** X14: geotab-mcp-server GeotabClient: once ensure_authenticated has
    returned True, every later ensure_authenticated returns True at once,
    with the client state and the SDK untouched. *)
Theorem server_ensure_authenticated_once s w s' w' :
  ensure_authenticated (s, w) = (inr true, (s', w')) →
  ∀ w'', ensure_authenticated (s', w'') = (inr true, (s', w'')).
Proof.
  intros H w''. pose proof (server_ensure_cases s w) as Hc. rewrite H in Hc.
  subst s'. reflexivity.
Qed.

Variable now : W → datetime * W.

Local Abbreviation get_trip_data := (get_trip_data api now).
Local Abbreviation get_fault_data := (get_fault_data api now).

Lemma server_guarded_no_escape {A} (dflt : A) (body : M (state * W) A) sw e sw' :
  (ok <- ensure_authenticated ;;
   if negb ok then ret dflt
   else try_except body [("MyGeotabException", λ _, ret dflt)]) sw = (inl e, sw') →
  isinstance e "MyGeotabException" = false.
Proof.
  destruct sw as [s w]. apply (bind_escape _ _ (λ e, isinstance e "MyGeotabException" = false)).
  - intros e0 w0 H. pose proof (server_ensure_cases s w) as Hc. by rewrite H in Hc.
  - intros [] w1 _; cbn [negb]; [|discriminate].
    apply try_except_no_escape. intros ? ?. by do 2 eexists.
Qed.

Lemma server_window_no_escape (from_date to_date : option datetime) n
    (body : datetime → datetime → M (state * W) (list pyval)) sw e sw' :
  (ok <- ensure_authenticated ;;
   if negb ok then ret []
   else
     from_date <- match from_date with Some t => ret t | None => days_ago now n end ;;
     to_date <- match to_date with Some t => ret t | None => clock now end ;;
     try_except (body from_date to_date) [("MyGeotabException", λ _, ret [])]) sw
  = (inl e, sw') →
  isinstance e "MyGeotabException" = false.
Proof.
  destruct sw as [s w]. apply (bind_escape _ _ (λ e, isinstance e "MyGeotabException" = false)).
  - intros e0 w0 H. pose proof (server_ensure_cases s w) as Hc. by rewrite H in Hc.
  - intros [] w1 _; cbn [negb]; [|discriminate].
    apply (bind_escape _ _ (λ e, isinstance e "MyGeotabException" = false)).
    + destruct from_date; [discriminate|].
      unfold days_ago, bind, clock, lift, datetime_sub.
      destruct (now w1.2) as [t w2].
      destruct (_ && _); [discriminate|]. by intros ? ? [= <- _].
    + intros t0 w2 _. apply (bind_escape _ _ (λ e, isinstance e "MyGeotabException" = false)).
      * destruct to_date; [discriminate|]. unfold clock.
        destruct (now w2.2); discriminate.
      * intros t1 w3 _. apply try_except_no_escape. intros ? ?. by do 2 eexists.
Qed.

(** A search that the SDK fails with one of its exceptions, in a method
    that answers [dflt] then. *)
Lemma server_search_fails {A} (dflt : A) (c : M W (list pyval))
    (k : list pyval → M (state * W) A) s w s' w1 e w2 :
  ensure_authenticated (s, w) = (inr true, (s', w1)) →
  c w1 = (inl e, w2) →
  isinstance e "MyGeotabException" = true →
  (ok <- ensure_authenticated ;;
   if negb ok then ret dflt
   else try_except (found <- with_state c ;; k found)
          [("MyGeotabException", λ _, ret dflt)]) (s, w)
  = (inr dflt, (s', w2)).
Proof.
  intros Hauth Hsearch Hsdk. rewrite (bind_returns _ _ _ _ _ Hauth). cbn [negb].
  unfold try_except, bind, with_state. cbn [fst snd]. rewrite Hsearch.
  cbn [select_clause]. by rewrite Hsdk.
Qed.

Lemma server_rejected {A} (dflt : A) (rest : M (state * W) A) s w sw' :
  ensure_authenticated (s, w) = (inr false, sw') →
  (ok <- ensure_authenticated ;; if negb ok then ret dflt else rest) (s, w)
  = (inr dflt, sw').
Proof. intros Hauth. by rewrite (bind_returns _ _ _ _ _ Hauth). Qed.

(** X15: geotab-mcp-server GeotabClient: no exception that get_devices,
    get_device_location, get_trip_data or get_fault_data raise is a
    MyGeotabException, in any client state and whatever the SDK does; SDK
    exceptions are turned into empty results: when authentication is
    refused (ensure_authenticated returns False) every method returns its
    empty result ([] or None) without a search, and when the method's
    search raises a MyGeotabException the method returns its empty
    result. *)
Theorem server_client_contains_sdk_errors device_id from_date to_date :
  (∀ sw e sw',
     get_devices sw = (inl e, sw') ∨
     get_device_location device_id sw = (inl e, sw') ∨
     get_trip_data device_id from_date to_date sw = (inl e, sw') ∨
     get_fault_data device_id from_date to_date sw = (inl e, sw') →
     isinstance e "MyGeotabException" = false)
  ∧
  (∀ s w sw',
     ensure_authenticated (s, w) = (inr false, sw') →
     get_devices (s, w) = (inr [], sw') ∧
     get_device_location device_id (s, w) = (inr VNone, sw') ∧
     get_trip_data device_id from_date to_date (s, w) = (inr [], sw') ∧
     get_fault_data device_id from_date to_date (s, w) = (inr [], sw'))
  ∧
  (∀ s w s' w1 e w2 since until,
     ensure_authenticated (s, w) = (inr true, (s', w1)) →
     isinstance e "MyGeotabException" = true →
     (MyGeotab.get api "Device" [] w1 = (inl e, w2) →
      get_devices (s, w) = (inr [], (s', w2))) ∧
     (MyGeotab.get api "DeviceStatusInfo"
        [("search", MyGeotab.SDict (MyGeotab.device_search device_id))] w1
        = (inl e, w2) →
      get_device_location device_id (s, w) = (inr VNone, (s', w2))) ∧
     (MyGeotab.get api "Trip"
        [("search", MyGeotab.SDict (MyGeotab.window_search device_id since until))] w1
        = (inl e, w2) →
      get_trip_data device_id (Some since) (Some until) (s, w) = (inr [], (s', w2))) ∧
     (MyGeotab.get api "FaultData"
        [("search", MyGeotab.SDict (MyGeotab.window_search device_id since until))] w1
        = (inl e, w2) →
      get_fault_data device_id (Some since) (Some until) (s, w) = (inr [], (s', w2)))).
Proof.
  split; [|split].
  - intros sw e sw' [H|[H|[H|H]]].
    + exact (server_guarded_no_escape _ _ _ _ _ H).
    + exact (server_guarded_no_escape _ _ _ _ _ H).
    + exact (server_window_no_escape _ _ _ _ _ _ _ H).
    + exact (server_window_no_escape _ _ _ _ _ _ _ H).
  - intros s w sw' Hauth. repeat split; by apply server_rejected.
  - intros s w s' w1 e w2 since until Hauth Hsdk. repeat split; intros Hsearch.
    + by apply (server_search_fails [] _ _ s w s' w1 e w2).
    + by apply (server_search_fails VNone _ _ s w s' w1 e w2).
    + unfold GeotabApi.get_trip_data.
      rewrite (bind_returns _ _ _ _ _ Hauth). cbn [negb].
      rewrite (bind_returns _ _ (s', w1) since (s', w1)) by reflexivity.
      rewrite (bind_returns _ _ (s', w1) until (s', w1)) by reflexivity.
      unfold try_except, bind, with_state. cbn [fst snd]. rewrite Hsearch.
      cbn [select_clause]. by rewrite Hsdk.
    + unfold GeotabApi.get_fault_data.
      rewrite (bind_returns _ _ _ _ _ Hauth). cbn [negb].
      rewrite (bind_returns _ _ (s', w1) since (s', w1)) by reflexivity.
      rewrite (bind_returns _ _ (s', w1) until (s', w1)) by reflexivity.
      unfold try_except, bind, with_state. cbn [fst snd]. rewrite Hsearch.
      cbn [select_clause]. by rewrite Hsdk.
Qed.

End GeotabApiFacts.

Section GeotabApiServerFacts.
Import GeotabApi.
Context {W : Type}.
Variables (rt : runtime) (api : MyGeotab.API W) (now : W → datetime * W).

Local Abbreviation ensure_authenticated := (ensure_authenticated api).
Local Abbreviation client := (as_client api now).
Local Abbreviation handle_execute :=
  (McpServer.handle_execute rt (with_state_clock now) client).

Lemma server_get_devices_rejected s w sw' :
  ensure_authenticated (s, w) = (inr false, sw') →
  get_devices api (s, w) = (inr [], sw').
Proof. intros H. unfold get_devices. by rewrite (bind_returns _ _ _ _ _ H). Qed.

Lemma with_state_clock_now {S} (s : S) w t w' :
  now w = (t, w') → with_state_clock now (s, w) = (t, (s, w')).
Proof. unfold with_state_clock. cbn. by intros ->. Qed.

(** X16: geotab-mcp-server: when authentication fails (ensure_authenticated
    returns False), an execute of get_device_info is still answered with a
    success reply, with an empty device list and count 0; the failure does
    not show in the reply. *)
Theorem server_rejected_credentials_reply version include_inactive s w s' w1
    timestamp w2 :
  ensure_authenticated (s, w) = (inr false, (s', w1)) →
  now w1 = (timestamp, w2) →
  handle_execute
    (McpServer.mkExecuteRequest "execute" version "get_device_info"
       [("include_inactive", include_inactive)]) (s, w)
  = (inr (McpServer.MCPExecuteResponse_dict "0.1.0" "get_device_info"
            [("devices", VList []);
             ("count", VInt 0);
             ("timestamp", VStr (isoformat timestamp))]),
     (s', w2)).
Proof.
  intros Hauth Hnow.
  rewrite (handle_execute_returns rt (with_state_clock now) client _
             (McpServer.GeotabOperations.method "GeotabOperations.get_device_info"
                McpServer.GeotabOperations.sig_get_device_info
                (λ a, McpServer.GeotabOperations.get_device_info
                        (with_state_clock now) client (dict_get a "include_inactive")))
             (VDict [("operation", VStr "get_device_info");
                     ("result", VDict [("devices", VList []);
                                       ("count", VInt 0);
                                       ("timestamp", VStr (isoformat timestamp))])])
             [("devices", VList []);
              ("count", VInt 0);
              ("timestamp", VStr (isoformat timestamp))]
             (s, w) (s', w2));
    [reflexivity | reflexivity | | reflexivity].
  cbn [McpServer.ereq_parameters]. unfold McpServer.GeotabOperations.method, bind, lift.
  change (bind_kwargs _ _ _) with (@inr exn dict [("include_inactive", include_inactive)]).
  cbv beta iota.
  change (dict_get _ "include_inactive") with include_inactive.
  rewrite (get_device_info_run (with_state_clock now) client include_inactive []
             timestamp (s, w) (s', w1) (s', w2)).
  - by destruct (truthy include_inactive).
  - by apply server_get_devices_rejected.
  - constructor.
  - by apply with_state_clock_now.
Qed.


Local Abbreviation device_record :=
  (λ d : dict,
     VDict [("id", dict_get d "id");
            ("name", dict_get d "name");
            ("serial_number", dict_get d "serialNumber");
            ("device_type", dict_get d "deviceType");
            ("active", dict_get_default d "active" (VBool true))]).

Lemma server_get_devices_records s w s' w1 raw w2 :
  ensure_authenticated (s, w) = (inr true, (s', w1)) →
  MyGeotab.get api "Device" [] w1 = (inr (VDict <$> raw), w2) →
  get_devices api (s, w) = (inr (device_record <$> raw), (s', w2)).
Proof.
  intros Hauth Hget. unfold get_devices.
  rewrite (bind_returns _ _ _ _ _ Hauth). cbn [negb].
  apply try_except_returns. unfold bind, with_state, lift. cbn [fst snd].
  rewrite Hget.
  rewrite (format_all_records (λ _, device_fields)
             (λ d, [("id", dict_get d "id");
                    ("name", dict_get d "name");
                    ("serial_number", dict_get d "serialNumber");
                    ("device_type", dict_get d "deviceType");
                    ("active", dict_get_default d "active" (VBool true))]));
    reflexivity.
Qed.

Lemma filter_device_records raw :
  List.filter (has_flag "active" (VBool true)) (device_record <$> raw)
  = device_record <$> List.filter (λ d, truthy (dict_get_default d "active" (VBool true))) raw.
Proof.
  induction raw as [|d raw IH]; [reflexivity|].
  rewrite fmap_cons. cbn [List.filter].
  replace (has_flag _ _ _)
    with (truthy (dict_get_default d "active" (VBool true))) by reflexivity.
  destruct (truthy (dict_get_default d "active" (VBool true)));
    rewrite ?fmap_cons, IH; reflexivity.
Qed.

(** X17: geotab-mcp-server get_device_info end to end over the SDK: the
    devices in the reply are the SDK's Device entities with their fields
    renamed (id, name, serialNumber, deviceType, active with default
    True); without include_inactive an entity is listed exactly when its
    active is truthy or missing; count is the number listed. *)
Theorem server_execute_get_device_info version include_inactive s w s' w1 raw w2
    timestamp w3 :
  ensure_authenticated (s, w) = (inr true, (s', w1)) →
  MyGeotab.get api "Device" [] w1 = (inr (VDict <$> raw), w2) →
  now w2 = (timestamp, w3) →
  let listed := if truthy include_inactive then raw
                else List.filter
                       (λ d, truthy (dict_get_default d "active" (VBool true))) raw in
  handle_execute
    (McpServer.mkExecuteRequest "execute" version "get_device_info"
       [("include_inactive", include_inactive)]) (s, w)
  = (inr (McpServer.MCPExecuteResponse_dict "0.1.0" "get_device_info"
            [("devices", VList (device_record <$> listed));
             ("count", VInt (Z.of_nat (length listed)));
             ("timestamp", VStr (isoformat timestamp))]),
     (s', w3)).
Proof.
  intros Hauth Hget Hnow listed.
  rewrite (handle_execute_returns rt (with_state_clock now) client _
             (McpServer.GeotabOperations.method "GeotabOperations.get_device_info"
                McpServer.GeotabOperations.sig_get_device_info
                (λ a, McpServer.GeotabOperations.get_device_info
                        (with_state_clock now) client (dict_get a "include_inactive")))
             (VDict [("operation", VStr "get_device_info");
                     ("result", VDict [("devices", VList (device_record <$> listed));
                                       ("count", VInt (Z.of_nat (length listed)));
                                       ("timestamp", VStr (isoformat timestamp))])])
             [("devices", VList (device_record <$> listed));
              ("count", VInt (Z.of_nat (length listed)));
              ("timestamp", VStr (isoformat timestamp))]
             (s, w) (s', w3));
    [reflexivity | reflexivity | | reflexivity].
  cbn [McpServer.ereq_parameters]. unfold McpServer.GeotabOperations.method, bind, lift.
  change (bind_kwargs _ _ _) with (@inr exn dict [("include_inactive", include_inactive)]).
  cbv beta iota.
  change (dict_get _ "include_inactive") with include_inactive.
  rewrite (get_device_info_run (with_state_clock now) client include_inactive
             (device_record <$> raw) timestamp (s, w) (s', w2) (s', w3)).
  - subst listed. destruct (truthy include_inactive).
    + by rewrite length_fmap.
    + by rewrite filter_device_records, length_fmap.
  - by apply (server_get_devices_records s w s' w1).
  - apply Forall_fmap, Forall_forall. intros d _. by eexists.
  - by apply with_state_clock_now.
Qed.

Lemma server_address_lookup latitude longitude w :
  _get_address_from_coordinates api latitude longitude (mkState true true, w)
  = if truthy latitude && truthy longitude then
      match MyGeotab.call api "GetAddressForCoordinate"
              [("x", longitude); ("y", latitude)] w with
      | (inr address, w') =>
          (inr (if truthy address then address else VNone), (mkState true true, w'))
      | (inl e, w') =>
          if isinstance e "MyGeotabException"
          then (inr VNone, (mkState true true, w'))
          else (inl e, (mkState true true, w'))
      end
    else (inr VNone, (mkState true true, w)).
Proof.
  unfold _get_address_from_coordinates.
  rewrite (bind_returns _ _ _ _ _ (server_ensure_ready api w)). cbn [negb orb].
  destruct (truthy latitude); cbn [negb orb andb]; [|reflexivity].
  destruct (truthy longitude); cbn [negb orb andb]; [|reflexivity].
  unfold try_except, bind, with_state. cbn [fst snd].
  destruct (MyGeotab.call api _ _ w) as [[e|address] w'].
  - cbn [select_clause]. by destruct (isinstance e "MyGeotabException").
  - by destruct (truthy address).
Qed.

Local Abbreviation location_record :=
  (λ (device_id : pyval) (d : dict) (address : pyval),
     VDict [("device_id", device_id);
            ("timestamp", dict_get d "dateTime");
            ("latitude", dict_get d "latitude");
            ("longitude", dict_get d "longitude");
            ("speed", dict_get d "speed");
            ("bearing", dict_get d "bearing");
            ("address", address)]).

(** X18: geotab-mcp-server GeotabClient.get_device_location for a device with
    a status record: the address lookup is skipped when latitude or
    longitude is missing or zero; otherwise the address is the SDK's
    answer, or None when the answer is empty or the lookup raises
    MyGeotabException; any other exception from the lookup fails the whole
    call. *)
Theorem server_location_address device_id s w s' w1 d rest w2 :
  ensure_authenticated (s, w) = (inr true, (s', w1)) →
  MyGeotab.get api "DeviceStatusInfo"
    [("search", MyGeotab.SDict (MyGeotab.device_search device_id))] w1
    = (inr (VDict d :: rest), w2) →
  get_device_location api device_id (s, w)
  = if truthy (dict_get d "latitude") && truthy (dict_get d "longitude") then
      match MyGeotab.call api "GetAddressForCoordinate"
              [("x", dict_get d "longitude"); ("y", dict_get d "latitude")] w2 with
      | (inr address, w3) =>
          (inr (location_record device_id d (if truthy address then address else VNone)),
           (s', w3))
      | (inl e, w3) =>
          if isinstance e "MyGeotabException"
          then (inr (location_record device_id d VNone), (s', w3))
          else (inl e, (s', w3))
      end
    else (inr (location_record device_id d VNone), (s', w2)).
Proof.
  intros Hauth Hget.
  pose proof (server_ensure_cases api s w) as Hs. rewrite Hauth in Hs. subst s'.
  unfold get_device_location. rewrite (bind_returns _ _ _ _ _ Hauth). cbn [negb].
  unfold try_except.
  rewrite (bind_returns _ _ (mkState true true, w1) (VDict d :: rest)
             (mkState true true, w2))
    by (unfold with_state; cbn [fst snd]; by rewrite Hget).
  rewrite (bind_returns _ _ (mkState true true, w2)
             [("timestamp", dict_get d "dateTime");
              ("latitude", dict_get d "latitude");
              ("longitude", dict_get d "longitude");
              ("speed", dict_get d "speed");
              ("bearing", dict_get d "bearing")] (mkState true true, w2))
    by reflexivity.
  rewrite (bind_returns _ _ (mkState true true, w2) (dict_get d "latitude")
             (mkState true true, w2)) by reflexivity.
  rewrite (bind_returns _ _ (mkState true true, w2) (dict_get d "longitude")
             (mkState true true, w2)) by reflexivity.
  unfold bind. rewrite server_address_lookup.
  destruct (truthy (dict_get d "latitude") && truthy (dict_get d "longitude"));
    [|reflexivity].
  destruct (MyGeotab.call api _ _ w2) as [[e|address] w3]; [|reflexivity].
  destruct (isinstance e "MyGeotabException") eqn:Hi; [reflexivity|].
  cbn [select_clause]. by rewrite Hi.
Qed.


Local Abbreviation trip_record :=
  (λ (device_id : pyval) (d : dict),
     VDict [("trip_id", dict_get d "id");
            ("device_id", device_id);
            ("start_time", dict_get d "start");
            ("end_time", dict_get d "stop");
            ("distance", dict_get d "distance");
            ("duration", dict_get d "duration");
            ("start_latitude", dict_get d "startLatitude");
            ("start_longitude", dict_get d "startLongitude");
            ("end_latitude", dict_get d "endLatitude");
            ("end_longitude", dict_get d "endLongitude");
            ("max_speed", dict_get d "maxSpeed");
            ("avg_speed", dict_get d "averageSpeed");
            ("idle_time", dict_get d "idlingDuration")]).

Lemma server_get_trip_data_records device_id from_date to_date s w s' w1 raw w2 :
  ensure_authenticated (s, w) = (inr true, (s', w1)) →
  MyGeotab.get api "Trip"
    [("search", MyGeotab.SDict (MyGeotab.window_search device_id from_date to_date))] w1
    = (inr (VDict <$> raw), w2) →
  get_trip_data api now device_id (Some from_date) (Some to_date) (s, w)
  = (inr (trip_record device_id <$> raw), (s', w2)).
Proof.
  intros Hauth Hget. unfold get_trip_data.
  rewrite (bind_returns _ _ _ _ _ Hauth). cbn [negb].
  rewrite (bind_returns _ _ (s', w1) from_date (s', w1)) by reflexivity.
  rewrite (bind_returns _ _ (s', w1) to_date (s', w1)) by reflexivity.
  apply try_except_returns. unfold bind, with_state, lift. cbn [fst snd].
  rewrite Hget.
  rewrite (format_all_records (λ _, trip_fields device_id)
             (λ d, [("trip_id", dict_get d "id");
                    ("device_id", device_id);
                    ("start_time", dict_get d "start");
                    ("end_time", dict_get d "stop");
                    ("distance", dict_get d "distance");
                    ("duration", dict_get d "duration");
                    ("start_latitude", dict_get d "startLatitude");
                    ("start_longitude", dict_get d "startLongitude");
                    ("end_latitude", dict_get d "endLatitude");
                    ("end_longitude", dict_get d "endLongitude");
                    ("max_speed", dict_get d "maxSpeed");
                    ("avg_speed", dict_get d "averageSpeed");
                    ("idle_time", dict_get d "idlingDuration")]));
    reflexivity.
Qed.

Lemma server_get_trip_data_error device_id from_date to_date s w s' w1 e w2 :
  ensure_authenticated (s, w) = (inr true, (s', w1)) →
  MyGeotab.get api "Trip"
    [("search", MyGeotab.SDict (MyGeotab.window_search device_id from_date to_date))] w1
    = (inl e, w2) →
  get_trip_data api now device_id (Some from_date) (Some to_date) (s, w)
  = if isinstance e "MyGeotabException" then (inr [], (s', w2)) else (inl e, (s', w2)).
Proof.
  intros Hauth Hget. unfold get_trip_data.
  rewrite (bind_returns _ _ _ _ _ Hauth). cbn [negb].
  rewrite (bind_returns _ _ (s', w1) from_date (s', w1)) by reflexivity.
  rewrite (bind_returns _ _ (s', w1) to_date (s', w1)) by reflexivity.
  unfold try_except, bind, with_state. cbn [fst snd]. rewrite Hget.
  cbn [select_clause]. by destruct (isinstance e "MyGeotabException").
Qed.

(** X19: geotab-mcp-server get_trip_data end to end over the SDK: the SDK is
    searched for Trip entities of the device between (first clock reading
    minus days) and the second clock reading, which is the window the
    reply names; every entity comes back with its fields renamed and the
    requested device id, and count is the number of entities. *)
Theorem server_execute_get_trip_data version device_id n s w t0 w1 t1 w2 s' w3 raw w4
    timestamp w5 :
  - max_delta_days <= n <= max_delta_days →
  now w = (t0, w1) →
  datetime_valid (t0 - n * us_per_day) →
  now w1 = (t1, w2) →
  ensure_authenticated (s, w2) = (inr true, (s', w3)) →
  MyGeotab.get api "Trip"
    [("search",
      MyGeotab.SDict (MyGeotab.window_search device_id (t0 - n * us_per_day) t1))] w3
    = (inr (VDict <$> raw), w4) →
  now w4 = (timestamp, w5) →
  handle_execute
    (McpServer.mkExecuteRequest "execute" version "get_trip_data"
       [("device_id", device_id); ("days", VInt n)]) (s, w)
  = (inr (McpServer.MCPExecuteResponse_dict "0.1.0" "get_trip_data"
            [("device_id", device_id);
             ("from_date", VStr (isoformat (t0 - n * us_per_day)));
             ("to_date", VStr (isoformat t1));
             ("trips", VList (trip_record device_id <$> raw));
             ("count", VInt (Z.of_nat (length raw)));
             ("timestamp", VStr (isoformat timestamp))]),
     (s', w5)).
Proof.
  intros Hn Hnow0 Hvalid Hnow1 Hauth Hget Hnow2.
  rewrite (handle_execute_returns rt (with_state_clock now) client _
             (McpServer.GeotabOperations.method "GeotabOperations.get_trip_data"
                McpServer.GeotabOperations.sig_get_trip_data
                (λ a, McpServer.GeotabOperations.get_trip_data rt
                        (with_state_clock now) client
                        (dict_get a "device_id") (dict_get a "days")))
             (VDict [("operation", VStr "get_trip_data");
                     ("result",
                      VDict [("device_id", device_id);
                             ("from_date", VStr (isoformat (t0 - n * us_per_day)));
                             ("to_date", VStr (isoformat t1));
                             ("trips", VList (trip_record device_id <$> raw));
                             ("count", VInt (Z.of_nat (length raw)));
                             ("timestamp", VStr (isoformat timestamp))])])
             [("device_id", device_id);
              ("from_date", VStr (isoformat (t0 - n * us_per_day)));
              ("to_date", VStr (isoformat t1));
              ("trips", VList (trip_record device_id <$> raw));
              ("count", VInt (Z.of_nat (length raw)));
              ("timestamp", VStr (isoformat timestamp))]
             (s, w) (s', w5));
    [reflexivity | reflexivity | | reflexivity].
  cbn [McpServer.ereq_parameters]. unfold McpServer.GeotabOperations.method, bind, lift.
  change (bind_kwargs _ _ _)
    with (@inr exn dict [("device_id", device_id); ("days", VInt n)]).
  cbv beta iota.
  change (dict_get _ "device_id") with device_id.
  change (dict_get _ "days") with (VInt n).
  rewrite (get_trip_data_run rt (with_state_clock now) client device_id n
             (trip_record device_id <$> raw) t0 t1 timestamp
             (s, w) (s, w1) (s, w2) (s', w4) (s', w5)); try done.
  - by rewrite length_fmap.
  - by apply with_state_clock_now.
  - by apply with_state_clock_now.
  - by apply (server_get_trip_data_records _ _ _ s w2 s' w3).
  - by apply with_state_clock_now.
Qed.

(** X20: geotab-mcp-server get_trip_data when the SDK's trip search raises: a
    MyGeotabException is not reported, the reply is a success with an
    empty trip list and count 0; any other exception gives an error reply
    (Invalid parameters for a TypeError, Operation execution failed
    otherwise) with the exception text. *)
Theorem server_execute_sdk_failure version device_id n s w t0 w1 t1 w2 s' w3 e w4
    timestamp w5 :
  - max_delta_days <= n <= max_delta_days →
  now w = (t0, w1) →
  datetime_valid (t0 - n * us_per_day) →
  now w1 = (t1, w2) →
  ensure_authenticated (s, w2) = (inr true, (s', w3)) →
  MyGeotab.get api "Trip"
    [("search",
      MyGeotab.SDict (MyGeotab.window_search device_id (t0 - n * us_per_day) t1))] w3
    = (inl e, w4) →
  now w4 = (timestamp, w5) →
  handle_execute
    (McpServer.mkExecuteRequest "execute" version "get_trip_data"
       [("device_id", device_id); ("days", VInt n)]) (s, w)
  = if isinstance e "MyGeotabException" then
      (inr (McpServer.MCPExecuteResponse_dict "0.1.0" "get_trip_data"
              [("device_id", device_id);
               ("from_date", VStr (isoformat (t0 - n * us_per_day)));
               ("to_date", VStr (isoformat t1));
               ("trips", VList []);
               ("count", VInt 0);
               ("timestamp", VStr (isoformat timestamp))]),
       (s', w5))
    else
      (inr (McpServer.MCPErrorResponse_dict "0.1.0"
              (if isinstance e "TypeError" then "Invalid parameters"
               else "Operation execution failed")
              [("message", VStr (exn_str e))]),
       (s', w4)).
Proof.
  intros Hn Hnow0 Hvalid Hnow1 Hauth Hget Hnow2.
  pose proof (server_get_trip_data_error device_id (t0 - n * us_per_day) t1
                s w2 s' w3 e w4 Hauth Hget) as Hclient.
  destruct (isinstance e "MyGeotabException").
  - rewrite (handle_execute_returns rt (with_state_clock now) client _
               (McpServer.GeotabOperations.method "GeotabOperations.get_trip_data"
                  McpServer.GeotabOperations.sig_get_trip_data
                  (λ a, McpServer.GeotabOperations.get_trip_data rt
                          (with_state_clock now) client
                          (dict_get a "device_id") (dict_get a "days")))
               (VDict [("operation", VStr "get_trip_data");
                       ("result",
                        VDict [("device_id", device_id);
                               ("from_date", VStr (isoformat (t0 - n * us_per_day)));
                               ("to_date", VStr (isoformat t1));
                               ("trips", VList []);
                               ("count", VInt 0);
                               ("timestamp", VStr (isoformat timestamp))])])
               [("device_id", device_id);
                ("from_date", VStr (isoformat (t0 - n * us_per_day)));
                ("to_date", VStr (isoformat t1));
                ("trips", VList []);
                ("count", VInt 0);
                ("timestamp", VStr (isoformat timestamp))]
               (s, w) (s', w5));
      [reflexivity | reflexivity | | reflexivity].
    cbn [McpServer.ereq_parameters]. unfold McpServer.GeotabOperations.method, bind, lift.
    change (bind_kwargs _ _ _)
      with (@inr exn dict [("device_id", device_id); ("days", VInt n)]).
    cbv beta iota.
    change (dict_get _ "device_id") with device_id.
    change (dict_get _ "days") with (VInt n).
    rewrite (get_trip_data_run rt (with_state_clock now) client device_id n
               [] t0 t1 timestamp (s, w) (s, w1) (s, w2) (s', w4) (s', w5)); try done.
    all: by apply with_state_clock_now.
  - rewrite (handle_execute_raises rt (with_state_clock now) client _
               (McpServer.GeotabOperations.method "GeotabOperations.get_trip_data"
                  McpServer.GeotabOperations.sig_get_trip_data
                  (λ a, McpServer.GeotabOperations.get_trip_data rt
                          (with_state_clock now) client
                          (dict_get a "device_id") (dict_get a "days")))
               e (s, w) (s', w4));
      [reflexivity | reflexivity |].
    cbn [McpServer.ereq_parameters]. unfold McpServer.GeotabOperations.method, bind, lift.
    change (bind_kwargs _ _ _)
      with (@inr exn dict [("device_id", device_id); ("days", VInt n)]).
    cbv beta iota.
    change (dict_get _ "device_id") with device_id.
    change (dict_get _ "days") with (VInt n).
    unfold McpServer.GeotabOperations.get_trip_data, bind, lift,
      McpServer.GeotabOperations.datetime_now.
    rewrite (with_state_clock_now s _ _ _ Hnow0).
    rewrite (timedelta_of_days _ _ _ Hn), (datetime_sub_valid _ _ Hvalid).
    rewrite (with_state_clock_now s _ _ _ Hnow1).
    cbn [McpServer.GeotabClient.get_trip_data as_client].
    by rewrite Hclient.
Qed.

End GeotabApiServerFacts.

Section GeotabDockerFacts.
Import GeotabDocker.
Context {W : Type}.
Variable api : MyGeotab.API W.

Local Abbreviation authenticate := (authenticate api).
Local Abbreviation ensure_authenticated := (ensure_authenticated api).

Lemma docker_authenticate_cases s w :
  match authenticate (s, w) with
  | (inr ok, (s', _)) => if ok then api_set s' = true else True
  | (inl e, _) => isinstance e "MyGeotabException" = false
  end.
Proof.
  unfold GeotabDocker.authenticate, try_except, bind, with_state, set_state, ret.
  cbn -[isinstance].
  destruct (MyGeotab.new api w) as [[e|[]] w1]; cbn -[isinstance].
  - by destruct (isinstance e "MyGeotabException") eqn:Hi; cbn -[isinstance].
  - destruct (MyGeotab.authenticate api w1) as [[e|sid] w2]; cbn -[isinstance].
    + by destruct (isinstance e "MyGeotabException") eqn:Hi; cbn -[isinstance].
    + reflexivity.
Qed.

Lemma docker_ensure_cases s w :
  match ensure_authenticated (s, w) with
  | (inr ok, (s', _)) => if ok then api_set s' = true else True
  | (inl e, _) => isinstance e "MyGeotabException" = false
  end.
Proof.
  unfold GeotabDocker.ensure_authenticated, bind, get_state. cbn [fst snd].
  destruct (negb (api_set s) || negb (truthy (session_id s))) eqn:Hc.
  - apply docker_authenticate_cases.
  - cbn [ret]. destruct (api_set s); [reflexivity | discriminate Hc].
Qed.

(** X21: geotab-mcp-docker GeotabClient: after ensure_authenticated has
    returned True, a later ensure_authenticated returns at once exactly
    when the stored session id is truthy; with an empty session id every
    call authenticates again. *)
Theorem docker_session_reuse s w s' w' :
  ensure_authenticated (s, w) = (inr true, (s', w')) →
  ∀ w'', ensure_authenticated (s', w'')
         = if truthy (session_id s') then (inr true, (s', w''))
           else authenticate (s', w'').
Proof.
  intros H w''. pose proof (docker_ensure_cases s w) as Hc. rewrite H in Hc.
  unfold GeotabDocker.ensure_authenticated, bind, get_state. cbn [fst snd].
  rewrite Hc. cbn [negb orb]. by destruct (truthy (session_id s')).
Qed.

Variable now : W → datetime * W.

Lemma docker_guarded_no_escape {A} (dflt : A) (body : M (state * W) A) sw e sw' :
  (ok <- ensure_authenticated ;;
   if negb ok then ret dflt
   else try_except body [("MyGeotabException", λ _, ret dflt)]) sw = (inl e, sw') →
  isinstance e "MyGeotabException" = false.
Proof.
  destruct sw as [s w].
  apply (bind_escape _ _ (λ e, isinstance e "MyGeotabException" = false)).
  - intros e0 w0 H. pose proof (docker_ensure_cases s w) as Hc. by rewrite H in Hc.
  - intros [] w1 _; cbn [negb]; [|discriminate].
    apply try_except_no_escape. intros ? ?. by do 2 eexists.
Qed.

Lemma docker_window_no_escape (from_date to_date : option datetime)
    (ago : M (state * W) datetime)
    (body : datetime → datetime → M (state * W) (list pyval)) sw e sw' :
  (∀ sw e sw', ago sw = (inl e, sw') → isinstance e "MyGeotabException" = false) →
  (ok <- ensure_authenticated ;;
   if negb ok then ret []
   else
     from_date <- match from_date with Some t => ret t | None => ago end ;;
     to_date <- match to_date with Some t => ret t | None => clock now end ;;
     try_except (body from_date to_date) [("MyGeotabException", λ _, ret [])]) sw
  = (inl e, sw') →
  isinstance e "MyGeotabException" = false.
Proof.
  intros Hago. destruct sw as [s w].
  apply (bind_escape _ _ (λ e, isinstance e "MyGeotabException" = false)).
  - intros e0 w0 H. pose proof (docker_ensure_cases s w) as Hc. by rewrite H in Hc.
  - intros [] w1 _; cbn [negb]; [|discriminate].
    apply (bind_escape _ _ (λ e, isinstance e "MyGeotabException" = false)).
    + destruct from_date; [discriminate|]. apply Hago.
    + intros t0 w2 _.
      apply (bind_escape _ _ (λ e, isinstance e "MyGeotabException" = false)).
      * destruct to_date; [discriminate|]. unfold clock.
        destruct (now w2.2); discriminate.
      * intros t1 w3 _. apply try_except_no_escape. intros ? ?. by do 2 eexists.
Qed.

Lemma ago_no_escape unit_us n (sw : state * W) e sw' :
  (t <- clock now ;; lift (datetime_sub t (n * unit_us))) sw = (inl e, sw') →
  isinstance e "MyGeotabException" = false.
Proof.
  unfold bind, clock, lift, datetime_sub. destruct (now sw.2) as [t w2].
  destruct (_ && _); [discriminate|]. by intros [= <- _].
Qed.

(** X22: geotab-mcp-docker GeotabClient: no exception that get_devices,
    get_device_location, get_trips, get_fault_data or get_status_data
    raise is a MyGeotabException, in any client state and whatever the SDK
    does. *)
Theorem docker_client_contains_sdk_errors device_id flag from_date to_date sw e sw' :
  get_devices api flag sw = (inl e, sw') ∨
  get_device_location api device_id sw = (inl e, sw') ∨
  get_trips api now device_id from_date to_date flag sw = (inl e, sw') ∨
  get_fault_data api now device_id from_date to_date flag sw = (inl e, sw') ∨
  get_status_data api now device_id flag from_date to_date sw = (inl e, sw') →
  isinstance e "MyGeotabException" = false.
Proof.
  intros [H|[H|[H|[H|H]]]].
  - exact (docker_guarded_no_escape _ _ _ _ _ H).
  - exact (docker_guarded_no_escape _ _ _ _ _ H).
  - refine (docker_window_no_escape _ _ _ _ _ _ _ _ H). apply ago_no_escape.
  - refine (docker_window_no_escape _ _ _ _ _ _ _ _ H). apply ago_no_escape.
  - refine (docker_window_no_escape _ _ _ _ _ _ _ _ H). apply ago_no_escape.
Qed.

End GeotabDockerFacts.

Section GeotabDockerTripFacts.
Import GeotabDocker.
Context {W : Type}.
Variables (api : MyGeotab.API W) (now : W → datetime * W).

Local Abbreviation ensure_authenticated := (ensure_authenticated api).

Local Abbreviation trip_base :=
  (λ (device_id : pyval) (d : dict),
     [("id", dict_get d "id");
      ("device_id", device_id);
      ("start_time", dict_get d "start");
      ("end_time", dict_get d "stop");
      ("duration", dict_get d "duration");
      ("distance", dict_get d "distance");
      ("start_latitude", dict_get d "startLatitude");
      ("start_longitude", dict_get d "startLongitude");
      ("end_latitude", dict_get d "endLatitude");
      ("end_longitude", dict_get d "endLongitude");
      ("max_speed", dict_get d "maxSpeed");
      ("average_speed", dict_get d "averageSpeed");
      ("idle_time", dict_get d "idlingDuration");
      ("stop_time", dict_get d "stopDuration")]).

Local Abbreviation stop_base :=
  (λ (device_id : pyval) (d : dict),
     [("type", VStr "stop");
      ("id", dict_get d "id");
      ("device_id", device_id);
      ("start_time", dict_get d "start");
      ("end_time", dict_get d "stop");
      ("duration", dict_get d "duration");
      ("latitude", dict_get d "latitude");
      ("longitude", dict_get d "longitude")]).

(** Whether an entity has both coordinates, and the address lookup for
    them. *)
Local Abbreviation located :=
  (λ (d : dict) (lat lon : string), truthy (dict_get d lat) && truthy (dict_get d lon)).

Local Abbreviation address_lookup :=
  (λ (d : dict) (lat lon : string) (w : W),
     MyGeotab.call api "GetAddressFromCoordinates"
       [("x", dict_get d lon); ("y", dict_get d lat)] w).

(** The record of one trip entity and the world after its lookups: the
    fixed fields; then the start address when the start is located and its
    lookup returns; then the end address when the end is located, its
    lookup returns, and the start lookup has not raised (an exception ends
    both lookups). *)
Local Abbreviation trip_listed :=
  (λ (device_id : pyval) (d : dict) (w : W),
     if located d "startLatitude" "startLongitude" then
       match address_lookup d "startLatitude" "startLongitude" w with
       | (inl _, w1) => (VDict (trip_base device_id d), w1)
       | (inr a, w1) =>
           if located d "endLatitude" "endLongitude" then
             match address_lookup d "endLatitude" "endLongitude" w1 with
             | (inl _, w2) =>
                 (VDict (trip_base device_id d ++ [("start_address", a)]), w2)
             | (inr b, w2) =>
                 (VDict (trip_base device_id d
                         ++ [("start_address", a); ("end_address", b)]), w2)
             end
           else (VDict (trip_base device_id d ++ [("start_address", a)]), w1)
       end
     else if located d "endLatitude" "endLongitude" then
       match address_lookup d "endLatitude" "endLongitude" w with
       | (inl _, w2) => (VDict (trip_base device_id d), w2)
       | (inr b, w2) => (VDict (trip_base device_id d ++ [("end_address", b)]), w2)
       end
     else (VDict (trip_base device_id d), w)).

(** The record of one stop entity: the fixed fields, then the address when
    the stop is located and the lookup returns. *)
Local Abbreviation stop_listed :=
  (λ (device_id : pyval) (d : dict) (w : W),
     if located d "latitude" "longitude" then
       match address_lookup d "latitude" "longitude" w with
       | (inl _, w1) => (VDict (stop_base device_id d), w1)
       | (inr a, w1) => (VDict (stop_base device_id d ++ [("address", a)]), w1)
       end
     else (VDict (stop_base device_id d), w)).

(** The records of the entities in order, each made in the world the one
    before it left. *)
Local Abbreviation all_listed :=
  (λ (one : dict → W → pyval * W) (entities : list dict) (w : W),
     foldl (λ (so_far : list pyval * W) (d : dict),
              ((so_far.1 ++ [(one d so_far.2).1])%list, (one d so_far.2).2))
           ([], w) entities).

Lemma add_address_outcome (d : dict) lat lon out record (s : state) w :
  add_address api (VDict d) lat lon out (record, (s, w))
  = if truthy (dict_get d lat) && truthy (dict_get d lon) then
      match MyGeotab.call api "GetAddressFromCoordinates"
              [("x", dict_get d lon); ("y", dict_get d lat)] w with
      | (inr address, w') => (inr tt, (dict_set record out address, (s, w')))
      | (inl e, w') => (inl e, (record, (s, w')))
      end
    else (inr tt, (record, (s, w))).
Proof.
  unfold add_address, address_of, bind, lift, and_get, with_state, set_state.
  cbn [method_get fst snd]. fold (dict_get d lat). fold (dict_get d lon).
  destruct (truthy (dict_get d lat)) eqn:Hlat; cbn [andb].
  - destruct (truthy (dict_get d lon)) eqn:Hlon; [|reflexivity].
    cbn [fst snd]. by destruct (MyGeotab.call api _ _ w) as [[e|address] w'].
  - by rewrite Hlat.
Qed.

Lemma listed_from (one : dict → W → pyval * W) entities : ∀ acc w,
  foldl (λ (so_far : list pyval * W) (d : dict),
           ((so_far.1 ++ [(one d so_far.2).1])%list, (one d so_far.2).2))
        (acc, w) entities
  = ((acc ++ (all_listed one entities w).1)%list, (all_listed one entities w).2).
Proof.
  induction entities as [|d entities IH]; intros acc w.
  - cbn. by rewrite app_nil_r.
  - cbn [foldl fst snd app]. rewrite IH. rewrite (IH [_]).
    cbn [fst snd]. by rewrite <- app_assoc.
Qed.

Lemma listed_length (one : dict → W → pyval * W) entities w :
  length (all_listed one entities w).1 = length entities.
Proof.
  revert w. induction entities as [|d entities IH]; intros w; [reflexivity|].
  cbn [foldl fst snd app]. rewrite (listed_from one entities [_]).
  cbn [fst snd app length]. by rewrite IH.
Qed.

Lemma for_append_listed (f : pyval → M (state * W) pyval) (one : dict → W → pyval * W) :
  (∀ d s w, f (VDict d) (s, w) = (inr (one d w).1, (s, (one d w).2))) →
  ∀ entities s w,
    for_append f (VDict <$> entities) (s, w)
    = (inr (all_listed one entities w).1, (s, (all_listed one entities w).2)).
Proof.
  intros Hone entities s. induction entities as [|d entities IH]; intros w; [reflexivity|].
  rewrite fmap_cons. cbn [for_append]. unfold bind at 1. rewrite Hone.
  unfold bind at 1. rewrite IH. cbn [ret foldl fst snd app].
  by rewrite (listed_from one entities [_]).
Qed.

Lemma for_each_listed (f : pyval → M (state * W) pyval) (one : dict → W → pyval * W) :
  (∀ d s w, f (VDict d) (s, w) = (inr (one d w).1, (s, (one d w).2))) →
  ∀ entities s acc w,
    for_each (λ entity,
                record <- with_state (f entity) ;;
                set_state (λ results, (results ++ [record])%list))
             (VDict <$> entities) (acc, (s, w))
    = (inr tt,
       ((acc ++ (all_listed one entities w).1)%list,
        (s, (all_listed one entities w).2))).
Proof.
  intros Hone entities s. induction entities as [|d entities IH]; intros acc w.
  - cbn. by rewrite app_nil_r.
  - rewrite fmap_cons. cbn [for_each]. unfold bind at 1, bind at 1, with_state at 1.
    cbn [fst snd]. rewrite Hone. unfold set_state at 1. cbn [fst snd].
    rewrite IH. cbn [foldl fst snd app]. rewrite (listed_from one entities [_]).
    cbn [fst snd]. by rewrite <- app_assoc.
Qed.

Lemma format_trip_exact device_id d (s : state) w :
  format_trip api device_id (VDict d) (s, w)
  = (inr (trip_listed device_id d w).1, (s, (trip_listed device_id d w).2)).
Proof.
  unfold format_trip.
  rewrite (bind_returns _ _ (s, w) (trip_base device_id d) (s, w)) by reflexivity.
  unfold bind at 1, with_local, try_except, bind.
  rewrite add_address_outcome.
  destruct (truthy (dict_get d "startLatitude") && truthy (dict_get d "startLongitude")).
  - destruct (MyGeotab.call api _ _ w) as [[e|a] w1]; [reflexivity|].
    rewrite add_address_outcome.
    destruct (truthy (dict_get d "endLatitude") && truthy (dict_get d "endLongitude")).
    + by destruct (MyGeotab.call api _ _ w1) as [[e|b] w2].
    + reflexivity.
  - rewrite add_address_outcome.
    destruct (truthy (dict_get d "endLatitude") && truthy (dict_get d "endLongitude")).
    + by destruct (MyGeotab.call api _ _ w) as [[e|b] w2].
    + reflexivity.
Qed.

Lemma format_stop_exact device_id d (s : state) w :
  format_stop api device_id (VDict d) (s, w)
  = (inr (stop_listed device_id d w).1, (s, (stop_listed device_id d w).2)).
Proof.
  unfold format_stop.
  rewrite (bind_returns _ _ (s, w) (stop_base device_id d) (s, w)) by reflexivity.
  unfold bind at 1, with_local, try_except.
  rewrite add_address_outcome.
  destruct (truthy (dict_get d "latitude") && truthy (dict_get d "longitude")).
  - by destruct (MyGeotab.call api _ _ w) as [[e|a] w1].
  - reflexivity.
Qed.

(** X23: geotab-mcp-docker GeotabClient.get_trips without stops returns one
    record per Trip entity, in order, whatever the address lookups do. Each
    record is the fourteen fixed fields, followed by start_address exactly
    when the start has both coordinates and its lookup returns (with the
    value it returned), and by end_address exactly when the end has both
    coordinates, its lookup returns, and the start lookup has not raised; an
    exception of any class from a lookup ends that trip's lookups and is
    swallowed. The lookups run in order, each in the world the one before
    left. *)
Theorem docker_trips_survive_address_lookup device_id from_date to_date
    include_non_trip_data s w s' w1 raw w2 :
  ensure_authenticated (s, w) = (inr true, (s', w1)) →
  MyGeotab.get api "Trip"
    [("search", MyGeotab.SDict (MyGeotab.window_search device_id from_date to_date))] w1
    = (inr (VDict <$> raw), w2) →
  truthy include_non_trip_data = false →
  get_trips api now device_id (Some from_date) (Some to_date)
    include_non_trip_data (s, w)
  = (inr (all_listed (trip_listed device_id) raw w2).1,
     (s', (all_listed (trip_listed device_id) raw w2).2))
  ∧ length (all_listed (trip_listed device_id) raw w2).1 = length raw.
Proof.
  intros Hauth Hget Hflag. split; [|exact (listed_length (trip_listed device_id) raw w2)].
  unfold get_trips. rewrite (bind_returns _ _ _ _ _ Hauth). cbn [negb].
  rewrite (bind_returns _ _ (s', w1) from_date (s', w1)) by reflexivity.
  rewrite (bind_returns _ _ (s', w1) to_date (s', w1)) by reflexivity.
  cbv zeta. apply try_except_returns.
  rewrite (bind_returns _ _ (s', w1) (VDict <$> raw) (s', w2))
    by (unfold with_state; cbn [fst snd]; by rewrite Hget).
  rewrite (bind_returns _ _ _ _ _
             (for_append_listed (format_trip api device_id) (trip_listed device_id)
                (format_trip_exact device_id) raw s' w2)).
  by rewrite Hflag.
Qed.

(** X24: geotab-mcp-docker GeotabClient.get_trips with stops asked for: the
    NonTripActivity search runs after the trips' address lookups; its stop
    records (type stop, the seven fixed fields, then address exactly when
    the stop has both coordinates and the lookup returns, with the value
    returned) follow the trip records. When the stop search raises
    MyGeotabException the trip records alone are returned, and any other
    exception from it fails the call. *)
Theorem docker_trips_then_stops device_id from_date to_date include_non_trip_data
    s w s' w1 raw w2 (outcome : exn + list dict) w4 :
  ensure_authenticated (s, w) = (inr true, (s', w1)) →
  MyGeotab.get api "Trip"
    [("search", MyGeotab.SDict (MyGeotab.window_search device_id from_date to_date))] w1
    = (inr (VDict <$> raw), w2) →
  truthy include_non_trip_data = true →
  MyGeotab.get api "NonTripActivity"
    [("search", MyGeotab.SDict (MyGeotab.window_search device_id from_date to_date))]
    (all_listed (trip_listed device_id) raw w2).2
    = (match outcome with
       | inl e => inl e
       | inr stops_raw => inr (VDict <$> stops_raw)
       end, w4) →
  get_trips api now device_id (Some from_date) (Some to_date)
    include_non_trip_data (s, w)
  = match outcome with
    | inr stops_raw =>
        (inr ((all_listed (trip_listed device_id) raw w2).1
              ++ (all_listed (stop_listed device_id) stops_raw w4).1)%list,
         (s', (all_listed (stop_listed device_id) stops_raw w4).2))
    | inl e =>
        if isinstance e "MyGeotabException"
        then (inr (all_listed (trip_listed device_id) raw w2).1, (s', w4))
        else (inl e, (s', w4))
    end.
Proof.
  intros Hauth Hget Hflag Hnon.
  pose proof (for_append_listed (format_trip api device_id) (trip_listed device_id)
                (format_trip_exact device_id) raw s' w2) as Hres.
  unfold get_trips. rewrite (bind_returns _ _ _ _ _ Hauth). cbn [negb].
  rewrite (bind_returns _ _ (s', w1) from_date (s', w1)) by reflexivity.
  rewrite (bind_returns _ _ (s', w1) to_date (s', w1)) by reflexivity.
  cbv zeta.
  rewrite (try_except_bind _ _ _ (s', w1) (VDict <$> raw) (s', w2))
    by (unfold with_state; cbn [fst snd]; by rewrite Hget).
  rewrite (try_except_bind _ _ _ _ _ _ Hres). rewrite Hflag.
  unfold try_except at 1, with_local, try_except, bind at 1, with_state at 1,
    with_state at 1.
  cbn [fst snd]. rewrite Hnon.
  destruct outcome as [e|stops_raw].
  - cbn [select_clause]. destruct (isinstance e "MyGeotabException") eqn:Hi.
    + reflexivity.
    + cbn [select_clause fst snd]. by rewrite Hi.
  - by rewrite (for_each_listed (format_stop api device_id) (stop_listed device_id)
                  (format_stop_exact device_id) stops_raw s' _ w4).
Qed.

End GeotabDockerTripFacts.

Section GeotabDockerServerFacts.
Import GeotabDocker.
Context {W : Type}.
Variables (rt : runtime) (api : MyGeotab.API W) (now : W → datetime * W).

Local Abbreviation ensure_authenticated := (ensure_authenticated api).
Local Abbreviation client := (as_client api now).
Local Abbreviation handle_execute :=
  (McpDocker.handle_execute rt (with_state_clock now) client).

Local Abbreviation docker_location_record :=
  (λ (device_id : pyval) (d : dict) (address : pyval),
     VDict [("device_id", device_id);
            ("timestamp", dict_get d "dateTime");
            ("latitude", dict_get d "latitude");
            ("longitude", dict_get d "longitude");
            ("speed", dict_get d "speed");
            ("direction", dict_get d "bearing");
            ("address", address);
            ("is_driving", dict_get_default d "isDriving" (VBool false));
            ("is_moving", dict_get_default d "isMoving" (VBool false))]).

(** X25: geotab-mcp-docker GeotabClient.get_device_location for a device with
    a status record: the address is looked up only when latitude and
    longitude are both truthy and is returned as the SDK gives it; a
    lookup that raises any exception leaves the address None and the
    location is still returned. *)
Theorem docker_location_address device_id s w s' w1 d rest w2 :
  ensure_authenticated (s, w) = (inr true, (s', w1)) →
  MyGeotab.get api "DeviceStatusInfo"
    [("search", MyGeotab.SDict (MyGeotab.device_search device_id))] w1
    = (inr (VDict d :: rest), w2) →
  get_device_location api device_id (s, w)
  = if truthy (dict_get d "latitude") && truthy (dict_get d "longitude") then
      match MyGeotab.call api "GetAddressFromCoordinates"
              [("x", dict_get d "longitude"); ("y", dict_get d "latitude")] w2 with
      | (inr address, w3) =>
          (inr (docker_location_record device_id d address), (s', w3))
      | (inl e, w3) =>
          (inr (docker_location_record device_id d VNone), (s', w3))
      end
    else (inr (docker_location_record device_id d VNone), (s', w2)).
Proof.
  intros Hauth Hget.
  unfold get_device_location. rewrite (bind_returns _ _ _ _ _ Hauth). cbn [negb].
  rewrite (try_except_bind _ _ _ (s', w1) (VDict d :: rest) (s', w2))
    by (unfold with_state; cbn [fst snd]; by rewrite Hget).
  unfold try_except at 1, bind at 1, lift at 1, and_get. cbn [method_get].
  fold (dict_get d "latitude"). fold (dict_get d "longitude").
  destruct (truthy (dict_get d "latitude")) eqn:Hlat; cbn [andb].
  - destruct (truthy (dict_get d "longitude")) eqn:Hlon.
    + unfold bind at 1, try_except, address_of, bind, lift, with_state.
      cbn [method_get fst snd].
      fold (dict_get d "latitude"). fold (dict_get d "longitude").
      destruct (MyGeotab.call api _ _ w2) as [[e|address] w3].
      * cbn [select_clause]. rewrite isinstance_Exception. reflexivity.
      * reflexivity.
    + reflexivity.
  - rewrite Hlat. reflexivity.
Qed.

Lemma docker_get_devices_formatted include_inactive s w s' w1 entities w2 devices :
  ensure_authenticated (s, w) = (inr true, (s', w1)) →
  MyGeotab.get api "Device"
    [("search",
      if truthy include_inactive then MyGeotab.SVal VNone
      else MyGeotab.SDict [("active", MyGeotab.SVal (VBool true))])] w1
    = (inr entities, w2) →
  format_all (λ _, device_fields) entities = inr devices →
  get_devices api include_inactive (s, w) = (inr devices, (s', w2)).
Proof.
  intros Hauth Hget Hformat.
  unfold get_devices. rewrite (bind_returns _ _ _ _ _ Hauth). cbn [negb].
  cbv zeta. apply try_except_returns. unfold bind, with_state, lift. cbn [fst snd].
  destruct (truthy include_inactive); cbn [negb]; by rewrite Hget, Hformat.
Qed.

Lemma with_state_clock_run {S} (s : S) w t w' :
  now w = (t, w') → with_state_clock now (s, w) = (t, (s, w')).
Proof. unfold with_state_clock. cbn. by intros ->. Qed.

(** X26: geotab-mcp-docker get_devices end to end over the SDK: unless
    include_inactive is truthy the SDK is searched with the criterion
    active = True, otherwise with no criterion; the reply holds the
    formatted devices and count is the number of entities the SDK
    returned. *)
Theorem docker_execute_get_devices version parameters s w s' w1 entities w2 devices
    timestamp w3 :
  ensure_authenticated (s, w) = (inr true, (s', w1)) →
  MyGeotab.get api "Device"
    [("search",
      if truthy (dict_get_default parameters "include_inactive" (VBool false))
      then MyGeotab.SVal VNone
      else MyGeotab.SDict [("active", MyGeotab.SVal (VBool true))])] w1
    = (inr entities, w2) →
  format_all (λ _, device_fields) entities = inr devices →
  now w2 = (timestamp, w3) →
  handle_execute (execute_body version "get_devices" parameters) (s, w)
  = (inr (McpDocker.MCPExecuteResponse_dict "0.1.0" "get_devices"
            [("devices", VList devices);
             ("count", VInt (Z.of_nat (length entities)));
             ("timestamp", VStr (isoformat timestamp))]),
     (s', w3)).
Proof.
  intros Hauth Hget Hformat Hnow.
  rewrite docker_handle_execute_body.
  rewrite (docker_execute_operation_registered rt (with_state_clock now) client
             "get_devices"
             (McpDocker.handle_get_devices (with_state_clock now) client))
    by reflexivity.
  unfold McpDocker.handle_get_devices, bind. cbv zeta.
  cbn [McpDocker.GeotabClient.get_devices as_client].
  rewrite (docker_get_devices_formatted _ s w s' w1 entities w2 devices Hauth Hget Hformat).
  unfold McpDocker.datetime_now. rewrite (with_state_clock_run s' _ _ _ Hnow).
  cbn [ret]. unfold format_all in Hformat. rewrite (collect_length _ _ _ Hformat).
  reflexivity.
Qed.

(** X27: geotab-mcp-docker get_fault_data end to end over the SDK: the SDK is
    searched for FaultData of the device in the window the reply names
    (days before the clock reading, default 7), with includeHistoricFaults
    = False added exactly when active_only is truthy; the reply holds the
    formatted faults and their count. *)
Theorem docker_execute_get_fault_data version parameters device_id n s w to_date w1
    s' w2 entities w3 faults timestamp w4 :
  dict_get parameters "device_id" = device_id →
  truthy device_id = true →
  dict_get_default parameters "days" (VInt 7) = VInt n →
  - max_delta_days <= n <= max_delta_days →
  now w = (to_date, w1) →
  datetime_valid (to_date - n * us_per_day) →
  ensure_authenticated (s, w1) = (inr true, (s', w2)) →
  MyGeotab.get api "FaultData"
    [("search",
      MyGeotab.SDict
        (MyGeotab.window_search device_id (to_date - n * us_per_day) to_date
         ++ (if truthy (dict_get_default parameters "active_only" (VBool false))
             then [("includeHistoricFaults", MyGeotab.SVal (VBool false))]
             else []))%list)] w2
    = (inr entities, w3) →
  collect (format_fault device_id) entities = inr faults →
  now w3 = (timestamp, w4) →
  handle_execute (execute_body version "get_fault_data" parameters) (s, w)
  = (inr (McpDocker.MCPExecuteResponse_dict "0.1.0" "get_fault_data"
            [("device_id", device_id);
             ("from_date", VStr (isoformat (to_date - n * us_per_day)));
             ("to_date", VStr (isoformat to_date));
             ("faults", VList faults);
             ("count", VInt (Z.of_nat (length entities)));
             ("timestamp", VStr (isoformat timestamp))]),
     (s', w4)).
Proof.
  intros Hid Htrue Hdays Hn Hnow Hvalid Hauth Hget Hformat Hstamp.
  rewrite docker_handle_execute_body.
  rewrite (docker_execute_operation_registered rt (with_state_clock now) client
             "get_fault_data"
             (McpDocker.handle_get_fault_data rt (with_state_clock now) client))
    by reflexivity.
  rewrite (handle_get_fault_data_run rt (with_state_clock now) client parameters
             device_id n faults to_date timestamp (s, w) (s, w1) (s', w3) (s', w4));
    try done.
  - by rewrite (collect_length _ _ _ Hformat).
  - by apply with_state_clock_run.
  - cbn [McpDocker.GeotabClient.get_fault_data as_client].
    unfold get_fault_data. rewrite (bind_returns _ _ _ _ _ Hauth). cbn [negb].
    rewrite (bind_returns _ _ (s', w2) (to_date - n * us_per_day) (s', w2))
      by reflexivity.
    rewrite (bind_returns _ _ (s', w2) to_date (s', w2)) by reflexivity.
    cbv zeta. apply try_except_returns. unfold bind, with_state, lift.
    cbn [fst snd truthy]. rewrite negb_involutive, Hget, Hformat. reflexivity.
  - by apply with_state_clock_run.
Qed.

End GeotabDockerServerFacts.

(* ===================================================================== *)
(** * The example client against the server                                *)
(* ===================================================================== *)

Section ExampleClientFacts.
Import ExampleClient.
Context {W : Type}.
Variables (rt : runtime) (now : W → datetime * W) (client : McpServer.GeotabClient.t W).

(** The script talking to the endpoint of geotab-mcp-server: the payload is
    what [request.json()] gives the endpoint, and the reply comes back as
    [response.json()]. *)
Local Abbreviation post := (λ payload, McpServer.mcp_endpoint rt now client (ret payload)).
Local Abbreviation handle_execute := (McpServer.handle_execute rt now client).
Local Abbreviation operation_map := (McpServer.GeotabOperations.operation_map rt now client).

Local Abbreviation parameter_lines :=
  (λ p : McpServer.MCPParameter,
     [Text ("  - " ++ McpServer.param_name p ++ " (" ++ McpServer.param_type p ++ ") "
              ++ (if McpServer.param_required p then "(Required)" else "(Optional)")
              ++ (if is_none (McpServer.param_default p) then ""
                  else ", Default: " ++ py_str rt (McpServer.param_default p)));
      Text ("    " ++ McpServer.param_description p)]).

Local Abbreviation operation_lines :=
  (λ o : McpServer.MCPOperation,
     ([Text (Pydantic.newline ++ McpServer.op_name o);
       Text (dashes (String.length (McpServer.op_name o)));
       Text ("Description: " ++ McpServer.op_description o);
       Text ("Returns: " ++ McpServer.op_returns o)]
      ++ match McpServer.op_parameters o with
         | [] => []
         | params => Text (Pydantic.newline ++ "Parameters:")
                     :: concat (parameter_lines <$> params)
         end)%list).

Lemma print_parameter_lines p written (w : W) :
  print_parameter rt (McpServer.MCPParameter_dict p) (written, w)
  = (inr tt, ((written ++ parameter_lines p)%list, w)).
Proof.
  destruct p as [name type description required dflt].
  unfold print_parameter, bind, lift, print, set_state, ret.
  cbn [method_get getitem McpServer.MCPParameter_dict dict_get_default dict_lookup
       String.eqb Ascii.eqb Bool.eqb default fst snd
       McpServer.param_name McpServer.param_type McpServer.param_description
       McpServer.param_required McpServer.param_default truthy py_str].
  unfold id. destruct (is_none dflt); cbn [negb fst snd truthy];
    by rewrite <- app_assoc.
Qed.

Lemma print_parameters_lines params : ∀ written (w : W),
  for_each (print_parameter rt) (McpServer.MCPParameter_dict <$> params) (written, w)
  = (inr tt, ((written ++ concat (parameter_lines <$> params))%list, w)).
Proof.
  induction params as [|p params IH]; intros written w.
  - cbn. by rewrite app_nil_r.
  - rewrite !fmap_cons. cbn [for_each concat]. unfold bind at 1.
    rewrite print_parameter_lines, IH. by rewrite <- app_assoc.
Qed.

Lemma print_operation_lines o written (w : W) :
  print_operation rt (McpServer.MCPOperation_dict o) (written, w)
  = (inr tt, ((written ++ operation_lines o)%list, w)).
Proof.
  destruct o as [name description params returns].
  unfold print_operation.
  cbn [McpServer.MCPOperation_dict McpServer.op_name McpServer.op_description
       McpServer.op_parameters McpServer.op_returns].
  unfold bind at 1, lift at 1. 
  change (getitem _ "name") with (@inr exn pyval (VStr name)). cbv beta iota.
  unfold bind at 1, print at 1, set_state at 1. cbn [fst snd py_str].
  unfold bind at 1, lift at 1.
  change (getitem _ "name") with (@inr exn pyval (VStr name)). cbv beta iota.
  unfold bind at 1, lift at 1. cbn [py_len]. 
  unfold bind at 1, print at 1, set_state at 1. cbn [fst snd].
  unfold bind at 1, lift at 1.
  change (getitem _ "description") with (@inr exn pyval (VStr description)).
  cbv beta iota.
  unfold bind at 1, print at 1, set_state at 1. cbn [fst snd py_str].
  unfold bind at 1, lift at 1.
  change (getitem _ "returns") with (@inr exn pyval (VStr returns)). cbv beta iota.
  unfold bind at 1, print at 1, set_state at 1. cbn [fst snd py_str].
  unfold bind at 1, lift at 1.
  change (getitem _ "parameters")
    with (@inr exn pyval (VList (McpServer.MCPParameter_dict <$> params))).
  cbv beta iota.
  destruct params as [|p params].
  - cbn. by rewrite <- !app_assoc.
  - change (truthy _) with true. cbv iota.
    unfold bind at 1, print at 1, set_state at 1. cbn [fst snd].
    unfold bind at 1, lift at 1.
    change (getitem _ "parameters")
      with (@inr exn pyval (VList (McpServer.MCPParameter_dict <$> (p :: params)))).
    cbv beta iota.
    unfold bind at 1, lift at 1. cbn [iterate].
    rewrite print_parameters_lines. by rewrite <- !app_assoc.
Qed.

Lemma print_each_operation_lines ops : ∀ written (w : W),
  for_each (print_operation rt) (McpServer.MCPOperation_dict <$> ops) (written, w)
  = (inr tt, ((written ++ concat (operation_lines <$> ops))%list, w)).
Proof.
  induction ops as [|o ops IH]; intros written w.
  - cbn. by rewrite app_nil_r.
  - rewrite !fmap_cons. cbn [for_each concat]. unfold bind at 1.
    rewrite print_operation_lines, IH. by rewrite <- app_assoc.
Qed.

Lemma print_operations_lines ops written (w : W) :
  print_operations rt (VList (McpServer.MCPOperation_dict <$> ops)) (written, w)
  = (inr tt,
     ((written
       ++ [Text (Pydantic.newline ++ "Available Operations:");
           Text "===================="]
       ++ concat (operation_lines <$> ops))%list, w)).
Proof.
  unfold print_operations, bind, print, set_state, lift. cbn [fst snd iterate].
  rewrite print_each_operation_lines. by rewrite <- !app_assoc.
Qed.

(** X28: example_client.print_operations on any catalog a server of these
    models can send (every operation and parameter serialised by .dict()):
    it never raises (every key it subscripts is there) and writes the
    heading, then per operation the name, a dash rule of the name's
    length, description and returns, and for an operation with parameters
    the Parameters heading and two lines per parameter, the default shown
    only when it is not None. *)
Theorem print_operations_catalog ops written (w : W) :
  print_operations rt (VList (McpServer.MCPOperation_dict <$> ops)) (written, w)
  = (inr tt,
     ((written
       ++ [Text (Pydantic.newline ++ "Available Operations:");
           Text "===================="]
       ++ concat (operation_lines <$> ops))%list, w)).
Proof.
  unfold print_operations, bind, print, set_state, lift. cbn [fst snd iterate].
  rewrite print_each_operation_lines. by rewrite <- !app_assoc.
Qed.


Lemma endpoint_discover (w : W) :
  post (VDict [("type", VStr "discover"); ("version", VStr "0.1.0")]) w
  = (inr (McpServer.MCPDiscoverResponse_dict "0.1.0" McpServer.OPERATIONS), w).
Proof. reflexivity. Qed.

(** X29: example_client.main with the discover command (or no command) against
    the geotab-mcp-server endpoint: the request it sends is accepted, the
    error branch is not taken, and the whole server catalog is written. *)
Theorem example_client_discover a written (w : W) :
  command a = None ∨ command a = Some "discover" →
  main rt post a (written, w)
  = (inr tt,
     ((written
       ++ [Text (Pydantic.newline ++ "Available Operations:");
           Text "===================="]
       ++ concat (operation_lines <$> McpServer.OPERATIONS))%list, w)).
Proof.
  intros Hcommand.
  assert (main rt post a (written, w)
          = print_operations rt
              (VList (McpServer.MCPOperation_dict <$> McpServer.OPERATIONS))
              (written, w)) as ->.
  { unfold main. destruct Hcommand as [-> | ->].
    all: unfold bind at 1, with_state at 1, discover; cbn [fst snd].
    all: rewrite endpoint_discover; reflexivity. }
  apply print_operations_lines.
Qed.

Lemma endpoint_execute operation parameters (w : W) :
  post (VDict (execute_body "0.1.0" operation parameters)) w
  = handle_execute (McpServer.mkExecuteRequest "execute" "0.1.0" operation parameters) w.
Proof.
  destruct (server_handle_execute_replies rt now client
              (McpServer.mkExecuteRequest "execute" "0.1.0" operation parameters) w)
    as (reply & w' & Hreply & _).
  unfold McpServer.mcp_endpoint, try_except, bind, ret, lift.
  cbn [method_get execute_body dict_get_default dict_lookup String.eqb Ascii.eqb
       Bool.eqb default id].
  change (eq_str (VStr "execute") "discover") with false.
  change (eq_str (VStr "execute") "execute") with true. cbv iota.
  change (McpServer.MCPExecuteRequest_init rt _)
    with (@inr exn _ (McpServer.mkExecuteRequest "execute" "0.1.0" operation parameters)).
  cbv beta iota. by rewrite Hreply.
Qed.

Lemma main_execute a operation parameters written (w : W) reply w' :
  main rt post a (written, w)
  = (result <- with_state (execute post operation (Some parameters)) ;;
     print_result result) (written, w) →
  handle_execute (McpServer.mkExecuteRequest "execute" "0.1.0" operation parameters) w
  = (inr reply, w') →
  main rt post a (written, w)
  = (inr tt,
     ((written ++ [Text (Pydantic.newline ++ "Operation Result:");
                   Text "================";
                   Dump reply])%list, w')).
Proof.
  intros -> Hreply. unfold bind at 1, with_state, execute. cbn [fst snd].
  change (VDict [("type", VStr "execute"); ("version", VStr mcp_version);
                 ("operation", VStr operation); ("parameters", VDict parameters)])
    with (VDict (execute_body "0.1.0" operation parameters)).
  rewrite endpoint_execute, Hreply.
  unfold print_result, bind, print, set_state. cbn [fst snd].
  by rewrite <- !app_assoc.
Qed.

(** X30: example_client.main with any of its four execute commands against the
    geotab-mcp-server endpoint: the operation it names is in the server's
    operation map, the parameters it sends bind to that method's
    signature, and the reply of handle_execute is what gets written as the
    result; the script does not raise. *)
Theorem example_client_requests_bind a written (w : W) :
  command a ∈ [Some "get_device_info"; Some "get_device_location";
               Some "get_trip_data"; Some "get_fault_data"] →
  ∃ operation parameters qualname sig body bound reply w',
    command a = Some operation ∧
    dict_lookup operation_map operation
      = Some (McpServer.GeotabOperations.method qualname sig body) ∧
    bind_kwargs qualname sig parameters = inr bound ∧
    handle_execute
      (McpServer.mkExecuteRequest "execute" "0.1.0" operation parameters) w
      = (inr reply, w') ∧
    main rt post a (written, w)
    = (inr tt,
       ((written ++ [Text (Pydantic.newline ++ "Operation Result:");
                     Text "================";
                     Dump reply])%list, w')).
Proof.
  intros Hcommand.
  repeat (apply elem_of_cons in Hcommand as [Hcommand|Hcommand]);
    [| | | |by apply elem_of_nil in Hcommand].
  - destruct (server_handle_execute_replies rt now client
                (McpServer.mkExecuteRequest "execute" "0.1.0" "get_device_info"
                   (if include_inactive a then [("include_inactive", VBool true)] else []))
                w) as (reply & w' & Hreply & _).
    exists "get_device_info",
      (if include_inactive a then [("include_inactive", VBool true)] else []).
    do 3 eexists.
    exists (if include_inactive a then [("include_inactive", VBool true)]
            else [("include_inactive", VBool false)]), reply, w'.
    split; [exact Hcommand|]. split; [reflexivity|].
    split; [by destruct (include_inactive a)|]. split; [exact Hreply|].
    refine (main_execute a _ _ written w reply w' _ Hreply).
    unfold main. by rewrite Hcommand.
  - destruct (server_handle_execute_replies rt now client
                (McpServer.mkExecuteRequest "execute" "0.1.0" "get_device_location"
                   [("device_id", VStr (device_id a))]) w)
      as (reply & w' & Hreply & _).
    exists "get_device_location", [("device_id", VStr (device_id a))].
    do 3 eexists. exists [("device_id", VStr (device_id a))], reply, w'.
    split; [exact Hcommand|]. split; [reflexivity|].
    split; [reflexivity|]. split; [exact Hreply|].
    refine (main_execute a _ _ written w reply w' _ Hreply).
    unfold main. by rewrite Hcommand.
  - destruct (server_handle_execute_replies rt now client
                (McpServer.mkExecuteRequest "execute" "0.1.0" "get_trip_data"
                   [("device_id", VStr (device_id a)); ("days", VInt (days a))]) w)
      as (reply & w' & Hreply & _).
    exists "get_trip_data",
      [("device_id", VStr (device_id a)); ("days", VInt (days a))].
    do 3 eexists.
    exists [("device_id", VStr (device_id a)); ("days", VInt (days a))], reply, w'.
    split; [exact Hcommand|]. split; [reflexivity|].
    split; [reflexivity|]. split; [exact Hreply|].
    refine (main_execute a _ _ written w reply w' _ Hreply).
    unfold main. by rewrite Hcommand.
  - destruct (server_handle_execute_replies rt now client
                (McpServer.mkExecuteRequest "execute" "0.1.0" "get_fault_data"
                   [("device_id", VStr (device_id a)); ("days", VInt (days a));
                    ("active_only", VBool (active_only a))]) w)
      as (reply & w' & Hreply & _).
    exists "get_fault_data",
      [("device_id", VStr (device_id a)); ("days", VInt (days a));
       ("active_only", VBool (active_only a))].
    do 3 eexists.
    exists [("device_id", VStr (device_id a)); ("days", VInt (days a));
            ("active_only", VBool (active_only a))], reply, w'.
    split; [exact Hcommand|]. split; [reflexivity|].
    split; [reflexivity|]. split; [exact Hreply|].
    refine (main_execute a _ _ written w reply w' _ Hreply).
    unfold main. by rewrite Hcommand.
Qed.

End ExampleClientFacts.

(* ===================================================================== *)
(** * Runs on the stub fleet                                               *)
(* ===================================================================== *)

Section Runs.

Local Abbreviation clock := (with_state_clock Stub.now).
Local Abbreviation server := (GeotabApi.as_client Fleet.sdk Stub.now).
Local Abbreviation docker := (GeotabDocker.as_client Fleet.sdk Stub.now).
Local Abbreviation fresh := (GeotabApi.init, 0%nat).
Local Abbreviation docker_fresh := (GeotabDocker.init, 0%nat).

Lemma get_device_info_result_witness :
  McpServer.GeotabOperations.get_device_info clock server (VBool false) fresh
  = (inr (VDict
            [("operation", VStr "get_device_info");
             ("result",
              VDict [("devices",
                      VList [VDict [("id", VStr "b1"); ("name", VStr "Truck 1");
                                    ("serial_number", VStr "G9-0001");
                                    ("device_type", VStr "GO9");
                                    ("active", VBool true)];
                             VDict [("id", VStr "b3"); ("name", VStr "Van 3");
                                    ("serial_number", VNone);
                                    ("device_type", VNone);
                                    ("active", VBool true)]]);
                     ("count", VInt 2);
                     ("timestamp", VStr "2024-03-01T12:00:00")])]),
     (Fleet.server_ready, 1%nat)).
Proof.
  lazymatch eval vm_compute in (GeotabApi.get_devices Fleet.sdk fresh) with
  | (inr ?devices, ?w1) =>
      refine (get_device_info_result clock server (VBool false) devices
                Stub.clock_start fresh w1 (Fleet.server_ready, 1%nat) _ _ _)
  end.
  - reflexivity.
  - repeat constructor; by eexists.
  - reflexivity.
Defined.

Lemma get_trip_data_window_witness :
  ∃ result w',
    McpServer.GeotabOperations.get_trip_data Stub.rt clock server (VStr "b1") (VInt 2)
      fresh
    = (inr (VDict [("operation", VStr "get_trip_data"); ("result", VDict result)]), w') ∧
    dict_lookup result "from_date" = Some (VStr "2024-02-28T12:00:00") ∧
    dict_lookup result "to_date" = Some (VStr "2024-03-01T12:00:01") ∧
    dict_lookup result "count" = Some (VInt 1).
Proof.
  do 2 eexists. split.
  { lazymatch eval vm_compute in
      (GeotabApi.get_trip_data Fleet.sdk Stub.now (VStr "b1")
         (Some (Stub.clock_start - 2 * us_per_day)) (Some (Stub.clock_start + 1000000))
         (GeotabApi.init, 2%nat)) with
    | (inr ?trips, ?w3) =>
        refine (get_trip_data_window Stub.rt clock server (VStr "b1") 2 trips
                  Stub.clock_start (Stub.clock_start + 1000000)
                  (Stub.clock_start + 2000000)
                  fresh (GeotabApi.init, 1%nat) (GeotabApi.init, 2%nat) w3
                  (Fleet.server_ready, 3%nat) _ _ _ _ _ _)
    end.
    - unfold max_delta_days. lia.
    - reflexivity.
    - unfold datetime_valid, Stub.clock_start, max_ordinal, us_per_day. lia.
    - reflexivity.
    - reflexivity.
    - reflexivity. }
  repeat split; reflexivity.
Defined.

Lemma get_fault_data_result_witness :
  ∃ result w',
    McpServer.GeotabOperations.get_fault_data Stub.rt clock server (VStr "b1") (VInt 7)
      (VBool true) fresh
    = (inr (VDict [("operation", VStr "get_fault_data"); ("result", VDict result)]), w') ∧
    dict_lookup result "from_date" = Some (VStr "2024-02-23T12:00:00") ∧
    dict_lookup result "count" = Some (VInt 0).
Proof.
  do 2 eexists. split.
  { lazymatch eval vm_compute in
      (GeotabApi.get_fault_data Fleet.sdk Stub.now (VStr "b1")
         (Some (Stub.clock_start - 7 * us_per_day)) (Some (Stub.clock_start + 1000000))
         (GeotabApi.init, 2%nat)) with
    | (inr ?faults, ?w3) =>
        refine (get_fault_data_result Stub.rt clock server (VStr "b1") 7 (VBool true) faults
                  Stub.clock_start (Stub.clock_start + 1000000)
                  (Stub.clock_start + 2000000)
                  fresh (GeotabApi.init, 1%nat) (GeotabApi.init, 2%nat) w3
                  (Fleet.server_ready, 3%nat) _ _ _ _ _ _ _)
    end.
    - unfold max_delta_days. lia.
    - reflexivity.
    - unfold datetime_valid, Stub.clock_start, max_ordinal, us_per_day. lia.
    - reflexivity.
    - reflexivity.
    - repeat constructor; by eexists.
    - reflexivity. }
  repeat split; reflexivity.
Defined.

Lemma handle_execute_days_not_a_number_witness :
  McpServer.handle_execute Stub.rt clock server
    (McpServer.mkExecuteRequest "execute" "0.1.0" "get_trip_data"
       [("device_id", VStr "b1"); ("days", VStr "two")]) fresh
  = (inr (McpServer.MCPErrorResponse_dict "0.1.0" "Invalid parameters"
            [("message", VStr "unsupported type for timedelta days component: str")]),
     (GeotabApi.init, 1%nat)).
Proof.
  apply (handle_execute_days_not_a_number Stub.rt clock server "0.1.0" "get_trip_data"
           (VStr "b1") (VStr "two") Stub.clock_start fresh (GeotabApi.init, 1%nat)).
  - apply list_elem_of_here.
  - reflexivity.
  - reflexivity.
Defined.


Lemma handle_get_trips_window_witness :
  ∃ result w',
    McpDocker.handle_get_trips Stub.rt clock docker
      [("device_id", VStr "b1"); ("days", VInt 3)] docker_fresh
    = (inr (VDict result), w') ∧
    dict_lookup result "from_date" = Some (VStr "2024-02-27T12:00:00") ∧
    dict_lookup result "to_date" = Some (VStr "2024-03-01T12:00:00") ∧
    dict_lookup result "count" = Some (VInt 1).
Proof.
  do 2 eexists. split.
  { lazymatch eval vm_compute in
      (GeotabDocker.get_trips Fleet.sdk Stub.now (VStr "b1")
         (Some (Stub.clock_start - 3 * us_per_day)) (Some Stub.clock_start)
         (VBool false) (GeotabDocker.init, 1%nat)) with
    | (inr ?trips, ?w2) =>
        refine (handle_get_trips_window Stub.rt clock docker
                  [("device_id", VStr "b1"); ("days", VInt 3)] (VStr "b1") 3 trips
                  Stub.clock_start (Stub.clock_start + 1000000)
                  docker_fresh (GeotabDocker.init, 1%nat) w2
                  (Fleet.docker_ready, 2%nat) _ _ _ _ _ _ _ _)
    end.
    - reflexivity.
    - reflexivity.
    - reflexivity.
    - unfold max_delta_days. lia.
    - reflexivity.
    - unfold datetime_valid, Stub.clock_start, max_ordinal, us_per_day. lia.
    - reflexivity.
    - reflexivity. }
  repeat split; reflexivity.
Defined.

Lemma handle_get_fault_data_window_witness :
  ∃ result w',
    McpDocker.handle_get_fault_data Stub.rt clock docker
      [("device_id", VStr "b1")] docker_fresh
    = (inr (VDict result), w') ∧
    dict_lookup result "from_date" = Some (VStr "2024-02-23T12:00:00") ∧
    dict_lookup result "to_date" = Some (VStr "2024-03-01T12:00:00") ∧
    dict_lookup result "count" = Some (VInt 1).
Proof.
  do 2 eexists. split.
  { lazymatch eval vm_compute in
      (GeotabDocker.get_fault_data Fleet.sdk Stub.now (VStr "b1")
         (Some (Stub.clock_start - 7 * us_per_day)) (Some Stub.clock_start)
         (VBool true) (GeotabDocker.init, 1%nat)) with
    | (inr ?faults, ?w2) =>
        refine (handle_get_fault_data_window Stub.rt clock docker
                  [("device_id", VStr "b1")] (VStr "b1") 7 faults
                  Stub.clock_start (Stub.clock_start + 1000000)
                  docker_fresh (GeotabDocker.init, 1%nat) w2
                  (Fleet.docker_ready, 2%nat) _ _ _ _ _ _ _ _)
    end.
    - reflexivity.
    - reflexivity.
    - reflexivity.
    - unfold max_delta_days. lia.
    - reflexivity.
    - unfold datetime_valid, Stub.clock_start, max_ordinal, us_per_day. lia.
    - reflexivity.
    - reflexivity. }
  repeat split; reflexivity.
Defined.

Lemma handle_get_status_data_window_witness :
  ∃ result w',
    McpDocker.handle_get_status_data Stub.rt clock docker
      [("device_id", VStr "b1"); ("hours", VInt 6)] docker_fresh
    = (inr (VDict result), w') ∧
    dict_lookup result "from_date" = Some (VStr "2024-03-01T06:00:00") ∧
    dict_lookup result "to_date" = Some (VStr "2024-03-01T12:00:00") ∧
    dict_lookup result "count" = Some (VInt 0).
Proof.
  do 2 eexists. split.
  { lazymatch eval vm_compute in
      (GeotabDocker.get_status_data Fleet.sdk Stub.now (VStr "b1") VNone
         (Some (Stub.clock_start - 6 * us_per_hour)) (Some Stub.clock_start)
         (GeotabDocker.init, 1%nat)) with
    | (inr ?status_data, ?w2) =>
        refine (handle_get_status_data_window Stub.rt clock docker
                  [("device_id", VStr "b1"); ("hours", VInt 6)] (VStr "b1") 6 status_data
                  Stub.clock_start (Stub.clock_start + 1000000)
                  docker_fresh (GeotabDocker.init, 1%nat) w2
                  (Fleet.docker_ready, 2%nat) _ _ _ _ _ _ _ _)
    end.
    - reflexivity.
    - reflexivity.
    - reflexivity.
    - lia.
    - reflexivity.
    - unfold datetime_valid, Stub.clock_start, max_ordinal, us_per_day, us_per_hour. lia.
    - reflexivity.
    - reflexivity. }
  repeat split; reflexivity.
Defined.

Lemma docker_days_not_convertible_witness :
  McpDocker.handle_execute Stub.rt clock docker
    (execute_body "0.1.0" "get_trips" [("device_id", VStr "b1"); ("days", VStr "soon")])
    docker_fresh
  = (inr (McpDocker.MCPErrorResponse_dict "0.1.0" "Operation error"
            [("message", VStr "could not convert string to float: 'soon'")]),
     docker_fresh).
Proof.
  apply (docker_days_not_convertible Stub.rt clock docker "0.1.0" "get_trips"
           [("device_id", VStr "b1"); ("days", VStr "soon")] (VStr "soon")
           (ValueError "could not convert string to float: 'soon'") docker_fresh).
  - apply list_elem_of_here.
  - reflexivity.
  - reflexivity.
  - reflexivity.
Defined.

Lemma discover_without_version_witness :
  ∃ details,
    McpServer.mcp_endpoint Stub.rt Stub.now Stub.server_client
      (ret (VDict [("type", VStr "discover")])) 0%nat
    = (inr (McpServer.MCPErrorResponse_dict "0.1.0" "Invalid request format" details),
       0%nat).
Proof.
  eexists.
  apply (proj1 (discover_without_version Stub.rt Stub.now Stub.server_client
                  Stub.docker_client [("type", VStr "discover")] 0%nat
                  eq_refl eq_refl eq_refl)).
Defined.

Lemma execute_ignores_version_and_unknown_fields_witness :
  McpServer.mcp_endpoint Stub.rt Stub.now Stub.server_client
    (ret (VDict (execute_body "0.1.0" "get_device_info" []
                 ++ [("trace", VStr "abc")]))) 0%nat
  = McpServer.mcp_endpoint Stub.rt Stub.now Stub.server_client
      (ret (VDict (execute_body "9" "get_device_info" []))) 0%nat.
Proof.
  apply (proj1 (proj1 (execute_ignores_version_and_unknown_fields Stub.rt Stub.now
                         Stub.server_client Stub.docker_client "0.1.0" "9"
                         "get_device_info" [] [("trace", VStr "abc")] 0%nat eq_refl))).
Defined.

Lemma get_device_location_found_witness :
  McpServer.handle_execute Stub.rt Stub.now Fleet.server_client
    (McpServer.mkExecuteRequest "execute" "0.1.0" "get_device_location"
       [("device_id", VStr "b1")]) 0%nat
  = (inr (McpServer.MCPExecuteResponse_dict "0.1.0" "get_device_location"
            [("location", Fleet.location);
             ("timestamp", VStr "2024-03-01T12:00:00")]), 1%nat)
  ∧
  McpDocker.handle_execute Stub.rt Stub.now Fleet.docker_client
    (execute_body "0.1.0" "get_device_location" [("device_id", VStr "b1")]) 0%nat
  = (inr (McpDocker.MCPExecuteResponse_dict "0.1.0" "get_device_location"
            [("location", Fleet.location);
             ("timestamp", VStr "2024-03-01T12:00:00")]), 1%nat).
Proof.
  pose proof (get_device_location_found Stub.rt Stub.now Fleet.server_client
                Fleet.docker_client "0.1.0" (VStr "b1") Fleet.location
                [("device_id", VStr "b1")] Stub.clock_start 0%nat 0%nat 1%nat
                eq_refl eq_refl) as [Hserver Hdocker].
  split.
  - exact (Hserver eq_refl).
  - exact (Hdocker eq_refl eq_refl eq_refl).
Defined.

Lemma server_ensure_authenticated_once_witness :
  GeotabApi.ensure_authenticated Fleet.sdk (Fleet.server_ready, 5%nat)
  = (inr true, (Fleet.server_ready, 5%nat)).
Proof.
  apply (server_ensure_authenticated_once Fleet.sdk GeotabApi.init 0%nat
           Fleet.server_ready 0%nat).
  reflexivity.
Defined.

Lemma server_client_contains_sdk_errors_witness :
  isinstance Stub.down "MyGeotabException" = false
  ∧
  GeotabApi.get_devices (Fleet.sdk_raising Fleet.refused) fresh
  = (inr [], (Fleet.server_ready, 0%nat))
  ∧
  GeotabApi.get_device_location Fleet.sdk_refusing (VStr "b1") fresh
  = (inr VNone, (GeotabApi.mkState true false, 0%nat)).
Proof.
  split; [|split].
  - apply (proj1 (server_client_contains_sdk_errors (Fleet.sdk_raising Stub.down)
                    Stub.now (VStr "b1") None None)
             fresh Stub.down (Fleet.server_ready, 0%nat)).
    left. reflexivity.
  - apply (proj1 (proj2 (proj2 (server_client_contains_sdk_errors
                                  (Fleet.sdk_raising Fleet.refused) Stub.now
                                  (VStr "b1") None None))
                    GeotabApi.init 0%nat Fleet.server_ready 0%nat Fleet.refused 0%nat
                    0 0 eq_refl eq_refl)).
    reflexivity.
  - apply (proj1 (proj2 (proj1 (proj2 (server_client_contains_sdk_errors
                                         Fleet.sdk_refusing Stub.now
                                         (VStr "b1") None None))
                           GeotabApi.init 0%nat (GeotabApi.mkState true false, 0%nat)
                           eq_refl))).
Defined.

Lemma server_rejected_credentials_reply_witness :
  McpServer.handle_execute Stub.rt clock (GeotabApi.as_client Fleet.sdk_refusing Stub.now)
    (McpServer.mkExecuteRequest "execute" "0.1.0" "get_device_info"
       [("include_inactive", VBool true)]) fresh
  = (inr (McpServer.MCPExecuteResponse_dict "0.1.0" "get_device_info"
            [("devices", VList []);
             ("count", VInt 0);
             ("timestamp", VStr "2024-03-01T12:00:00")]),
     (GeotabApi.mkState true false, 1%nat)).
Proof.
  apply (server_rejected_credentials_reply Stub.rt Fleet.sdk_refusing Stub.now "0.1.0"
           (VBool true) GeotabApi.init 0%nat (GeotabApi.mkState true false) 0%nat
           Stub.clock_start 1%nat).
  - reflexivity.
  - reflexivity.
Defined.

Lemma server_execute_get_device_info_witness :
  ∃ result w',
    McpServer.handle_execute Stub.rt clock server
      (McpServer.mkExecuteRequest "execute" "0.1.0" "get_device_info"
         [("include_inactive", VBool false)]) fresh
    = (inr (McpServer.MCPExecuteResponse_dict "0.1.0" "get_device_info" result), w') ∧
    dict_lookup result "count" = Some (VInt 2).
Proof.
  do 2 eexists. split.
  { apply (server_execute_get_device_info Stub.rt Fleet.sdk Stub.now "0.1.0" (VBool false)
             GeotabApi.init 0%nat Fleet.server_ready 0%nat
             [Fleet.truck; Fleet.trailer; Fleet.van] 0%nat Stub.clock_start 1%nat).
    - reflexivity.
    - reflexivity.
    - reflexivity. }
  reflexivity.
Defined.

Lemma server_location_address_witness :
  GeotabApi.get_device_location Fleet.sdk (VStr "b1") fresh
  = (inr (VDict [("device_id", VStr "b1");
                 ("timestamp", VStr "2024-03-01T11:59:00");
                 ("latitude", VInt 43);
                 ("longitude", VInt (-79));
                 ("speed", VInt 0);
                 ("bearing", VInt 90);
                 ("address", VStr "12 King St W")]),
     (Fleet.server_ready, 0%nat)).
Proof.
  apply (server_location_address Fleet.sdk (VStr "b1") GeotabApi.init 0%nat
           Fleet.server_ready 0%nat Fleet.status [] 0%nat).
  - reflexivity.
  - reflexivity.
Defined.

Lemma server_execute_get_trip_data_witness :
  ∃ result w',
    McpServer.handle_execute Stub.rt clock server
      (McpServer.mkExecuteRequest "execute" "0.1.0" "get_trip_data"
         [("device_id", VStr "b1"); ("days", VInt 1)]) fresh
    = (inr (McpServer.MCPExecuteResponse_dict "0.1.0" "get_trip_data" result), w') ∧
    dict_lookup result "from_date" = Some (VStr "2024-02-29T12:00:00") ∧
    dict_lookup result "count" = Some (VInt 1).
Proof.
  do 2 eexists. split.
  { apply (server_execute_get_trip_data Stub.rt Fleet.sdk Stub.now "0.1.0" (VStr "b1") 1
             GeotabApi.init 0%nat Stub.clock_start 1%nat (Stub.clock_start + 1000000)
             2%nat Fleet.server_ready 2%nat [Fleet.morning_trip] 2%nat
             (Stub.clock_start + 2000000) 3%nat).
    - unfold max_delta_days. lia.
    - reflexivity.
    - unfold datetime_valid, Stub.clock_start, max_ordinal, us_per_day. lia.
    - reflexivity.
    - reflexivity.
    - reflexivity.
    - reflexivity. }
  repeat split; reflexivity.
Defined.

Lemma server_execute_sdk_failure_witness :
  ∃ result w',
    McpServer.handle_execute Stub.rt clock
      (GeotabApi.as_client (Fleet.sdk_raising Fleet.refused) Stub.now)
      (McpServer.mkExecuteRequest "execute" "0.1.0" "get_trip_data"
         [("device_id", VStr "b1"); ("days", VInt 1)]) fresh
    = (inr (McpServer.MCPExecuteResponse_dict "0.1.0" "get_trip_data" result), w') ∧
    dict_lookup result "count" = Some (VInt 0).
Proof.
  do 2 eexists. split.
  { apply (server_execute_sdk_failure Stub.rt (Fleet.sdk_raising Fleet.refused) Stub.now
             "0.1.0" (VStr "b1") 1
             GeotabApi.init 0%nat Stub.clock_start 1%nat (Stub.clock_start + 1000000)
             2%nat Fleet.server_ready 2%nat Fleet.refused 2%nat
             (Stub.clock_start + 2000000) 3%nat).
    - unfold max_delta_days. lia.
    - reflexivity.
    - unfold datetime_valid, Stub.clock_start, max_ordinal, us_per_day. lia.
    - reflexivity.
    - reflexivity.
    - reflexivity.
    - reflexivity. }
  reflexivity.
Defined.


Lemma docker_session_reuse_witness :
  GeotabDocker.ensure_authenticated Fleet.sdk (Fleet.docker_ready, 5%nat)
  = (inr true, (Fleet.docker_ready, 5%nat)).
Proof.
  apply (docker_session_reuse Fleet.sdk GeotabDocker.init 0%nat Fleet.docker_ready 0%nat).
  reflexivity.
Defined.

Lemma docker_client_contains_sdk_errors_witness :
  isinstance Stub.down "MyGeotabException" = false.
Proof.
  apply (docker_client_contains_sdk_errors (Fleet.sdk_raising Stub.down) Stub.now
           (VStr "b1") (VBool false) None None docker_fresh Stub.down
           (Fleet.docker_ready, 0%nat)).
  left. reflexivity.
Defined.

Lemma docker_trips_survive_address_lookup_witness :
  GeotabDocker.get_trips (Fleet.sdk_no_geocoder Stub.down) Stub.now (VStr "b1")
    (Some (Stub.clock_start - us_per_day)) (Some Stub.clock_start) (VBool false)
    docker_fresh
  = (inr [VDict [("id", VStr "t1");
                  ("device_id", VStr "b1");
                  ("start_time", VStr "2024-03-01T08:00:00");
                  ("end_time", VStr "2024-03-01T09:10:00");
                  ("duration", VNone);
                  ("distance", VInt 42);
                  ("start_latitude", VInt 43);
                  ("start_longitude", VInt (-79));
                  ("end_latitude", VNone);
                  ("end_longitude", VNone);
                  ("max_speed", VNone);
                  ("average_speed", VNone);
                  ("idle_time", VNone);
                  ("stop_time", VNone)]],
     (Fleet.docker_ready, 0%nat)).
Proof.
  exact (proj1 (docker_trips_survive_address_lookup (Fleet.sdk_no_geocoder Stub.down)
                  Stub.now (VStr "b1") (Stub.clock_start - us_per_day) Stub.clock_start
                  (VBool false) GeotabDocker.init 0%nat Fleet.docker_ready 0%nat
                  [Fleet.morning_trip] 0%nat eq_refl eq_refl eq_refl)).
Defined.

Lemma docker_trips_then_stops_witness :
  GeotabDocker.get_trips Fleet.sdk Stub.now (VStr "b1")
    (Some (Stub.clock_start - us_per_day)) (Some Stub.clock_start) (VBool true)
    docker_fresh
  = (inr [VDict [("id", VStr "t1");
                  ("device_id", VStr "b1");
                  ("start_time", VStr "2024-03-01T08:00:00");
                  ("end_time", VStr "2024-03-01T09:10:00");
                  ("duration", VNone);
                  ("distance", VInt 42);
                  ("start_latitude", VInt 43);
                  ("start_longitude", VInt (-79));
                  ("end_latitude", VNone);
                  ("end_longitude", VNone);
                  ("max_speed", VNone);
                  ("average_speed", VNone);
                  ("idle_time", VNone);
                  ("stop_time", VNone);
                  ("start_address", VStr "12 King St W")];
          VDict [("type", VStr "stop");
                 ("id", VStr "n1");
                 ("device_id", VStr "b1");
                 ("start_time", VNone);
                 ("end_time", VNone);
                 ("duration", VNone);
                 ("latitude", VInt 43);
                 ("longitude", VInt (-79));
                 ("address", VStr "12 King St W")]],
     (Fleet.docker_ready, 0%nat)).
Proof.
  exact (docker_trips_then_stops Fleet.sdk Stub.now (VStr "b1")
           (Stub.clock_start - us_per_day) Stub.clock_start (VBool true)
           GeotabDocker.init 0%nat Fleet.docker_ready 0%nat [Fleet.morning_trip] 0%nat
           (inr [Fleet.lunch_stop]) 0%nat eq_refl eq_refl eq_refl eq_refl).
Defined.

Lemma docker_location_address_witness :
  GeotabDocker.get_device_location (Fleet.sdk_no_geocoder Stub.down) (VStr "b1")
    docker_fresh
  = (inr (VDict [("device_id", VStr "b1");
                 ("timestamp", VStr "2024-03-01T11:59:00");
                 ("latitude", VInt 43);
                 ("longitude", VInt (-79));
                 ("speed", VInt 0);
                 ("direction", VInt 90);
                 ("address", VNone);
                 ("is_driving", VBool false);
                 ("is_moving", VBool false)]),
     (Fleet.docker_ready, 0%nat)).
Proof.
  apply (docker_location_address (Fleet.sdk_no_geocoder Stub.down) (VStr "b1")
           GeotabDocker.init 0%nat Fleet.docker_ready 0%nat Fleet.status [] 0%nat).
  - reflexivity.
  - reflexivity.
Defined.

Lemma docker_execute_get_devices_witness :
  ∃ result w',
    McpDocker.handle_execute Stub.rt clock docker
      (execute_body "0.1.0" "get_devices" []) docker_fresh
    = (inr (McpDocker.MCPExecuteResponse_dict "0.1.0" "get_devices" result), w') ∧
    dict_lookup result "count" = Some (VInt 3).
Proof.
  do 2 eexists. split.
  { lazymatch eval vm_compute in
      (format_all (λ _, GeotabDocker.device_fields)
         (VDict <$> [Fleet.truck; Fleet.trailer; Fleet.van])) with
    | inr ?devices =>
        apply (docker_execute_get_devices Stub.rt Fleet.sdk Stub.now "0.1.0" []
                 GeotabDocker.init 0%nat Fleet.docker_ready 0%nat
                 (VDict <$> [Fleet.truck; Fleet.trailer; Fleet.van]) 0%nat devices
                 Stub.clock_start 1%nat)
    end.
    - reflexivity.
    - reflexivity.
    - reflexivity.
    - reflexivity. }
  reflexivity.
Defined.

Lemma docker_execute_get_fault_data_witness :
  ∃ result w',
    McpDocker.handle_execute Stub.rt clock docker
      (execute_body "0.1.0" "get_fault_data"
         [("device_id", VStr "b1"); ("active_only", VBool true)]) docker_fresh
    = (inr (McpDocker.MCPExecuteResponse_dict "0.1.0" "get_fault_data" result), w') ∧
    dict_lookup result "from_date" = Some (VStr "2024-02-23T12:00:00") ∧
    dict_lookup result "count" = Some (VInt 1).
Proof.
  do 2 eexists. split.
  { lazymatch eval vm_compute in
      (collect (GeotabDocker.format_fault (VStr "b1")) [VDict Fleet.engine_fault]) with
    | inr ?faults =>
        apply (docker_execute_get_fault_data Stub.rt Fleet.sdk Stub.now "0.1.0"
                 [("device_id", VStr "b1"); ("active_only", VBool true)] (VStr "b1") 7
                 GeotabDocker.init 0%nat Stub.clock_start 1%nat
                 Fleet.docker_ready 1%nat [VDict Fleet.engine_fault] 1%nat faults
                 (Stub.clock_start + 1000000) 2%nat)
    end.
    - reflexivity.
    - reflexivity.
    - reflexivity.
    - unfold max_delta_days. lia.
    - reflexivity.
    - unfold datetime_valid, Stub.clock_start, max_ordinal, us_per_day. lia.
    - reflexivity.
    - reflexivity.
    - reflexivity.
    - reflexivity. }
  repeat split; reflexivity.
Defined.

Lemma example_client_discover_witness :
  ∃ written,
    ExampleClient.main Stub.rt
      (λ payload, McpServer.mcp_endpoint Stub.rt Stub.now Stub.server_client (ret payload))
      (ExampleClient.mkArgs None false "" 1 false) ([], 0%nat)
    = (inr tt, (written, 0%nat)) ∧
    length written = 36%nat.
Proof.
  eexists. split.
  { apply (example_client_discover Stub.rt Stub.now Stub.server_client
             (ExampleClient.mkArgs None false "" 1 false) [] 0%nat).
    left. reflexivity. }
  reflexivity.
Defined.

Lemma example_client_requests_bind_witness :
  ∃ reply w',
    ExampleClient.main Stub.rt
      (λ payload, McpServer.mcp_endpoint Stub.rt Stub.now Stub.server_client (ret payload))
      (ExampleClient.mkArgs (Some "get_trip_data") false "b1" 2 false) ([], 0%nat)
    = (inr tt,
       ([ExampleClient.Text (Pydantic.newline ++ "Operation Result:");
         ExampleClient.Text "================";
         ExampleClient.Dump reply], w')).
Proof.
  destruct (example_client_requests_bind Stub.rt Stub.now Stub.server_client
              (ExampleClient.mkArgs (Some "get_trip_data") false "b1" 2 false) [] 0%nat)
    as (operation & parameters & qualname & sig & body & bound & reply & w' & _ & _ & _
        & _ & Hmain).
  { apply list_elem_of_further, list_elem_of_further, list_elem_of_here. }
  exists reply, w'. exact Hmain.
Defined.

End Runs.
